(** * AgentBay Dashboard SDK: the security and compliance monitor

    A shallow embedding of the two [SecurityMonitor] classes of the
    repository,

    - [SDK/python/hr_agent_sdk/security.py]     (module [SDK] below), and
    - [SDK-HR/python/hr_agent_sdk/security.py]  (module [HR] below),

    together with the part of Python's [re] and [str] that they call.

    Conventions of the embedding.

    - A Python [str] is a Rocq [string]; a character is a code point below
      256 (the ASCII and Latin-1 blocks), classified the way CPython
      classifies it for [str] patterns.
    - Python integers that count things (lengths, ids, counters) are [nat];
      the score arithmetic, which subtracts, is done in [Z].
    - A reading of [time.time()] is a rational number of seconds; every
      function that reads the clock takes its readings as arguments.
    - [round(x, n)] on a float is not computed: it is the parameter
      [py_round] of the functions that call it.
    - The mutable attributes of a monitor are the fields of a record that
      is passed in and returned. *)

From Stdlib Require Import String Ascii List ZArith QArith Lia Bool DecimalString.
From Stdlib Require DecimalNat DecimalFacts.
From stdpp Require Import gmap strings.
Import ListNotations.

Open Scope string_scope.

(** ** Python [str] operations used by the monitors *)

Module PyStr.

(** [len(s)] *)
Definition len (s : string) : nat := String.length s.

(** [c * n] for a one-character string [c] *)
Fixpoint repeat_char (c : ascii) (n : nat) : string :=
  match n with
  | O => EmptyString
  | S k => String c (repeat_char c k)
  end.

(** [s[:n]] for [n >= 0] *)
Definition slice_to (n : nat) (s : string) : string := substring 0 n s.

(** [s[-n:]] for [n > 0]: the last [n] characters, all of [s] when it is
    shorter. *)
Definition slice_last (n : nat) (s : string) : string :=
  substring (len s - n) n s.

(** [l[:n]] on a list *)
Definition list_slice_to {A} (n : nat) (l : list A) : list A := firstn n l.

(** [l[-n:]] on a list, for [n > 0] *)
Definition list_slice_last {A} (n : nat) (l : list A) : list A :=
  skipn (length l - n) l.

End PyStr.

(** ** The fragment of Python's [re] used by the pattern tables *)

Module Re.

(** *** Character classification (code points 0..255) *)

Definition code (a : ascii) : N := N_of_ascii a.

Definition between (lo hi : N) (a : ascii) : bool :=
  ((lo <=? code a) && (code a <=? hi))%N.

(** [\d]: the decimal digits; below 256 these are ['0'..'9']. *)
Definition is_digit (a : ascii) : bool := between 48 57 a.

Definition is_ascii_upper (a : ascii) : bool := between 65 90 a.
Definition is_ascii_lower (a : ascii) : bool := between 97 122 a.

(** Latin-1 letters and numeric characters that [str.isalnum] accepts. *)
Definition is_latin1_alnum (a : ascii) : bool :=
  (code a =? 170)%N || (code a =? 178)%N || (code a =? 179)%N ||
  (code a =? 181)%N || (code a =? 185)%N || (code a =? 186)%N ||
  between 188 190 a || between 192 214 a || between 216 246 a ||
  between 248 255 a.

(** [\w]: alphanumeric or underscore. *)
Definition is_word (a : ascii) : bool :=
  is_digit a || is_ascii_upper a || is_ascii_lower a ||
  (code a =? 95)%N || is_latin1_alnum a.

(** [\s]: the characters for which [str.isspace] holds. *)
Definition is_space (a : ascii) : bool :=
  between 9 13 a || between 28 32 a || (code a =? 133)%N || (code a =? 160)%N.

(** Lower-casing used by [re.IGNORECASE]. *)
Definition lower (a : ascii) : ascii :=
  if is_ascii_upper a || (between 192 222 a && negb (code a =? 215)%N)
  then ascii_of_N (code a + 32) else a.

Definition upper (a : ascii) : ascii :=
  if is_ascii_lower a || (between 224 254 a && negb (code a =? 247)%N)
  then ascii_of_N (code a - 32) else a.

Definition newline : ascii := ascii_of_N 10.

(** *** Abstract syntax *)

(** Members of a bracketed set. *)
Inductive citem : Type :=
| CChar (a : ascii)               (* a literal member *)
| CRange (lo hi : ascii)          (* lo-hi *)
| CDigit                          (* \d *)
| CWord                           (* \w *)
| CSpace.                         (* \s *)

Inductive regex : Type :=
| Eps                                          (* empty pattern *)
| Lit (a : ascii)                              (* a literal character *)
| Any                                          (* .  (no DOTALL) *)
| Set_ (neg : bool) (items : list citem)       (* [...] and [^...] *)
| Seq (r1 r2 : regex)                          (* r1 r2 *)
| Alt (r1 r2 : regex)                          (* r1|r2 *)
| Rep (r : regex) (lo : nat) (hi : option nat) (* greedy r{lo,hi} *)
| Group (r : regex)                            (* (r) and (?:r) *)
| WordB                                        (* \b *)
| Eos.                                         (* $  (no MULTILINE) *)

(** A compiled pattern: the source text, the [(?i)] flag and the tree. *)
Record pattern : Type := Pattern {
  source : string;
  ignorecase : bool;
  tree : regex
}.

(** Builders that keep the tables close to the pattern text. *)
Fixpoint cat (rs : list regex) : regex :=
  match rs with
  | [] => Eps
  | r :: rs' => Seq r (cat rs')
  end.

Fixpoint lits (s : string) : list regex :=
  match s with
  | EmptyString => []
  | String a s' => Lit a :: lits s'
  end.

Definition text (s : string) : regex := cat (lits s).

Definition digit : regex := Set_ false [CDigit].
Definition word : regex := Set_ false [CWord].
Definition space : regex := Set_ false [CSpace].
Definition star (r : regex) : regex := Rep r 0 None.
Definition plus (r : regex) : regex := Rep r 1 None.
Definition opt (r : regex) : regex := Rep r 0 (Some 1).
Definition times (n : nat) (r : regex) : regex := Rep r n (Some n).
Definition at_least (n : nat) (r : regex) : regex := Rep r n None.
Definition from_to (n m : nat) (r : regex) : regex := Rep r n (Some m).

(** *** Matching *)

(** A position in the subject: the character just before it, if any, and
    the characters from it on. *)
Record cursor : Type := Cursor {
  prev : option ascii;
  rest : list ascii
}.

Definition item_mem (it : citem) (a : ascii) : bool :=
  match it with
  | CChar b => Ascii.eqb a b
  | CRange lo hi => between (code lo) (code hi) a
  | CDigit => is_digit a
  | CWord => is_word a
  | CSpace => is_space a
  end.

Definition item_matches (ic : bool) (it : citem) (a : ascii) : bool :=
  item_mem it a || (ic && (item_mem it (lower a) || item_mem it (upper a))).

Definition set_matches (ic neg : bool) (items : list citem) (a : ascii) : bool :=
  xorb neg (existsb (fun it => item_matches ic it a) items).

Definition lit_matches (ic : bool) (b a : ascii) : bool :=
  Ascii.eqb a b || (ic && Ascii.eqb (lower a) (lower b)).

Definition opt_word (o : option ascii) : bool :=
  match o with
  | Some a => is_word a
  | None => false
  end.

Definition at_word_boundary (c : cursor) : bool :=
  xorb (opt_word (prev c)) (opt_word (head (rest c))).

(** [$]: at the end, or just before a newline that ends the subject. *)
Definition at_end (c : cursor) : bool :=
  match rest c with
  | [] => true
  | [a] => Ascii.eqb a newline
  | _ => false
  end.

(** Consume one character that satisfies [ok]. *)
Definition one (ok : ascii -> bool) (c : cursor) : list cursor :=
  match rest c with
  | a :: t => if ok a then [Cursor (Some a) t] else []
  | [] => []
  end.

(** Exactly [n] iterations of [step]. *)
Fixpoint rep_exact (step : cursor -> list cursor) (n : nat) (c : cursor)
  : list cursor :=
  match n with
  | O => [c]
  | S k => flat_map (rep_exact step k) (step c)
  end.

(** At most [n] further iterations of [step], longest first. *)
Fixpoint rep_upto (step : cursor -> list cursor) (n : nat) (c : cursor)
  : list cursor :=
  match n with
  | O => [c]
  | S k => flat_map (rep_upto step k) (step c) ++ [c]
  end.

(** The positions at which a match of [r] started at [c] can end, in the
    order in which the backtracking matcher tries them.  An unbounded
    repetition is tried at most once per remaining character: every
    repeated sub-pattern of the tables consumes at least one character. *)
Fixpoint ends (ic : bool) (r : regex) (c : cursor) : list cursor :=
  match r with
  | Eps => [c]
  | Lit b => one (lit_matches ic b) c
  | Any => one (fun a => negb (Ascii.eqb a newline)) c
  | Set_ neg items => one (set_matches ic neg items) c
  | Seq r1 r2 => flat_map (ends ic r2) (ends ic r1 c)
  | Alt r1 r2 => ends ic r1 c ++ ends ic r2 c
  | Rep r' lo hi =>
      let extra := match hi with
                   | Some h => h - lo
                   | None => length (rest c)
                   end in
      flat_map (rep_upto (ends ic r') extra) (rep_exact (ends ic r') lo c)
  | Group r' => ends ic r' c
  | WordB => if at_word_boundary c then [c] else []
  | Eos => if at_end c then [c] else []
  end.

Definition matches_at (p : pattern) (c : cursor) : bool :=
  match ends (ignorecase p) (tree p) c with
  | [] => false
  | _ :: _ => true
  end.

(** Scan the start positions from left to right. *)
Fixpoint search_from (p : pattern) (pv : option ascii) (l : list ascii) : bool :=
  matches_at p (Cursor pv l) ||
  match l with
  | [] => false
  | a :: t => search_from p (Some a) t
  end.

(** [bool(re.search(p, s))] *)
Definition search (p : pattern) (s : string) : bool :=
  search_from p None (list_ascii_of_string s).

(** Leftmost, non-overlapping matches; [skip] characters of the previous
    match are still to be passed over. *)
Fixpoint findall_from (p : pattern) (skip : nat) (pv : option ascii)
         (l : list ascii) : list string :=
  match skip with
  | S k =>
      match l with
      | [] => []
      | a :: t => findall_from p k (Some a) t
      end
  | O =>
      match ends (ignorecase p) (tree p) (Cursor pv l) with
      | e :: _ =>
          let n := length l - length (rest e) in
          let m := string_of_list_ascii (firstn n l) in
          match l with
          | [] => [m]
          | a :: t => m :: findall_from p (n - 1) (Some a) t
          end
      | [] =>
          match l with
          | [] => []
          | a :: t => findall_from p 0 (Some a) t
          end
      end
  end.

(** [re.findall(p, s)] for a pattern without capturing groups *)
Definition findall (p : pattern) (s : string) : list string :=
  findall_from p 0 None (list_ascii_of_string s).

End Re.

(** ** Helpers shared by the two monitors *)

(** [d.get(k, dflt)] on a dictionary literal, kept in insertion order. *)
Fixpoint dict_get {A} (d : list (string * A)) (k : string) (dflt : A) : A :=
  match d with
  | [] => dflt
  | (k', v) :: d' => if String.eqb k k' then v else dict_get d' k dflt
  end.

(** [x > y] on clock readings *)
Definition Qgt_bool (x y : Q) : bool := negb (Qle_bool x y).

(** [str(n)] for a non-negative integer *)
Definition str_of_nat (n : nat) : string :=
  NilZero.string_of_uint (Nat.to_uint n).

(** [sum(...)] over naturals *)
Definition sum_nat (l : list nat) : nat := fold_left Nat.add l 0.

(** ** SDK-HR/python/hr_agent_sdk/security.py *)

Module HR.
Import Re.

(** The four patterns of [check_data_privacy], in dictionary order. *)

(* \b[A-Za-z0-9._%+-]+@[A-Za-z0-9.-]+\.[A-Z|a-z]{2,}\b *)
Definition email_pattern : pattern :=
  Pattern "\b[A-Za-z0-9._%+-]+@[A-Za-z0-9.-]+\.[A-Z|a-z]{2,}\b" false
    (cat [WordB;
          plus (Set_ false [CRange "A" "Z"; CRange "a" "z"; CRange "0" "9";
                            CChar "."; CChar "_"; CChar "%"; CChar "+"; CChar "-"]);
          Lit "@";
          plus (Set_ false [CRange "A" "Z"; CRange "a" "z"; CRange "0" "9";
                            CChar "."; CChar "-"]);
          Lit ".";
          at_least 2 (Set_ false [CRange "A" "Z"; CChar "|"; CRange "a" "z"]);
          WordB]).

(* \b\d{3}[-.]?\d{3}[-.]?\d{4}\b *)
Definition phone_pattern : pattern :=
  Pattern "\b\d{3}[-.]?\d{3}[-.]?\d{4}\b" false
    (cat [WordB; times 3 digit; opt (Set_ false [CChar "-"; CChar "."]);
          times 3 digit; opt (Set_ false [CChar "-"; CChar "."]);
          times 4 digit; WordB]).

(* \b\d{3}-\d{2}-\d{4}\b *)
Definition ssn_pattern : pattern :=
  Pattern "\b\d{3}-\d{2}-\d{4}\b" false
    (cat [WordB; times 3 digit; Lit "-"; times 2 digit; Lit "-";
          times 4 digit; WordB]).

(* \b\d{4}[-\s]?\d{4}[-\s]?\d{4}[-\s]?\d{4}\b *)
Definition credit_card_pattern : pattern :=
  Pattern "\b\d{4}[-\s]?\d{4}[-\s]?\d{4}[-\s]?\d{4}\b" false
    (cat [WordB; times 4 digit; opt (Set_ false [CChar "-"; CSpace]);
          times 4 digit; opt (Set_ false [CChar "-"; CSpace]);
          times 4 digit; opt (Set_ false [CChar "-"; CSpace]);
          times 4 digit; WordB]).

Definition patterns : list (string * pattern) :=
  [("email", email_pattern); ("phone", phone_pattern);
   ("ssn", ssn_pattern); ("credit_card", credit_card_pattern)].

(** [_mask_sensitive_data] *)
Definition _mask_sensitive_data (data : string) : string :=
  if (PyStr.len data <=? 4)%nat then PyStr.repeat_char "*" (PyStr.len data)
  else PyStr.slice_to 2 data
       +:+ PyStr.repeat_char "*" (PyStr.len data - 4)
       +:+ PyStr.slice_last 2 data.

Record finding : Type := Finding {
  finding_type : string;
  finding_count : nat;
  finding_samples : list string
}.

Record privacy_result : Type := PrivacyResult {
  has_pii : bool;
  findings : list finding;
  risk_level : string
}.

(** One turn of the loop over [patterns.items()]. *)
Definition scan_pii (text : string) (findings : list finding)
           (entry : string * pattern) : list finding :=
  let '(pii_type, pattern) := entry in
  let matches := findall pattern text in
  match matches with
  | [] => findings
  | _ :: _ =>
      findings ++ [Finding pii_type (length matches)
                     (map _mask_sensitive_data (PyStr.list_slice_to 3 matches))]
  end.

(** [check_data_privacy] *)
Definition check_data_privacy (text : string) : privacy_result :=
  let findings := fold_left (scan_pii text) patterns [] in
  PrivacyResult (0 <? length findings)%nat findings
                (if (0 <? length findings)%nat then "high" else "low").

End HR.

(** ** SDK/python/hr_agent_sdk/security.py *)

Module SDK.
Import Re.

(** *** [_initialize_threat_patterns] *)

Definition ci (src : string) (r : regex) : pattern := Pattern src true r.
Definition cs (src : string) (r : regex) : pattern := Pattern src false r.

Definition sql_injection_patterns : list pattern :=
  [ ci "(?i)(union\s+select)"
       (Group (cat [text "union"; plus space; text "select"]));
    ci "(?i)(drop\s+table)"
       (Group (cat [text "drop"; plus space; text "table"]));
    ci "(?i)(insert\s+into)"
       (Group (cat [text "insert"; plus space; text "into"]));
    ci "(?i)(delete\s+from)"
       (Group (cat [text "delete"; plus space; text "from"]));
    ci "(?i)(update\s+\w+\s+set)"
       (Group (cat [text "update"; plus space; plus word; plus space;
                    text "set"]));
    ci "(?i)(\'\s*or\s+\'\d+\'\s*=\s*\'\d+)"
       (Group (cat [Lit "'"; star space; text "or"; plus space; Lit "'";
                    plus digit; Lit "'"; star space; Lit "="; star space;
                    Lit "'"; plus digit]));
    ci "(?i)(\'\s*or\s+\d+\s*=\s*\d+)"
       (Group (cat [Lit "'"; star space; text "or"; plus space; plus digit;
                    star space; Lit "="; star space; plus digit]));
    ci "(?i)(--\s*$)"
       (Group (cat [text "--"; star space; Eos]));
    ci "(?i)(/\*.*\*/)"
       (Group (cat [text "/*"; star Any; text "*/"])) ].

Definition xss_patterns : list pattern :=
  [ ci "(?i)(<script[^>]*>)"
       (Group (cat [text "<script"; star (Set_ true [CChar ">"]); Lit ">"]));
    ci "(?i)(<iframe[^>]*>)"
       (Group (cat [text "<iframe"; star (Set_ true [CChar ">"]); Lit ">"]));
    ci "(?i)(javascript:)"
       (Group (text "javascript:"));
    ci "(?i)(on\w+\s*=)"
       (Group (cat [text "on"; plus word; star space; Lit "="]));
    ci "(?i)(<img[^>]*onerror)"
       (Group (cat [text "<img"; star (Set_ true [CChar ">"]); text "onerror"]));
    ci "(?i)(<svg[^>]*onload)"
       (Group (cat [text "<svg"; star (Set_ true [CChar ">"]); text "onload"]));
    ci "(?i)(expression\s*\()"
       (Group (cat [text "expression"; star space; Lit "("]));
    ci "(?i)(vbscript:)"
       (Group (text "vbscript:")) ].

Definition command_injection_patterns : list pattern :=
  [ ci "(?i)(;\s*rm\s+-rf)"
       (Group (cat [Lit ";"; star space; text "rm"; plus space; text "-rf"]));
    ci "(?i)(;\s*cat\s+/etc/passwd)"
       (Group (cat [Lit ";"; star space; text "cat"; plus space;
                    text "/etc/passwd"]));
    ci "(?i)(;\s*wget\s+)"
       (Group (cat [Lit ";"; star space; text "wget"; plus space]));
    ci "(?i)(;\s*curl\s+)"
       (Group (cat [Lit ";"; star space; text "curl"; plus space]));
    ci "(?i)(\|\s*nc\s+)"
       (Group (cat [Lit "|"; star space; text "nc"; plus space]));
    ci "(?i)(\$\(.*\))"
       (Group (cat [text "$("; star Any; Lit ")"]));
    ci "(?i)(`.*`)"
       (Group (cat [Lit "`"; star Any; Lit "`"]));
    ci "(?i)(;\s*exec\s+)"
       (Group (cat [Lit ";"; star space; text "exec"; plus space])) ].

Definition path_traversal_patterns : list pattern :=
  [ cs "(\.\./){2,}"
       (at_least 2 (Group (text "../")));
    cs "(\.\.\\){2,}"
       (at_least 2 (Group (text "..\")));
    ci "(?i)(file://)"
       (Group (text "file://"));
    ci "(?i)(/etc/passwd)"
       (Group (text "/etc/passwd"));
    ci "(?i)(/windows/system32)"
       (Group (text "/windows/system32"));
    ci "(?i)(\.\.%2f)"
       (Group (text "..%2f"));
    ci "(?i)(\.\.%5c)"
       (Group (text "..%5c")) ].

Definition _initialize_threat_patterns : list (string * list pattern) :=
  [ ("sql_injection", sql_injection_patterns);
    ("xss", xss_patterns);
    ("command_injection", command_injection_patterns);
    ("path_traversal", path_traversal_patterns) ].

(** *** [_initialize_pii_patterns] *)

(* \b[A-Za-z0-9._%+-]+@[A-Za-z0-9.-]+\.[A-Z|a-z]{2,}\b *)
Definition email_pattern : pattern := HR.email_pattern.

(* \b(?:\+?1[-.\s]?)?\(?\d{3}\)?[-.\s]?\d{3}[-.\s]?\d{4}\b *)
Definition phone_pattern : pattern :=
  cs "\b(?:\+?1[-.\s]?)?\(?\d{3}\)?[-.\s]?\d{3}[-.\s]?\d{4}\b"
     (cat [WordB;
           opt (Group (cat [opt (Lit "+"); Lit "1";
                            opt (Set_ false [CChar "-"; CChar "."; CSpace])]));
           opt (Lit "("); times 3 digit; opt (Lit ")");
           opt (Set_ false [CChar "-"; CChar "."; CSpace]);
           times 3 digit;
           opt (Set_ false [CChar "-"; CChar "."; CSpace]);
           times 4 digit; WordB]).

(* \b\d{3}-\d{2}-\d{4}\b *)
Definition ssn_pattern : pattern :=
  cs "\b\d{3}-\d{2}-\d{4}\b"
     (cat [WordB; times 3 digit; Lit "-"; times 2 digit; Lit "-";
           times 4 digit; WordB]).

(* \b(?:\d{4}[-\s]?){3}\d{4}\b *)
Definition credit_card_pattern : pattern :=
  cs "\b(?:\d{4}[-\s]?){3}\d{4}\b"
     (cat [WordB;
           times 3 (Group (cat [times 4 digit;
                                opt (Set_ false [CChar "-"; CSpace])]));
           times 4 digit; WordB]).

(* \b(?:\d{1,3}\.){3}\d{1,3}\b *)
Definition ip_address_pattern : pattern :=
  cs "\b(?:\d{1,3}\.){3}\d{1,3}\b"
     (cat [WordB;
           times 3 (Group (cat [from_to 1 3 digit; Lit "."]));
           from_to 1 3 digit; WordB]).

Definition url_pattern : pattern :=
  cs "https?://(?:[-\w.])+(?:[:\d]+)?(?:/(?:[\w/_.])*)?(?:\?(?:[\w&=%.])*)?(?:#(?:\w)*)?"
     (cat [text "http"; opt (Lit "s"); text "://";
           plus (Group (Set_ false [CChar "-"; CWord; CChar "."]));
           opt (Group (plus (Set_ false [CChar ":"; CDigit])));
           opt (Group (cat [Lit "/";
                            star (Group (Set_ false [CWord; CChar "/"; CChar "_";
                                                     CChar "."]))]));
           opt (Group (cat [Lit "?";
                            star (Group (Set_ false [CWord; CChar "&"; CChar "=";
                                                     CChar "%"; CChar "."]))]));
           opt (Group (cat [Lit "#"; star (Group word)]))]).

Definition _initialize_pii_patterns : list (string * pattern) :=
  [ ("email", email_pattern);
    ("phone", phone_pattern);
    ("ssn", ssn_pattern);
    ("credit_card", credit_card_pattern);
    ("ip_address", ip_address_pattern);
    ("url", url_pattern) ].

(** The two tables are built once by [__init__] and no method assigns
    to them afterwards. *)
Definition threat_patterns := _initialize_threat_patterns.
Definition pii_patterns := _initialize_pii_patterns.

(** *** [_get_threat_severity], [_get_pii_severity] *)

Definition _get_threat_severity (threat_type : string) : string :=
  let severity_map :=
    [ ("sql_injection", "critical");
      ("command_injection", "critical");
      ("xss", "high");
      ("path_traversal", "high") ] in
  dict_get severity_map threat_type "medium".

Definition _get_pii_severity (pii_type : string) : string :=
  let severity_map :=
    [ ("ssn", "critical");
      ("credit_card", "critical");
      ("email", "medium");
      ("phone", "medium");
      ("ip_address", "low");
      ("url", "low") ] in
  dict_get severity_map pii_type "medium".

(** *** Data carried by the monitor *)

(** A detected threat: the dictionary [threat_info]. *)
Record threat_info : Type := ThreatInfo {
  threat_type : string;
  threat_pattern : string;
  threat_severity : string
}.

(** A detected kind of PII: the dictionary [pii_info]. *)
Record pii_info : Type := PiiInfo {
  pii_type : string;
  pii_count : nat;
  pii_matches : list string;
  pii_severity : string
}.

(** Values that the monitor itself stores in an event's metadata. *)
Inductive meta_value : Type :=
| MStr (s : string)
| MNat (n : nat)
| MStrs (l : list string)
| MThreats (l : list threat_info).

Definition metadata : Type := list (string * meta_value).

Record security_event : Type := SecurityEvent {
  event_id : nat;
  event_type : string;
  event_description : string;
  event_severity : string;
  event_metadata : metadata;
  event_timestamp : Q
}.

Record compliance_event : Type := ComplianceEvent {
  log_id : nat;
  log_compliance_type : string;
  log_status : string;
  log_details : string;
  log_metadata : metadata;
  log_timestamp : Q
}.

(** The attributes of a [SecurityMonitor] that its methods assign to. *)
Record monitor : Type := Monitor {
  security_events : list security_event;
  compliance_logs : list compliance_event;
  event_counts : gmap string nat;
  severity_counts : gmap string nat
}.

(** [__init__] *)
Definition init : monitor := Monitor [] [] ∅ ∅.

(** [d[k] += 1] on a [defaultdict(int)] *)
Definition incr (k : string) (d : gmap string nat) : gmap string nat :=
  <[k := default 0 (d !! k) + 1]> d.

(** *** [log_security_event], [log_compliance_event] *)

(** [md] is the [metadata] argument, [None] when it is left out;
    [now] is the reading of the clock. *)
Definition log_security_event (self : monitor)
           (event_type description severity : string)
           (md : option metadata) (now : Q) : monitor :=
  let event :=
    SecurityEvent (length (security_events self) + 1) event_type description
                  severity (default [] md) now in
  let events := (security_events self ++ [event])%list in
  Monitor (if (1000 <? length events)%nat
           then PyStr.list_slice_last 1000 events
           else events)
          (compliance_logs self)
          (incr event_type (event_counts self))
          (incr severity (severity_counts self)).

Definition log_compliance_event (self : monitor)
           (compliance_type status details : string)
           (md : option metadata) (now : Q) : monitor :=
  let event :=
    ComplianceEvent (length (compliance_logs self) + 1) compliance_type
                    status details (default [] md) now in
  let logs := (compliance_logs self ++ [event])%list in
  Monitor (security_events self)
          (if (1000 <? length logs)%nat
           then PyStr.list_slice_last 1000 logs
           else logs)
          (event_counts self)
          (severity_counts self).

(** *** [_calculate_security_score] *)

(** The [if/elif] chain of the loop body. *)
Definition deduction (severity : string) : Z :=
  if String.eqb severity "critical" then 20
  else if String.eqb severity "high" then 10
  else if String.eqb severity "medium" then 5
  else if String.eqb severity "low" then 1
  else 0.

(** The score is an integer on every path ([100.0], or [round] of an
    [int]), so it is a [Z] here. *)
Definition _calculate_security_score (self : monitor) (now : Q) : Z :=
  match security_events self with
  | [] => 100
  | _ :: _ =>
      let recent_cutoff := (now - 86400)%Q in
      let recent_events :=
        List.filter (fun event => Qgt_bool (event_timestamp event) recent_cutoff)
               (security_events self) in
      let deductions :=
        fold_left (fun d event => d + deduction (event_severity event))%Z
                  recent_events 0%Z in
      Z.max 0 (100 - deductions)
  end.

(** [sum(1 for log in logs if log['status'] == status)] *)
Definition count_status (status : string) (logs : list compliance_event) : nat :=
  length (List.filter (fun log => String.eqb (log_status log) status) logs).

Section Monitor.

(** [round(x, ndigits)] on floats *)
Variable py_round : Q -> nat -> Q.

(** The values a caller may put in [request_data], and [str] on them. *)
Variable value : Type.
Variable py_str : value -> string.

(** *** [_calculate_compliance_score] *)

Definition _calculate_compliance_score (self : monitor) (now : Q) : Q :=
  match compliance_logs self with
  | [] => 100
  | _ :: _ =>
      let recent_cutoff := (now - 86400)%Q in
      let recent_logs :=
        List.filter (fun log => Qgt_bool (log_timestamp log) recent_cutoff)
               (compliance_logs self) in
      match recent_logs with
      | [] => 100
      | _ :: _ =>
          let compliant_count := count_status "compliant" recent_logs in
          let warning_count := count_status "warning" recent_logs in
          let non_compliant_count := count_status "non_compliant" recent_logs in
          let total_logs := length recent_logs in
          let score :=
            (inject_Z (Z.of_nat (compliant_count * 100 + warning_count * 50
                                 + non_compliant_count * 0))
             / inject_Z (Z.of_nat total_logs))%Q in
          py_round score 1
      end
  end.

(** *** [analyze_request_security] *)

(** The readings of [time.time()] made during one call, in order: at
    entry, when the event is logged, when the analysis ends, and for
    the result's time stamp. *)
Record clock : Type := Clock {
  t_start : Q;
  t_event : Q;
  t_end : Q;
  t_result : Q
}.

Record threat_result : Type := ThreatResult {
  threats_detected : list threat_info;
  threat_count : nat;
  severity : string;
  safe : bool;
  analysis_time_ms : Q;
  timestamp : Q
}.

(** The statement under [# Update overall severity]: the new value
    of [severity] after a match of severity [found]. *)
Definition update_severity (found severity : string) : string :=
  if String.eqb found "critical" then "critical"
  else if String.eqb found "high"
          && negb (String.eqb severity "critical") then "high"
  else if String.eqb found "medium"
          && negb (String.eqb severity "critical"
                   || String.eqb severity "high") then "medium"
  else severity.

(** The body of the inner loop, for one pattern of one category. *)
Definition check_pattern (content threat_type : string)
           (acc : list threat_info * string) (pattern : Re.pattern)
  : list threat_info * string :=
  let '(threats_detected, severity) := acc in
  if Re.search pattern content then
    let threat_info :=
      ThreatInfo threat_type (Re.source pattern)
                 (_get_threat_severity threat_type) in
    ((threats_detected ++ [threat_info])%list,
     update_severity (threat_severity threat_info) severity)
  else acc.

(** The body of the outer loop, for one category. *)
Definition check_category (content : string)
           (acc : list threat_info * string)
           (entry : string * list Re.pattern) : list threat_info * string :=
  let '(threat_type, patterns) := entry in
  fold_left (check_pattern content threat_type) patterns acc.

Definition analyze_request_security (self : monitor) (operation : string)
           (request_data : gmap string value) (clk : clock)
  : monitor * threat_result :=
  let content :=
    match request_data !! "content" with
    | Some v => py_str v
    | None => ""
    end in
  let '(threats_detected, severity) :=
    fold_left (check_category content) threat_patterns ([], "low") in
  let self' :=
    match threats_detected with
    | [] => self
    | _ :: _ =>
        log_security_event self "threat_detection"
          ("Detected " +:+ str_of_nat (length threats_detected)
           +:+ " security threats in " +:+ operation)
          severity
          (Some [ ("operation", MStr operation);
                  ("threats", MThreats threats_detected);
                  ("content_length", MNat (PyStr.len content)) ])
          (t_event clk)
    end in
  let analysis_time := ((t_end clk - t_start clk) * 1000)%Q in
  (self',
   ThreatResult threats_detected (length threats_detected) severity
                (length threats_detected =? 0)%nat
                (py_round analysis_time 2) (t_result clk)).

(** *** [check_data_privacy] *)

Record privacy_result : Type := PrivacyResult {
  pii_detected : list pii_info;
  pii_types_count : nat;
  total_pii_instances : nat;
  compliance_status : string;
  privacy_severity : string;
  privacy_safe : bool;
  privacy_analysis_time_ms : Q;
  privacy_timestamp : Q
}.

(** The body of the loop over [pii_patterns.items()]. *)
Definition check_pii (text : string) (pii_detected : list pii_info)
           (entry : string * Re.pattern) : list pii_info :=
  let '(pii_type, pattern) := entry in
  let matches := Re.findall pattern text in
  match matches with
  | [] => pii_detected
  | _ :: _ =>
      (pii_detected ++ [PiiInfo pii_type (length matches)
                                (PyStr.list_slice_to 5 matches)
                                (_get_pii_severity pii_type)])%list
  end.

Definition check_data_privacy (self : monitor) (text : string) (clk : clock)
  : monitor * privacy_result :=
  let pii_detected := fold_left (check_pii text) pii_patterns [] in
  let '(compliance_status, severity) :=
    if existsb (fun pii => String.eqb (pii_severity pii) "high"
                           || String.eqb (pii_severity pii) "critical")
               pii_detected
    then ("non_compliant", "high")
    else match pii_detected with
         | _ :: _ => ("warning", "medium")
         | [] => ("compliant", "low")
         end in
  let self' :=
    log_compliance_event self "pii_detection" compliance_status
      ("Detected " +:+ str_of_nat (length pii_detected)
       +:+ " types of PII in data")
      (Some [ ("pii_types", MStrs (map pii_type pii_detected));
              ("total_pii_count", MNat (sum_nat (map pii_count pii_detected)));
              ("text_length", MNat (PyStr.len text)) ])
      (t_event clk) in
  let analysis_time := ((t_end clk - t_start clk) * 1000)%Q in
  (self',
   PrivacyResult pii_detected (length pii_detected)
                 (sum_nat (map pii_count pii_detected))
                 compliance_status severity
                 (length pii_detected =? 0)%nat
                 (py_round analysis_time 2) (t_result clk)).

End Monitor.

End SDK.

(** ** SDK/python/hr_agent_sdk/security.py: [get_security_summary] *)

Module SDKSummary.
Import SDK.

Record summary : Type := Summary {
  total_security_events : nat;
  recent_events_count : nat;
  event_types : gmap string nat;
  severity_distribution : gmap string nat;
  total_compliance_logs : nat;
  recent_compliance_count : nat;
  latest_security_events : list security_event;
  latest_compliance_logs : list compliance_event;
  security_score : Z;
  compliance_score : Q
}.

(** [x < y] on clock readings *)
Definition Qlt_bool (x y : Q) : bool := negb (Qle_bool y x).

(** The comprehension [[e for e in l if time.time() - e['timestamp'] < 3600]]:
    the clock is read once per element; [tick k] is the reading of the
    [k]-th call of [time.time()] made during the summary. *)
Fixpoint recent {A} (timestamp : A -> Q) (tick : nat -> Q) (k : nat)
         (l : list A) : list A :=
  match l with
  | [] => []
  | e :: l' =>
      if Qlt_bool (tick k - timestamp e) 3600
      then e :: recent timestamp tick (S k) l'
      else recent timestamp tick (S k) l'
  end.

(** [l[-5:] if l else []] *)
Definition latest {A} (l : list A) : list A :=
  match l with
  | [] => []
  | _ :: _ => PyStr.list_slice_last 5 l
  end.

(** [get_security_summary].  The two scores read the clock once each, and
    only when their log is not empty. *)
Definition get_security_summary (py_round : Q -> nat -> Q) (self : monitor)
           (tick : nat -> Q) : summary :=
  let n := length (security_events self) in
  let m := length (compliance_logs self) in
  let recent_events := recent event_timestamp tick 0 (security_events self) in
  let recent_compliance := recent log_timestamp tick n (compliance_logs self) in
  let k := match security_events self with [] => n + m | _ :: _ => n + m + 1 end in
  Summary (length (security_events self))
          (length recent_events)
          (event_counts self)
          (severity_counts self)
          (length (compliance_logs self))
          (length recent_compliance)
          (latest (security_events self))
          (latest (compliance_logs self))
          (_calculate_security_score self (tick (n + m)))
          (_calculate_compliance_score py_round self (tick k)).

End SDKSummary.

(** ** SDK-HR/python/hr_agent_sdk/security.py: analysis, logging, reports *)

Module HRMonitor.
Import Re.

(** The double quote of the first pattern. *)
Definition double_quote : ascii := "034"%char.

(** [threat_indicators['suspicious_patterns']].  The lazy [.*?] of the
    last pattern is written as [.*]: the patterns are only used with
    [re.search], whose truth value does not depend on greediness. *)
Definition suspicious_patterns : list pattern :=
  [ Pattern ("(?i)(password|secret|key|token)\s*[:=]\s*["
             +:+ String double_quote "\']?[a-zA-Z0-9]+") true
      (cat [Group (Alt (text "password")
                       (Alt (text "secret") (Alt (text "key") (text "token"))));
            star space; Set_ false [CChar ":"; CChar "="]; star space;
            opt (Set_ false [CChar double_quote; CChar "'"]);
            plus (Set_ false [CRange "a" "z"; CRange "A" "Z"; CRange "0" "9"])]);
    Pattern "(?i)(admin|root|administrator)" true
      (Group (Alt (text "admin") (Alt (text "root") (text "administrator"))));
    Pattern "(?i)(drop|delete|truncate)\s+(table|database)" true
      (cat [Group (Alt (text "drop") (Alt (text "delete") (text "truncate")));
            plus space;
            Group (Alt (text "table") (text "database"))]);
    Pattern "(?i)union\s+select" true
      (cat [text "union"; plus space; text "select"]);
    Pattern "(?i)<script[^>]*>.*?</script>" true
      (cat [text "<script"; star (Set_ true [CChar ">"]); Lit ">";
            star Any; text "</script>"]) ].

(** [threat_indicators['data_patterns']]: credit card, SSN, email. *)
Definition data_patterns : list pattern :=
  [ HR.credit_card_pattern; HR.ssn_pattern; HR.email_pattern ].

Record analysis : Type := Analysis {
  threat_level : nat;
  severity : string;
  threats : list string;
  analyzed_at : Q
}.

(** The body of the loop over the suspicious patterns. *)
Definition check_suspicious (subject : string) (acc : list string * nat)
           (pattern : Re.pattern) : list string * nat :=
  let '(threats, threat_level) := acc in
  if search pattern subject then
    ((threats ++ ["Suspicious pattern detected: " +:+ source pattern])%list,
     threat_level + 20)
  else acc.

(** The body of the loop over the data patterns. *)
Definition check_data (subject : string) (acc : list string * nat)
           (pattern : Re.pattern) : list string * nat :=
  let '(threats, threat_level) := acc in
  let matches := findall pattern subject in
  match matches with
  | [] => acc
  | _ :: _ =>
      ((threats ++ ["Potential data exposure: " +:+ str_of_nat (length matches)
                    +:+ " sensitive data patterns"])%list,
       threat_level + 30)
  end.

(** [analyze_request_security]; it reads and changes no attribute. *)
Definition analyze_request_security (request_data user_input : string)
           (now : Q) : analysis :=
  let subject := request_data +:+ " " +:+ user_input in
  let acc1 := fold_left (check_suspicious subject) suspicious_patterns ([], 0) in
  let acc2 := fold_left (check_data subject) data_patterns acc1 in
  let '(threats, threat_level) :=
    if (100000 <? N.of_nat (PyStr.len request_data))%N
    then ((fst acc2 ++ ["Large request size detected"])%list, snd acc2 + 10)
    else acc2 in
  let severity :=
    if (70 <=? threat_level)%nat then "critical"
    else if (50 <=? threat_level)%nat then "high"
    else if (30 <=? threat_level)%nat then "medium"
    else "low" in
  Analysis (Nat.min threat_level 100) severity threats now.

(** *** The logs *)

Record security_event : Type := SecurityEvent {
  event_type : string;
  description : string;
  event_severity : string;
  source_ip : option string;
  endpoint : option string;
  blocked : bool;
  timestamp : Q;
  metadata : SDK.metadata
}.

Record compliance_event : Type := ComplianceEvent {
  compliance_type : string;
  event_description : string;
  data_processed : option SDK.metadata;
  user_consent : option bool;
  encryption_status : bool;
  data_location : string;
  log_timestamp : Q;
  log_metadata : SDK.metadata
}.

Record monitor : Type := Monitor {
  security_events : list security_event;
  compliance_logs : list compliance_event
}.

(** [__init__] *)
Definition init : monitor := Monitor [] [].

(** [log_security_event]: the event is stored and returned. *)
Definition log_security_event (self : monitor)
           (event_type description severity : string)
           (source_ip endpoint : option string) (blocked : bool)
           (md : option SDK.metadata) (now : Q) : monitor * security_event :=
  let event := SecurityEvent event_type description severity source_ip
                             endpoint blocked now (default [] md) in
  (Monitor (security_events self ++ [event])%list (compliance_logs self), event).

(** [log_compliance_event] *)
Definition log_compliance_event (self : monitor)
           (compliance_type event_description : string)
           (data_processed : option SDK.metadata) (user_consent : option bool)
           (encryption_status : bool) (data_location : string)
           (md : option SDK.metadata) (now : Q) : monitor * compliance_event :=
  let event := ComplianceEvent compliance_type event_description data_processed
                               user_consent encryption_status data_location
                               now (default [] md) in
  (Monitor (security_events self) (compliance_logs self ++ [event])%list, event).

(** *** The reports *)

Record summary : Type := Summary {
  total_security_events : nat;
  critical_events : nat;
  blocked_events : nat;
  compliance_logs_count : nat;
  last_event : option Q
}.

(** [get_security_summary] *)
Definition get_security_summary (self : monitor) : summary :=
  Summary (length (security_events self))
          (length (List.filter (fun e => String.eqb (event_severity e) "critical")
                               (security_events self)))
          (length (List.filter blocked (security_events self)))
          (length (compliance_logs self))
          (match security_events self with
           | [] => None
           | _ :: _ => option_map timestamp (last (security_events self))
           end).

Record report : Type := Report {
  report_summary : summary;
  recent_events : list security_event;
  compliance_status : list compliance_event;
  generated_at : Q
}.

(** [generate_security_report] *)
Definition generate_security_report (self : monitor) (now : Q) : report :=
  Report (get_security_summary self)
         (PyStr.list_slice_last 10 (security_events self))
         (PyStr.list_slice_last 5 (compliance_logs self))
         now.

End HRMonitor.

(** ** SDK-HR/python/hr_agent_sdk/metrics.py *)

(** A float is the rational number it denotes; comparisons are exact, and
    the arithmetic that rounds ([+], [*], [/] on floats) is a parameter of
    the functions that use it. *)

Module HRMetrics.

Record collector : Type := Collector {
  total_tokens : Z;
  total_cost : Q;
  request_count : nat;
  error_count : nat;
  latencies : list Q;
  start_time : Q
}.

(** [__init__] *)
Definition init (now : Q) : collector := Collector 0 0 0 0 [] now.

Section Floats.

Variables fadd fmul fdiv : Q -> Q -> Q.

(** [update_tokens] *)
Definition update_tokens (self : collector) (prompt_tokens completion_tokens : Z)
           (cost : Q) : collector :=
  Collector (total_tokens self + (prompt_tokens + completion_tokens))
            (fadd (total_cost self) cost)
            (request_count self + 1)
            (error_count self) (latencies self) (start_time self).

(** [update_latency] *)
Definition update_latency (self : collector) (latency : Q) : collector :=
  let latencies := (latencies self ++ [latency])%list in
  Collector (total_tokens self) (total_cost self) (request_count self)
            (error_count self)
            (if (100 <? length latencies)%nat
             then PyStr.list_slice_last 100 latencies
             else latencies)
            (start_time self).

(** [increment_errors] *)
Definition increment_errors (self : collector) : collector :=
  Collector (total_tokens self) (total_cost self) (request_count self)
            (error_count self + 1) (latencies self) (start_time self).

(** [sum(l)] on floats *)
Definition fsum (l : list Q) : Q := fold_left fadd l 0%Q.

(** [get_average_latency] *)
Definition get_average_latency (self : collector) : Q :=
  match latencies self with
  | [] => 0
  | _ :: _ => fdiv (fsum (latencies self))
                   (inject_Z (Z.of_nat (length (latencies self))))
  end.

(** [get_error_rate] *)
Definition get_error_rate (self : collector) : Q :=
  if (request_count self =? 0)%nat then 0
  else fmul (fdiv (inject_Z (Z.of_nat (error_count self)))
                  (inject_Z (Z.of_nat (request_count self + error_count self))))
            100%Q.

(** [reset] *)
Definition reset (self : collector) (now : Q) : collector := init now.

(** The part of [AgentTracker.log_request] and [AgentTracker.log_error]
    (SDK-HR/python/hr_agent_sdk/tracker.py) that acts on the collector;
    sending the payload cannot fail for the caller and touches no
    attribute. *)
Definition tracker_log_request (self : collector)
           (prompt_tokens completion_tokens : Z) (cost latency : Q) : collector :=
  update_latency (update_tokens self prompt_tokens completion_tokens cost) latency.

Definition tracker_log_error (self : collector) : collector :=
  increment_errors self.

End Floats.

End HRMetrics.

(** ** SDK-HR/python/hr_agent_sdk/health.py *)

Module HRHealth.

Record health : Type := Health {
  start_time : Q;
  status : string;
  last_error : option string;
  error_count : nat
}.

(** [__init__] *)
Definition init (now : Q) : health := Health now "healthy" None 0.

(** [update_status]: the readings taken from [psutil], or their defaults
    when it fails, are assigned to local names only. *)
Definition update_status (self : health) (new_status : string) : health :=
  Health (start_time self) new_status (last_error self) (error_count self).

(** [log_error] *)
Definition log_error (self : health) (error_message : string) : health :=
  let error_count := error_count self + 1 in
  Health (start_time self)
         (if (10 <? error_count)%nat then "unhealthy"
          else if (5 <? error_count)%nat then "degraded"
          else status self)
         (Some error_message) error_count.

(** [reset_errors] *)
Definition reset_errors (self : health) : health :=
  Health (start_time self) "healthy" None 0.

End HRHealth.

(** ** SDK/python/hr_agent_sdk/health.py *)

Module SDKHealth.

(** A call returns a value or raises an exception of the named class. *)
Inductive result (A : Type) : Type :=
| Return (a : A)
| Raise (exception : string).

Arguments Return {A} a.
Arguments Raise {A} exception.

Record health : Type := Health {
  start_time : Q;
  last_health_check : Q;
  status : string;
  error_count : nat;
  total_checks : nat;
  response_times : list Q;
  max_response_time : Q
}.

(** The thresholds set by [__init__]; no method assigns to them. *)
Definition cpu_threshold : Q := 80.
Definition memory_threshold : Q := 85.
Definition disk_threshold : Q := 90.

(** [__init__], with its two readings of the clock *)
Definition init (now1 now2 : Q) : health := Health now1 now2 "healthy" 0 0 [] 0.

(** [update_status] *)
Definition update_status (self : health) (new_status : string) (now : Q)
  : result health :=
  let valid_statuses := ["healthy"; "warning"; "critical"] in
  if existsb (String.eqb new_status) valid_statuses
  then Return (Health (start_time self) now new_status (error_count self)
                      (total_checks self) (response_times self)
                      (max_response_time self))
  else Raise "ValueError".

(** [max(a, b)] on floats: [b] when it is greater, else [a]. *)
Definition py_max (a b : Q) : Q := if Qgt_bool b a then b else a.

(** [log_response_time] *)
Definition log_response_time (self : health) (response_time : Q) : health :=
  let response_times := (response_times self ++ [response_time])%list in
  Health (start_time self) (last_health_check self) (status self)
         (error_count self) (total_checks self)
         (if (100 <? length response_times)%nat
          then PyStr.list_slice_last 100 response_times
          else response_times)
         (py_max (max_response_time self) response_time).

(** [is_healthy] *)
Definition is_healthy (self : health) : bool := String.eqb (status self) "healthy".

(** [reset_metrics], with its two readings of the clock *)
Definition reset_metrics (self : health) (now1 now2 : Q) : health :=
  Health now1 now2 "healthy" 0 0 [] 0.

Section Floats.

Variables fadd fsub fmul fdiv : Q -> Q -> Q.

(** [f"{x:.1f}"] and [f"{x:.0f}"]: the digits after the point, the value. *)
Variable format_float : nat -> Q -> string.

(** [get_error_rate] *)
Definition get_error_rate (self : health) : Q :=
  if (total_checks self =? 0)%nat then 0
  else fmul (fdiv (inject_Z (Z.of_nat (error_count self)))
                  (inject_Z (Z.of_nat (total_checks self))))
            100%Q.

(** [get_average_response_time] *)
Definition get_average_response_time (self : health) : Q :=
  match response_times self with
  | [] => 0
  | _ :: _ => fdiv (fold_left fadd (response_times self) 0%Q)
                   (inject_Z (Z.of_nat (length (response_times self))))
  end.

(** [get_uptime] *)
Definition get_uptime (self : health) (now : Q) : Q :=
  fdiv (fsub now (start_time self)) 3600%Q.

(** [log_error] *)
Definition log_error (self : health) (error_type : string) : health :=
  let self1 := Health (start_time self) (last_health_check self) (status self)
                      (error_count self + 1) (total_checks self)
                      (response_times self) (max_response_time self) in
  let error_rate := get_error_rate self1 in
  Health (start_time self1) (last_health_check self1)
         (if Qgt_bool error_rate 10 then "critical"
          else if Qgt_bool error_rate 5 then "warning"
          else status self1)
         (error_count self1) (total_checks self1)
         (response_times self1) (max_response_time self1).

Record check_result : Type := CheckResult {
  check_status : string;
  issues : list string;
  system_metrics : gmap string Q;
  uptime_hours : Q;
  error_rate : Q;
  average_response_time : Q;
  last_check : Q
}.

(** [health_status = "warning"] under [if health_status == "healthy"] *)
Definition warn_if_healthy (health_status : string) : string :=
  if String.eqb health_status "healthy" then "warning" else health_status.

(** [perform_health_check].  [metrics] is what [get_system_metrics]
    returned, with its numeric entries; [now1], [now2], [now3] are the
    readings of the clock for the check, the uptime and the result. *)
Definition perform_health_check (self : health) (metrics : gmap string Q)
           (now1 now2 now3 : Q) : health * check_result :=
  let self1 := Health (start_time self) now1 (status self) (error_count self)
                      (total_checks self + 1) (response_times self)
                      (max_response_time self) in
  let health_status := "healthy" in
  let issues := [] in
  let cpu_usage := default 0%Q (metrics !! "cpu_percent") in
  let '(health_status, issues) :=
    if Qgt_bool cpu_usage cpu_threshold
    then (if Qgt_bool cpu_usage 95 then "critical" else "warning",
          (issues ++ ["High CPU usage: " +:+ format_float 1 cpu_usage +:+ "%"])%list)
    else (health_status, issues) in
  let memory_usage := default 0%Q (metrics !! "memory_percent") in
  let '(health_status, issues) :=
    if Qgt_bool memory_usage memory_threshold
    then (if Qgt_bool memory_usage 95 then "critical" else "warning",
          (issues ++ ["High memory usage: " +:+ format_float 1 memory_usage
                      +:+ "%"])%list)
    else (health_status, issues) in
  let disk_usage := default 0%Q (metrics !! "disk_percent") in
  let '(health_status, issues) :=
    if Qgt_bool disk_usage disk_threshold
    then (warn_if_healthy health_status,
          (issues ++ ["High disk usage: " +:+ format_float 1 disk_usage
                      +:+ "%"])%list)
    else (health_status, issues) in
  let error_rate := get_error_rate self1 in
  let '(health_status, issues) :=
    if Qgt_bool error_rate 10
    then ("critical",
          (issues ++ ["High error rate: " +:+ format_float 1 error_rate
                      +:+ "%"])%list)
    else if Qgt_bool error_rate 5
    then (warn_if_healthy health_status,
          (issues ++ ["Elevated error rate: " +:+ format_float 1 error_rate
                      +:+ "%"])%list)
    else (health_status, issues) in
  let avg_response_time := get_average_response_time self1 in
  let '(health_status, issues) :=
    if Qgt_bool avg_response_time 5000
    then ("critical",
          (issues ++ ["High response time: " +:+ format_float 0 avg_response_time
                      +:+ "ms"])%list)
    else if Qgt_bool avg_response_time 2000
    then (warn_if_healthy health_status,
          (issues ++ ["Elevated response time: "
                      +:+ format_float 0 avg_response_time +:+ "ms"])%list)
    else (health_status, issues) in
  (Health (start_time self1) (last_health_check self1) health_status
          (error_count self1) (total_checks self1) (response_times self1)
          (max_response_time self1),
   CheckResult health_status issues metrics (get_uptime self1 now2) error_rate
               avg_response_time now3).

End Floats.

End SDKHealth.

(** ** SDK/python/hr_agent_sdk/metrics.py *)

Module SDKMetrics.

(** The fields of [time.localtime()] that the collector reads. *)
Record struct_time : Type := StructTime {
  tm_year : nat;
  tm_mon : nat;
  tm_mday : nat;
  tm_hour : nat
}.

(** [f"{n:02d}"] for a non-negative integer *)
Definition pad2 (n : nat) : string :=
  if (n <? 10)%nat then "0" +:+ str_of_nat n else str_of_nat n.

(** [_get_current_hour_key], given the local time that it reads *)
Definition _get_current_hour_key (tm : struct_time) : string :=
  str_of_nat (tm_year tm) +:+ "-" +:+ pad2 (tm_mon tm) +:+ "-"
  +:+ pad2 (tm_mday tm) +:+ "-" +:+ pad2 (tm_hour tm).

(** One value of [hourly_metrics]. *)
Record hourly : Type := Hourly {
  h_tokens : Z;
  h_cost : Q;
  h_requests : nat;
  h_avg_latency : Q;
  h_errors : nat
}.

(** The value that the [defaultdict] makes for a new hour. *)
Definition default_hourly : hourly := Hourly 0 0 0 0 0.

Record collector : Type := Collector {
  start_time : Q;
  total_tokens : Z;
  total_cost : Q;
  total_requests : nat;
  successful_requests : nat;
  failed_requests : nat;
  latencies : list Q;
  errors : gmap string nat;
  hourly_metrics : gmap string hourly
}.

(** [__init__] *)
Definition init (now : Q) : collector := Collector now 0 0 0 0 0 [] ∅ ∅.

(** [self.hourly_metrics[hour_key]] *)
Definition entry (m : gmap string hourly) (hour_key : string) : hourly :=
  default default_hourly (m !! hour_key).

Section Floats.

Variables fadd fmul fdiv : Q -> Q -> Q.

(** [update_tokens] *)
Definition update_tokens (self : collector) (tokens : Z) (cost : Q)
           (tm : struct_time) : collector :=
  let hour_key := _get_current_hour_key tm in
  let e := entry (hourly_metrics self) hour_key in
  Collector (start_time self)
            (total_tokens self + tokens)
            (fadd (total_cost self) cost)
            (total_requests self) (successful_requests self)
            (failed_requests self) (latencies self) (errors self)
            (<[hour_key := Hourly (h_tokens e + tokens) (fadd (h_cost e) cost)
                                  (h_requests e) (h_avg_latency e) (h_errors e)]>
               (hourly_metrics self)).

(** [update_request] *)
Definition update_request (self : collector) (latency : Q) (success : bool)
           (tm : struct_time) : collector :=
  let hour_key := _get_current_hour_key tm in
  let e := entry (hourly_metrics self) hour_key in
  let current_avg := h_avg_latency e in
  let current_count := h_requests e + 1 in
  Collector (start_time self) (total_tokens self) (total_cost self)
            (total_requests self + 1)
            (if success then successful_requests self + 1
             else successful_requests self)
            (if success then failed_requests self
             else failed_requests self + 1)
            (latencies self ++ [latency])%list
            (errors self)
            (<[hour_key :=
                 Hourly (h_tokens e) (h_cost e) current_count
                        (if (current_count =? 1)%nat then latency
                         else fdiv (fadd (fmul current_avg
                                            (inject_Z (Z.of_nat (current_count - 1))))
                                         latency)
                                   (inject_Z (Z.of_nat current_count)))
                        (h_errors e)]>
               (hourly_metrics self)).

(** [update_error] *)
Definition update_error (self : collector) (error_type : string)
           (tm : struct_time) : collector :=
  let hour_key := _get_current_hour_key tm in
  let e := entry (hourly_metrics self) hour_key in
  Collector (start_time self) (total_tokens self) (total_cost self)
            (total_requests self) (successful_requests self)
            (failed_requests self) (latencies self)
            (SDK.incr error_type (errors self))
            (<[hour_key := Hourly (h_tokens e) (h_cost e) (h_requests e)
                                  (h_avg_latency e) (h_errors e + 1)]>
               (hourly_metrics self)).

(** [get_success_rate] *)
Definition get_success_rate (self : collector) : Q :=
  if (total_requests self =? 0)%nat then 100
  else fmul (fdiv (inject_Z (Z.of_nat (successful_requests self)))
                  (inject_Z (Z.of_nat (total_requests self))))
            100%Q.

(** [get_error_rate] *)
Definition get_error_rate (self : collector) : Q :=
  if (total_requests self =? 0)%nat then 0
  else fmul (fdiv (inject_Z (Z.of_nat (failed_requests self)))
                  (inject_Z (Z.of_nat (total_requests self))))
            100%Q.

(** [get_average_latency] *)
Definition get_average_latency (self : collector) : Q :=
  match latencies self with
  | [] => 0
  | _ :: _ => fdiv (fold_left fadd (latencies self) 0%Q)
                   (inject_Z (Z.of_nat (length (latencies self))))
  end.

(** [reset_metrics] *)
Definition reset_metrics (self : collector) (now : Q) : collector := init now.

(** What [AgentTracker] (SDK/python/hr_agent_sdk/tracker.py) does to its
    collector: [log_tokens], and leaving [track_request] normally or by an
    exception of class [error_type].  The failure path reads the local
    time twice. *)
Definition tracker_log_tokens (self : collector) (input_tokens output_tokens : Z)
           (cost : Q) (tm : struct_time) : collector :=
  let total_tokens := (input_tokens + output_tokens)%Z in
  update_tokens self total_tokens cost tm.

Definition tracker_request_succeeded (self : collector) (latency : Q)
           (tm : struct_time) : collector :=
  update_request self latency true tm.

Definition tracker_request_failed (self : collector) (latency : Q)
           (error_type : string) (tm1 tm2 : struct_time) : collector :=
  update_error (update_request self latency false tm1) error_type tm2.

End Floats.

End SDKMetrics.

(** * Vocabulary of the specification *)

(** The placeholder that masking writes. *)
Definition star_char : ascii := "*"%char.

(** Clock readings and a rounding function for closed examples. *)
Definition clock0 : SDK.clock := SDK.Clock 0 0 0 0.
Definition no_round (x : Q) (ndigits : nat) : Q := x.

(** The character just before a position that comes after [pre], when
    [pv] is the character before [pre]. *)
Definition char_before (pv : option ascii) (pre : list ascii) : option ascii :=
  fold_left (fun _ a => Some a) pre pv.

(** The last and the first character of a string, if any. *)
Definition last_char (s : string) : option ascii :=
  char_before None (list_ascii_of_string s).

Definition first_char (s : string) : option ascii := get 0 s.

(** All 256 characters, for properties decided by enumeration. *)
Definition all_ascii : list ascii := map ascii_of_nat (seq 0 256).

(** [l] spells the literal text [pat], up to letter case when [ic] is set. *)
Fixpoint text_matches (ic : bool) (pat : string) (l : list ascii) : bool :=
  match pat, l with
  | EmptyString, [] => true
  | String b pat', a :: l' => Re.lit_matches ic b a && text_matches ic pat' l'
  | _, _ => false
  end.

(** What one PII pattern contributes to a report: nothing when it has no
    match, one entry otherwise.  [sample] is applied to the first [limit]
    raw matches. *)
Definition report_entry {A} (build : string -> list string -> A)
           (text : string) (entry : string * Re.pattern) : list A :=
  match Re.findall (snd entry) text with
  | [] => []
  | ms => [build (fst entry) ms]
  end.

Definition hr_finding (ty : string) (ms : list string) : HR.finding :=
  HR.Finding ty (length ms) (map HR._mask_sensitive_data (firstn 3 ms)).

Definition sdk_pii_info (ty : string) (ms : list string) : SDK.pii_info :=
  SDK.PiiInfo ty (length ms) (firstn 5 ms) (SDK._get_pii_severity ty).

(** The arguments of one call of [log_security_event] or of
    [log_compliance_event], and runs of such calls on a fresh monitor. *)
Record security_call : Type := SecurityCall {
  sc_event_type : string;
  sc_description : string;
  sc_severity : string;
  sc_metadata : SDK.metadata;
  sc_now : Q
}.

Record compliance_call : Type := ComplianceCall {
  cc_compliance_type : string;
  cc_status : string;
  cc_details : string;
  cc_metadata : SDK.metadata;
  cc_now : Q
}.

Inductive call : Type :=
| LogSecurity (c : security_call)
| LogCompliance (c : compliance_call).

Definition do_call (self : SDK.monitor) (c : call) : SDK.monitor :=
  match c with
  | LogSecurity c =>
      SDK.log_security_event self (sc_event_type c) (sc_description c)
        (sc_severity c) (Some (sc_metadata c)) (sc_now c)
  | LogCompliance c =>
      SDK.log_compliance_event self (cc_compliance_type c) (cc_status c)
        (cc_details c) (Some (cc_metadata c)) (cc_now c)
  end.

Definition run (calls : list call) : SDK.monitor :=
  fold_left do_call calls SDK.init.

(** The calls of each kind in a run, in order. *)
Definition security_calls (calls : list call) : list security_call :=
  flat_map (fun c => match c with LogSecurity c => [c] | _ => [] end) calls.

Definition compliance_calls (calls : list call) : list compliance_call :=
  flat_map (fun c => match c with LogCompliance c => [c] | _ => [] end) calls.

(** A stored event without its id: the call that produced it. *)
Definition security_call_of (e : SDK.security_event) : security_call :=
  SecurityCall (SDK.event_type e) (SDK.event_description e)
               (SDK.event_severity e) (SDK.event_metadata e)
               (SDK.event_timestamp e).

Definition compliance_call_of (e : SDK.compliance_event) : compliance_call :=
  ComplianceCall (SDK.log_compliance_type e) (SDK.log_status e)
                 (SDK.log_details e) (SDK.log_metadata e)
                 (SDK.log_timestamp e).

Definition sample_security_call : security_call :=
  SecurityCall "test_event" "Test security event" "medium" [] 0.

Definition sample_compliance_call : compliance_call :=
  ComplianceCall "pii_check" "compliant" "No PII detected" [] 0.

(** What a run leaves in the two logs. *)
Definition log_state (calls : list call) (m : SDK.monitor) : Prop :=
  length (SDK.security_events m) = Nat.min 1000 (length (security_calls calls)) /\
  length (SDK.compliance_logs m) = Nat.min 1000 (length (compliance_calls calls)) /\
  (exists dropped, security_calls calls =
                   dropped ++ map security_call_of (SDK.security_events m))%list /\
  (exists dropped, compliance_calls calls =
                   dropped ++ map compliance_call_of (SDK.compliance_logs m))%list.

(** [n] calls of each kind, told apart by their descriptions. *)
Definition numbered_calls (n : nat) : list call :=
  flat_map (fun i =>
              [LogSecurity (SecurityCall "test_event" (str_of_nat i) "low" [] 0);
               LogCompliance (ComplianceCall "pii_check" "compliant"
                                             (str_of_nat i) [] 0)])
           (seq 1 n).

(** The order on severities: low < medium < high < critical. *)
Definition severity_rank (s : string) : nat :=
  if String.eqb s "critical" then 3
  else if String.eqb s "high" then 2
  else if String.eqb s "medium" then 1
  else 0.

Definition is_severity (s : string) : Prop :=
  s = "low" \/ s = "medium" \/ s = "high" \/ s = "critical".

(** [sev] is the greatest of [sevs], and ["low"] when there is none. *)
Definition is_max_severity (sev : string) (sevs : list string) : Prop :=
  (forall s, In s sevs -> severity_rank s <= severity_rank sev) /\
  (In sev sevs \/ (sevs = [] /\ sev = "low")).

(** The threat rules, one per pattern, in the order of the two loops. *)
Definition all_rules : list (string * Re.pattern) :=
  flat_map (fun entry => map (pair (fst entry)) (snd entry)) SDK.threat_patterns.

Definition rule_matches (content : string) (rule : string * Re.pattern) : bool :=
  Re.search (snd rule) content.

Definition rule_info (rule : string * Re.pattern) : SDK.threat_info :=
  SDK.ThreatInfo (fst rule) (Re.source (snd rule))
                 (SDK._get_threat_severity (fst rule)).

(** The string that [analyze_request_security] scans. *)
Definition content_of {value} (py_str : value -> string)
           (request_data : gmap string value) : string :=
  match request_data !! "content" with
  | Some v => py_str v
  | None => ""
  end.

(** The two loop variables of [analyze_request_security] after the rules
    [rules] have been tried on [content]. *)
Definition scan (content : string) (rules : list (string * Re.pattern))
           (acc : list SDK.threat_info * string) : list SDK.threat_info * string :=
  let hits := List.filter (rule_matches content) rules in
  ((fst acc ++ map rule_info hits)%list,
   fold_left (fun sev rule =>
                SDK.update_severity (SDK.threat_severity (rule_info rule)) sev)
             hits (snd acc)).

(** Letter case: an ASCII capital and its small letter are the same
    letter. *)
Definition ascii_fold (a : ascii) : ascii :=
  if (("A" <=? a) && (a <=? "Z"))%char
  then ascii_of_nat (nat_of_ascii a + 32) else a.

Definition same_ignoring_case (s1 s2 : string) : Prop :=
  map ascii_fold (list_ascii_of_string s1) =
  map ascii_fold (list_ascii_of_string s2).

Definition contains_ignoring_case (content phrase : string) : Prop :=
  exists pre mid post,
    content = pre +:+ mid +:+ post /\ same_ignoring_case mid phrase.

(** The fields of a threat result that do not come from the clock. *)
Definition verdict (r : SDK.threat_result)
  : list SDK.threat_info * nat * string * bool :=
  (SDK.threats_detected r, SDK.threat_count r, SDK.severity r, SDK.safe r).

(** The rule for [DROP TABLE]. *)
Definition drop_table_rule : string * Re.pattern :=
  ("sql_injection",
   SDK.ci "(?i)(drop\s+table)"
          (Re.Group (Re.cat [Re.text "drop"; Re.plus Re.space; Re.text "table"]))).

(** Request data for closed examples: the values are strings. *)
Definition request_with (content : string) : gmap string string :=
  {[ "content" := content ]}.

(** The shape of a social security number: three digits, a hyphen, two
    digits, a hyphen, four digits. *)
Definition ascii_digit (a : ascii) : bool := (("0" <=? a) && (a <=? "9"))%char.

Definition is_hyphen (a : ascii) : bool := Ascii.eqb a "-".

Definition ssn_shaped (s : string) : bool :=
  match list_ascii_of_string s with
  | [d1; d2; d3; h1; d4; d5; h2; d6; d7; d8; d9] =>
      forallb ascii_digit [d1; d2; d3] && is_hyphen h1 &&
      forallb ascii_digit [d4; d5] && is_hyphen h2 &&
      forallb ascii_digit [d6; d7; d8; d9]
  | _ => false
  end.

Definition contains_ssn (text : string) : Prop :=
  exists pre ssn post, text = pre +:+ ssn +:+ post /\ ssn_shaped ssn = true.

(** An entry of a privacy report is grave when its severity is high or
    critical. *)
Definition grave (info : SDK.pii_info) : Prop :=
  SDK.pii_severity info = "high" \/ SDK.pii_severity info = "critical".

(** The event that one privacy check logs. *)
Definition privacy_event (id : nat) (r : SDK.privacy_result) (text : string)
           (now : Q) : SDK.compliance_event :=
  SDK.ComplianceEvent id "pii_detection" (SDK.compliance_status r)
    ("Detected " +:+ str_of_nat (SDK.pii_types_count r)
     +:+ " types of PII in data")
    [ ("pii_types", SDK.MStrs (map SDK.pii_type (SDK.pii_detected r)));
      ("total_pii_count", SDK.MNat (SDK.total_pii_instances r));
      ("text_length", SDK.MNat (String.length text)) ]
    now.

(** The event that one analysis logs when it finds threats. *)
Definition threat_event (id : nat) (r : SDK.threat_result)
           (operation content : string) (now : Q) : SDK.security_event :=
  SDK.SecurityEvent id "threat_detection"
    ("Detected " +:+ str_of_nat (SDK.threat_count r)
     +:+ " security threats in " +:+ operation)
    (SDK.severity r)
    [ ("operation", SDK.MStr operation);
      ("threats", SDK.MThreats (SDK.threats_detected r));
      ("content_length", SDK.MNat (String.length content)) ]
    now.

(** [new] is [old] with [e] appended under the cap of 1000: [e] is at the
    end, entries are dropped from the front only, and none is dropped while
    there is room. *)
Definition appended {A} (old : list A) (e : A) (new : list A) : Prop :=
  (exists dropped, old ++ [e] = dropped ++ new)%list /\
  length new = Nat.min 1000 (length old + 1) /\
  (length old < 1000 -> new = old ++ [e])%list.

(** Scoring: a time stamp is within the last 24 hours of [now] when it is
    later than [now] minus 86400 seconds. *)
Definition within_last_24h (now ts : Q) : Prop := (now - 86400 < ts)%Q.

(** The deduction for one event, by severity. *)
Definition penalty (severity : string) : Z :=
  dict_get [("critical", 20%Z); ("high", 10%Z); ("medium", 5%Z); ("low", 1%Z)]
           severity 0%Z.

(** The deductions for the events of the last 24 hours. *)
Fixpoint total_penalty (now : Q) (events : list SDK.security_event) : Z :=
  match events with
  | [] => 0
  | e :: es =>
      ((if Qlt_le_dec (now - 86400) (SDK.event_timestamp e)
        then penalty (SDK.event_severity e) else 0)
       + total_penalty now es)%Z
  end.

Definition clamp (lo hi x : Z) : Z := Z.max lo (Z.min hi x).

(** Events logged two days before the clock reading 200000. *)
Definition old_security_event : SDK.security_event :=
  SDK.SecurityEvent 1 "threat_detection" "old" "critical" [] 1000.

Definition old_compliance_event : SDK.compliance_event :=
  SDK.ComplianceEvent 1 "pii_detection" "non_compliant" "old" [] 1000.

Definition old_monitor : SDK.monitor :=
  SDK.Monitor [old_security_event] [old_compliance_event] ∅ ∅.

(** Closed examples of requests and texts. *)
Definition attack_request : gmap string string :=
  request_with "SELECT * FROM users; dRoP tAbLe users; <script>x</script>".

Definition noted_request : gmap string string :=
  <[ "note" := "; rm -rf / and DROP TABLE users" ]> (request_with "hello").

Definition ssn_text : string := "My SSN is 123-45-6789 and email is a@b.com".

(** Masking keeps position [i] of a value of length [n]: the value is longer
    than four characters and [i] is among its first two or its last two
    positions. *)
Definition kept (n i : nat) : bool :=
  ((4 <? n) && ((i <? 2) || (n - 2 <=? i)))%nat.

(** The double quote, which a string literal cannot hold. *)
Definition dq : string := String (ascii_of_nat 34) EmptyString.

(** The calls made by [SDK/python/tests/test_basic.py] on a fresh monitor. *)
Definition analyse_text (content : string) : SDK.threat_result :=
  snd (SDK.analyze_request_security no_round string id SDK.init "test"
                                    (request_with content) clock0).

Definition check_text (text : string) : SDK.privacy_result :=
  snd (SDK.check_data_privacy no_round SDK.init text clock0).

Definition has_threat (ty : string) (r : SDK.threat_result) : bool :=
  existsb (fun t => String.eqb (SDK.threat_type t) ty) (SDK.threats_detected r).

Definition has_pii_type (ty : string) (r : SDK.privacy_result) : bool :=
  existsb (fun i => String.eqb (SDK.pii_type i) ty) (SDK.pii_detected r).

(** How often [x] occurs in [l]. *)
Definition occurrences (x : string) (l : list string) : nat :=
  length (List.filter (String.eqb x) l).

(** The request that [AgentTracker.track_request] hands to the analysis: a
    request id and a start time, no ['content']. *)
Definition tracked_request (request_id start_time : string) : gmap string string :=
  {[ "request_id" := request_id; "timestamp" := start_time ]}.

(** The entries of the PII table whose pattern is found in [text]. *)
Definition found_patterns (text : string) : list (string * Re.pattern) :=
  List.filter (fun entry => Re.search (snd entry) text) SDK.pii_patterns.


(** The severity that the SDK-HR analysis gives to a threat level. *)
Definition grade (level : nat) : string :=
  if (70 <=? level)%nat then "critical"
  else if (50 <=? level)%nat then "high"
  else if (30 <=? level)%nat then "medium"
  else "low".

(** How many patterns of a list are found in [subject]. *)
Definition found_count (ps : list Re.pattern) (subject : string) : nat :=
  length (List.filter (fun p => Re.search p subject) ps).

(** The points for an oversized request. *)
Definition size_points (request_data : string) : nat :=
  if (100000 <? N.of_nat (String.length request_data))%N then 1 else 0.

(** Runs of logging calls on a fresh SDK-HR monitor; a call is given by
    the event it is to store. *)
Inductive hr_call : Type :=
| HRSecurity (e : HRMonitor.security_event)
| HRCompliance (e : HRMonitor.compliance_event).

Definition hr_do_call (self : HRMonitor.monitor) (c : hr_call) : HRMonitor.monitor :=
  match c with
  | HRSecurity e =>
      fst (HRMonitor.log_security_event self (HRMonitor.event_type e)
             (HRMonitor.description e) (HRMonitor.event_severity e)
             (HRMonitor.source_ip e) (HRMonitor.endpoint e) (HRMonitor.blocked e)
             (Some (HRMonitor.metadata e)) (HRMonitor.timestamp e))
  | HRCompliance e =>
      fst (HRMonitor.log_compliance_event self (HRMonitor.compliance_type e)
             (HRMonitor.event_description e) (HRMonitor.data_processed e)
             (HRMonitor.user_consent e) (HRMonitor.encryption_status e)
             (HRMonitor.data_location e) (Some (HRMonitor.log_metadata e))
             (HRMonitor.log_timestamp e))
  end.

Definition hr_run (calls : list hr_call) : HRMonitor.monitor :=
  fold_left hr_do_call calls HRMonitor.init.

Definition hr_security_calls (calls : list hr_call) : list HRMonitor.security_event :=
  flat_map (fun c => match c with HRSecurity e => [e] | _ => [] end) calls.

Definition hr_compliance_calls (calls : list hr_call)
  : list HRMonitor.compliance_event :=
  flat_map (fun c => match c with HRCompliance e => [e] | _ => [] end) calls.


(** An SDK-HR security event for closed examples. *)
Definition sample_hr_event (severity : string) (blocked : bool) (now : Q)
  : HRMonitor.security_event :=
  HRMonitor.SecurityEvent "suspicious_activity" "Test security event" severity
                          None None blocked now [].

(** What the SDK-HR tracker does to its collector, call by call. *)
Inductive hr_metric_call : Type :=
| HRRequest (prompt_tokens completion_tokens : Z) (cost latency : Q)
| HRError.

Definition hr_metric_step (fadd : Q -> Q -> Q) (self : HRMetrics.collector)
           (c : hr_metric_call) : HRMetrics.collector :=
  match c with
  | HRRequest p c cost latency =>
      HRMetrics.tracker_log_request fadd self p c cost latency
  | HRError => HRMetrics.tracker_log_error self
  end.

Definition request_latencies (calls : list hr_metric_call) : list Q :=
  flat_map (fun c => match c with HRRequest _ _ _ l => [l] | HRError => [] end)
           calls.

Definition error_calls (calls : list hr_metric_call) : nat :=
  length (List.filter (fun c => match c with HRError => true | _ => false end)
                      calls).

(** Floating-point operations for closed examples: the exact ones. *)
Definition exact_add (x y : Q) : Q := (x + y)%Q.
Definition exact_mul (x y : Q) : Q := (x * y)%Q.
Definition exact_div (x y : Q) : Q := (x / y)%Q.

(** The statuses that the SDK health monitor accepts. *)
Definition valid_status (s : string) : Prop :=
  s = "healthy" \/ s = "warning" \/ s = "critical".

(** A formatter and system metrics for closed examples. *)
Definition no_format (digits : nat) (x : Q) : string := "".

Definition busy_metrics : gmap string Q :=
  {[ "cpu_percent" := 99%Q; "memory_percent" := 90%Q; "disk_percent" := 10%Q ]}.

(** The sum of [f] over the values of a dictionary. *)
Definition total_of {A} (f : A -> Z) (m : gmap string A) : Z :=
  map_fold (fun _ v acc => (f v + acc)%Z) 0%Z m.

(** Calls on the SDK collector, and runs of them on a fresh collector. *)
Inductive metrics_call : Type :=
| UpdateTokens (tokens : Z) (cost : Q) (tm : SDKMetrics.struct_time)
| UpdateRequest (latency : Q) (success : bool) (tm : SDKMetrics.struct_time)
| UpdateError (error_type : string) (tm : SDKMetrics.struct_time)
| ResetMetrics (now : Q).

Definition metrics_step (fadd fmul fdiv : Q -> Q -> Q)
           (self : SDKMetrics.collector) (c : metrics_call) : SDKMetrics.collector :=
  match c with
  | UpdateTokens tokens cost tm => SDKMetrics.update_tokens fadd self tokens cost tm
  | UpdateRequest latency success tm =>
      SDKMetrics.update_request fadd fmul fdiv self latency success tm
  | UpdateError error_type tm => SDKMetrics.update_error self error_type tm
  | ResetMetrics now => SDKMetrics.reset_metrics self now
  end.

(** What the SDK tracker does to its collector, call by call. *)
Inductive tracker_call : Type :=
| LogTokens (input_tokens output_tokens : Z) (cost : Q)
            (tm : SDKMetrics.struct_time)
| RequestSucceeded (latency : Q) (tm : SDKMetrics.struct_time)
| RequestFailed (latency : Q) (error_type : string)
                (tm1 tm2 : SDKMetrics.struct_time).

Definition tracker_step (fadd fmul fdiv : Q -> Q -> Q)
           (self : SDKMetrics.collector) (c : tracker_call) : SDKMetrics.collector :=
  match c with
  | LogTokens i o cost tm => SDKMetrics.tracker_log_tokens fadd self i o cost tm
  | RequestSucceeded latency tm =>
      SDKMetrics.tracker_request_succeeded fadd fmul fdiv self latency tm
  | RequestFailed latency error_type tm1 tm2 =>
      SDKMetrics.tracker_request_failed fadd fmul fdiv self latency error_type
                                        tm1 tm2
  end.

(** The invariants of the collector. *)
Definition metrics_consistent (m : SDKMetrics.collector) : Prop :=
  SDKMetrics.total_requests m =
    SDKMetrics.successful_requests m + SDKMetrics.failed_requests m /\
  length (SDKMetrics.latencies m) = SDKMetrics.total_requests m /\
  total_of (fun h => Z.of_nat (SDKMetrics.h_requests h))
           (SDKMetrics.hourly_metrics m) =
    Z.of_nat (SDKMetrics.total_requests m) /\
  total_of SDKMetrics.h_tokens (SDKMetrics.hourly_metrics m) =
    SDKMetrics.total_tokens m /\
  total_of (fun h => Z.of_nat (SDKMetrics.h_errors h))
           (SDKMetrics.hourly_metrics m) =
    total_of Z.of_nat (SDKMetrics.errors m).

(** A local time as [time.localtime] gives it. *)
Definition valid_time (tm : SDKMetrics.struct_time) : Prop :=
  1 <= SDKMetrics.tm_mon tm <= 12 /\
  1 <= SDKMetrics.tm_mday tm <= 31 /\
  SDKMetrics.tm_hour tm <= 23.

(** * Properties *)

(** ** Strings *)

Lemma length_app_string (s1 s2 : string) :
  String.length (s1 +:+ s2) = String.length s1 + String.length s2.
Proof. induction s1 as [|a s1 IH]; simpl; [reflexivity | now rewrite IH]. Qed.

Lemma length_repeat_char (c : ascii) (n : nat) :
  String.length (PyStr.repeat_char c n) = n.
Proof. induction n as [|n IH]; simpl; [reflexivity | now rewrite IH]. Qed.

Lemma get_repeat_char (c : ascii) (n i : nat) :
  i < n -> get i (PyStr.repeat_char c n) = Some c.
Proof.
  revert i; induction n as [|n IH]; intros i Hi; [lia|].
  destruct i as [|i]; simpl; [reflexivity | apply IH; lia].
Qed.

Lemma length_substring (s : string) (n m : nat) :
  n + m <= String.length s -> String.length (substring n m s) = m.
Proof.
  revert n m; induction s as [|a s IH]; intros n m H; simpl in *.
  - destruct n, m; simpl; lia.
  - destruct n as [|n].
    + destruct m as [|m]; simpl; [reflexivity|]. rewrite IH; lia.
    + apply IH; lia.
Qed.

Lemma get_in_range (s : string) (i : nat) :
  i < String.length s -> exists a, get i s = Some a.
Proof.
  revert i; induction s as [|a s IH]; intros i Hi; simpl in *; [lia|].
  destruct i as [|i]; [eauto | apply IH; lia].
Qed.

(** ** Masking ([HR._mask_sensitive_data]) *)

Lemma mask_short (data : string) :
  String.length data <= 4 ->
  HR._mask_sensitive_data data = PyStr.repeat_char star_char (String.length data).
Proof.
  intros H. unfold HR._mask_sensitive_data, PyStr.len.
  destruct (Nat.leb_spec (String.length data) 4); [reflexivity | lia].
Qed.

Lemma mask_long (data : string) :
  4 < String.length data ->
  HR._mask_sensitive_data data =
    substring 0 2 data
    +:+ PyStr.repeat_char star_char (String.length data - 4)
    +:+ substring (String.length data - 2) 2 data.
Proof.
  intros H. unfold HR._mask_sensitive_data, PyStr.len.
  destruct (Nat.leb_spec (String.length data) 4); [lia | reflexivity].
Qed.

Lemma mask_length (data : string) :
  String.length (HR._mask_sensitive_data data) = String.length data.
Proof.
  destruct (Nat.le_gt_cases (String.length data) 4) as [H|H].
  - rewrite mask_short by assumption. apply length_repeat_char.
  - rewrite mask_long by assumption.
    rewrite !length_app_string, length_repeat_char, !length_substring by lia.
    lia.
Qed.

Lemma get_app_string (s1 s2 : string) (i : nat) :
  get i (s1 +:+ s2) =
    if (i <? String.length s1)%nat then get i s1
    else get (i - String.length s1) s2.
Proof.
  destruct (Nat.ltb_spec i (String.length s1)) as [H|H].
  - symmetry. now apply append_correct1.
  - rewrite (append_correct2 s1 s2 (i - String.length s1)).
    f_equal. lia.
Qed.

Lemma mask_get (data : string) (i : nat) :
  i < String.length data ->
  get i (HR._mask_sensitive_data data) =
    if kept (String.length data) i then get i data else Some star_char.
Proof.
  intros Hi. unfold kept.
  destruct (Nat.ltb_spec 4 (String.length data)) as [H|H]; simpl.
  - rewrite mask_long by assumption.
    rewrite !get_app_string, length_repeat_char, length_substring by lia.
    destruct (Nat.ltb_spec i 2) as [H2|H2]; simpl.
    + rewrite substring_correct1 by lia. now rewrite Nat.add_0_r.
    + destruct (Nat.ltb_spec (i - 2) (String.length data - 4)) as [H3|H3];
        destruct (Nat.leb_spec (String.length data - 2) i) as [H4|H4];
        try lia.
      * apply get_repeat_char; lia.
      * rewrite substring_correct1 by lia. f_equal. lia.
  - rewrite mask_short by lia. apply get_repeat_char; assumption.
Qed.

(** ** The matcher *)

Lemma list_ascii_of_string_app (s1 s2 : string) :
  list_ascii_of_string (s1 +:+ s2) =
    (list_ascii_of_string s1 ++ list_ascii_of_string s2)%list.
Proof. induction s1 as [|a s1 IH]; simpl; [reflexivity | now rewrite IH]. Qed.

Lemma forall_ascii (P : ascii -> bool) :
  forallb P all_ascii = true -> forall a, P a = true.
Proof.
  intros H a. rewrite forallb_forall in H. apply H.
  unfold all_ascii. rewrite <- (ascii_nat_embedding a).
  apply in_map, in_seq. pose proof (nat_ascii_bounded a). lia.
Qed.

Lemma first_char_head (s : string) :
  first_char s = head (list_ascii_of_string s).
Proof. destruct s; reflexivity. Qed.

(** A match at a later start position is found by the scan. *)
Lemma search_from_app (p : Re.pattern) (pre l : list ascii) (pv : option ascii) :
  Re.matches_at p (Re.Cursor (char_before pv pre) l) = true ->
  Re.search_from p pv (pre ++ l) = true.
Proof.
  revert pv; induction pre as [|a pre IH]; intros pv H; simpl in *.
  - destruct l; simpl; rewrite H; reflexivity.
  - rewrite (IH (Some a) H). apply orb_true_r.
Qed.

(** [findall] is empty exactly when [search] fails. *)
Lemma findall_from_nil (p : Re.pattern) (l : list ascii) (pv : option ascii) :
  Re.findall_from p 0 pv l = [] <-> Re.search_from p pv l = false.
Proof.
  revert pv; induction l as [|a l IH]; intros pv; simpl;
    unfold Re.matches_at;
    destruct (Re.ends (Re.ignorecase p) (Re.tree p) _) as [|e es]; simpl.
  - tauto.
  - split; discriminate.
  - apply IH.
  - split; discriminate.
Qed.

Lemma findall_nil (p : Re.pattern) (s : string) :
  Re.findall p s = [] <-> Re.search p s = false.
Proof. apply findall_from_nil. Qed.

Lemma search_findall (p : Re.pattern) (s : string) :
  Re.search p s = true -> Re.findall p s <> [].
Proof. intros H E. apply findall_nil in E. congruence. Qed.

(** Introduction rules for the end positions of a match. *)

Lemma ends_one (ok : ascii -> bool) (pv : option ascii) (a : ascii) (t : list ascii) :
  ok a = true ->
  In (Re.Cursor (Some a) t) (Re.one ok (Re.Cursor pv (a :: t))).
Proof. intros H. unfold Re.one; simpl. rewrite H. now left. Qed.

Lemma ends_seq (ic : bool) (r1 r2 : Re.regex) (c c1 c2 : Re.cursor) :
  In c1 (Re.ends ic r1 c) -> In c2 (Re.ends ic r2 c1) ->
  In c2 (Re.ends ic (Re.Seq r1 r2) c).
Proof. intros H1 H2. simpl. apply in_flat_map. eauto. Qed.

Lemma rep_upto_self (step : Re.cursor -> list Re.cursor) (n : nat) (c : Re.cursor) :
  In c (Re.rep_upto step n c).
Proof. destruct n; simpl; [now left | apply in_or_app; right; now left]. Qed.

Lemma ends_rep (ic : bool) (r : Re.regex) (lo : nat) (hi : option nat)
      (c c1 : Re.cursor) :
  In c1 (Re.rep_exact (Re.ends ic r) lo c) ->
  In c1 (Re.ends ic (Re.Rep r lo hi) c).
Proof.
  intros H. simpl. apply in_flat_map. exists c1. split; [assumption|].
  apply rep_upto_self.
Qed.

Lemma rep_exact_step (step : Re.cursor -> list Re.cursor) (n : nat)
      (c c1 c2 : Re.cursor) :
  In c1 (step c) -> In c2 (Re.rep_exact step n c1) ->
  In c2 (Re.rep_exact step (S n) c).
Proof. intros H1 H2. simpl. apply in_flat_map. eauto. Qed.

(** A run of characters that each satisfy [ok]. *)
Lemma rep_exact_run (ic : bool) (r : Re.regex) (ok : ascii -> bool)
      (run t : list ascii) (pv : option ascii) :
  (forall c, Re.ends ic r c = Re.one ok c) ->
  forallb ok run = true ->
  In (Re.Cursor (char_before pv run) t)
     (Re.rep_exact (Re.ends ic r) (length run) (Re.Cursor pv (run ++ t))).
Proof.
  intros Hr. revert pv; induction run as [|a run IH]; intros pv H; simpl in *.
  - now left.
  - apply andb_prop in H as [Ha H]. apply in_flat_map.
    exists (Re.Cursor (Some a) (run ++ t)). split.
    + rewrite Hr. now apply ends_one.
    + now apply IH.
Qed.

Lemma ends_text (ic : bool) (pat : string) (run t : list ascii) (pv : option ascii) :
  text_matches ic pat run = true ->
  In (Re.Cursor (char_before pv run) t)
     (Re.ends ic (Re.text pat) (Re.Cursor pv (run ++ t))).
Proof.
  revert run pv; induction pat as [|b pat IH]; intros run pv H;
    destruct run as [|a run]; simpl in H; try discriminate.
  - now left.
  - apply andb_prop in H as [Ha H].
    change (Re.text (String b pat)) with (Re.Seq (Re.Lit b) (Re.text pat)).
    change (char_before pv (a :: run)) with (char_before (Some a) run).
    change ((a :: run) ++ t)%list with (a :: (run ++ t))%list.
    apply ends_seq with (c1 := Re.Cursor (Some a) (run ++ t)).
    + simpl. now apply ends_one.
    + now apply IH.
Qed.

Lemma matches_at_intro (p : Re.pattern) (c c' : Re.cursor) :
  In c' (Re.ends (Re.ignorecase p) (Re.tree p) c) -> Re.matches_at p c = true.
Proof.
  unfold Re.matches_at. destruct (Re.ends _ _ _); [intros [] | reflexivity].
Qed.

(** ** The PII scans *)

Lemma hr_scan_fold (text : string) (ps : list (string * Re.pattern))
      (acc : list HR.finding) :
  fold_left (HR.scan_pii text) ps acc =
    (acc ++ flat_map (report_entry hr_finding text) ps)%list.
Proof.
  revert acc; induction ps as [|[ty p] ps IH]; intros acc; simpl.
  - now rewrite app_nil_r.
  - rewrite IH. unfold report_entry; simpl.
    destruct (Re.findall p text); simpl; [reflexivity|].
    now rewrite <- app_assoc.
Qed.

Lemma sdk_scan_fold (text : string) (ps : list (string * Re.pattern))
      (acc : list SDK.pii_info) :
  fold_left (SDK.check_pii text) ps acc =
    (acc ++ flat_map (report_entry sdk_pii_info text) ps)%list.
Proof.
  revert acc; induction ps as [|[ty p] ps IH]; intros acc; simpl.
  - now rewrite app_nil_r.
  - rewrite IH. unfold report_entry; simpl.
    destruct (Re.findall p text); simpl; [reflexivity|].
    now rewrite <- app_assoc.
Qed.

Lemma in_report_entry {A} (build : string -> list string -> A) (text : string)
      (ps : list (string * Re.pattern)) (x : A) :
  In x (flat_map (report_entry build text) ps) <->
  exists ty p, In (ty, p) ps /\ Re.findall p text <> [] /\
               x = build ty (Re.findall p text).
Proof.
  rewrite in_flat_map. split.
  - intros [[ty p] [Hin Hx]]. exists ty, p. unfold report_entry in Hx; simpl in Hx.
    destruct (Re.findall p text) eqn:E; [destruct Hx|].
    destruct Hx as [<-|[]]. repeat split; [assumption | discriminate].
  - intros (ty & p & Hin & Hne & ->). exists (ty, p). split; [assumption|].
    unfold report_entry; simpl.
    destruct (Re.findall p text); [congruence | now left].
Qed.

Lemma sdk_pii_detected (py_round : Q -> nat -> Q) (self : SDK.monitor)
      (text : string) (clk : SDK.clock) :
  SDK.pii_detected (snd (SDK.check_data_privacy py_round self text clk)) =
    flat_map (report_entry sdk_pii_info text) SDK.pii_patterns.
Proof.
  unfold SDK.check_data_privacy. rewrite sdk_scan_fold. rewrite app_nil_l.
  generalize (flat_map (report_entry sdk_pii_info text) SDK.pii_patterns).
  intros l. destruct (existsb _ l); [reflexivity|].
  destruct l; reflexivity.
Qed.

(** No masked value has a visible third character. *)
Lemma mask_third_char (v : string) (a : ascii) :
  get 2 (HR._mask_sensitive_data v) = Some a -> a = star_char.
Proof.
  intros H.
  destruct (Nat.lt_ge_cases 2 (String.length v)) as [Hl|Hl].
  - rewrite mask_get in H by assumption. unfold kept in H.
    destruct (Nat.ltb_spec 4 (String.length v)) as [H4|H4]; simpl in H.
    + destruct (Nat.leb_spec (String.length v - 2) 2) as [H5|H5]; [lia|].
      congruence.
    + congruence.
  - pose proof (mask_length v) as Hm.
    destruct (HR._mask_sensitive_data v) as [|x [|y [|z m]]]; simpl in *;
      try discriminate. lia.
Qed.

(** C1, as stated, fails on the SDK monitor: its report of
    ["john@example.com"] carries the raw address among the matches of the
    [email] entry, and that string is not the masked form of any value. *)
Lemma sdk_privacy_report_has_raw_match :
  let report := snd (SDK.check_data_privacy no_round SDK.init
                                            "john@example.com" clock0) in
  exists info,
    In info (SDK.pii_detected report) /\
    SDK.pii_type info = "email" /\
    In "john@example.com" (SDK.pii_matches info) /\
    forall v, HR._mask_sensitive_data v <> "john@example.com".
Proof.
  exists (SDK.PiiInfo "email" 1 ["john@example.com"] "medium").
  split; [vm_compute; now left|].
  split; [reflexivity|].
  split; [now left|].
  intros v E. assert (H : get 2 (HR._mask_sensitive_data v) = Some "h"%char)
    by now rewrite E.
  apply mask_third_char in H. discriminate.
Qed.

(** C1 (amended): masking keeps the length of a value and, for a value
    longer than four characters, its first two and last two characters,
    with a star at every other position; a value of at most four characters
    becomes all stars; ["john@example.com"] becomes ["jo"], twelve stars,
    ["om"].  In the SDK-HR monitor every reported sample is the masked form
    of one of the first three raw matches of its pattern.  The SDK monitor
    has no masking: each of its entries reports the first five raw matches
    of its pattern. *)
Theorem masking_of_reported_samples :
  (forall data : string,
      String.length (HR._mask_sensitive_data data) = String.length data /\
      forall i, i < String.length data ->
        get i (HR._mask_sensitive_data data) =
          if kept (String.length data) i then get i data else Some star_char) /\
  HR._mask_sensitive_data "john@example.com" =
    "jo" +:+ PyStr.repeat_char star_char 12 +:+ "om" /\
  (forall text f,
      In f (HR.findings (HR.check_data_privacy text)) ->
      exists p, In (HR.finding_type f, p) HR.patterns /\
                HR.finding_samples f =
                  map HR._mask_sensitive_data (firstn 3 (Re.findall p text))) /\
  (forall py_round self text clk info,
      In info (SDK.pii_detected
                 (snd (SDK.check_data_privacy py_round self text clk))) ->
      exists p, In (SDK.pii_type info, p) SDK.pii_patterns /\
                SDK.pii_matches info = firstn 5 (Re.findall p text)).
Proof.
  split; [|split; [|split]].
  - intros data. split; [apply mask_length | intros i; apply mask_get].
  - reflexivity.
  - intros text f H. unfold HR.check_data_privacy in H.
    cbn [HR.findings] in H. rewrite hr_scan_fold, app_nil_l in H.
    apply in_report_entry in H as (ty & p & Hin & _ & ->).
    exists p. split; [assumption | reflexivity].
  - intros py_round self text clk info H. rewrite sdk_pii_detected in H.
    apply in_report_entry in H as (ty & p & Hin & _ & ->).
    exists p. split; [assumption | reflexivity].
Qed.

Lemma masking_of_reported_samples_witness :
  get 5 (HR._mask_sensitive_data "4111-1111-1111-1111") = Some star_char /\
  (exists p, In ("ssn", p) HR.patterns /\
             ["12*******89"] =
               map HR._mask_sensitive_data
                   (firstn 3 (Re.findall p "SSN: 123-45-6789"))) /\
  (exists p, In ("ssn", p) SDK.pii_patterns /\
             ["123-45-6789"] = firstn 5 (Re.findall p "SSN: 123-45-6789")).
Proof.
  destruct masking_of_reported_samples as (Hmask & _ & Hhr & Hsdk).
  split; [|split].
  - apply (proj2 (Hmask "4111-1111-1111-1111") 5). vm_compute. lia.
  - apply (Hhr "SSN: 123-45-6789" (HR.Finding "ssn" 1 ["12*******89"])).
    vm_compute. now left.
  - apply (Hsdk no_round SDK.init "SSN: 123-45-6789" clock0
                (SDK.PiiInfo "ssn" 1 ["123-45-6789"] "critical")).
    vm_compute. now left.
Defined.

(** ** The event logs *)

(** Appending to a capped log: what [x[-1000:]] keeps after the append. *)
Lemma capped_append {A} (l : list A) (e : A) :
  (if (1000 <? length (l ++ [e]))%nat
   then PyStr.list_slice_last 1000 (l ++ [e])
   else (l ++ [e])%list) = skipn (length l + 1 - 1000) (l ++ [e]).
Proof.
  unfold PyStr.list_slice_last. rewrite length_app; simpl.
  destruct (Nat.ltb_spec 1000 (length l + 1)) as [H|H]; [reflexivity|].
  replace (length l + 1 - 1000) with 0 by lia. reflexivity.
Qed.

Lemma security_events_logged (self : SDK.monitor) (ty descr sev : string)
      (md : option SDK.metadata) (now : Q) :
  SDK.security_events (SDK.log_security_event self ty descr sev md now) =
    skipn (length (SDK.security_events self) + 1 - 1000)
          (SDK.security_events self ++
           [SDK.SecurityEvent (length (SDK.security_events self) + 1) ty descr
                              sev (default [] md) now]).
Proof. unfold SDK.log_security_event. cbn [SDK.security_events]. apply capped_append. Qed.

Lemma compliance_logs_logged (self : SDK.monitor) (ty status details : string)
      (md : option SDK.metadata) (now : Q) :
  SDK.compliance_logs (SDK.log_compliance_event self ty status details md now) =
    skipn (length (SDK.compliance_logs self) + 1 - 1000)
          (SDK.compliance_logs self ++
           [SDK.ComplianceEvent (length (SDK.compliance_logs self) + 1) ty status
                                details (default [] md) now]).
Proof. unfold SDK.log_compliance_event. cbn [SDK.compliance_logs]. apply capped_append. Qed.

(** A suffix obtained by dropping from the front. *)
Lemma skipn_suffix {A} (n : nat) (l : list A) :
  l = (firstn n l ++ skipn n l)%list /\
  length (skipn n l) = length l - n.
Proof. split; [symmetry; apply firstn_skipn | apply length_skipn]. Qed.

Lemma fifo_step {A B} (f : A -> B) (old : list A) (e : A) (calls : list B) (b : B) :
  f e = b ->
  length old <= 1000 ->
  (exists dropped, calls = dropped ++ map f old)%list ->
  let new := skipn (length old + 1 - 1000) (old ++ [e]) in
  length new <= 1000 /\
  length new = Nat.min 1000 (length old + 1) /\
  (exists dropped, calls ++ [b] = dropped ++ map f new)%list.
Proof.
  intros Hb Hlen [d Hd] new.
  assert (Hn : length new = length old + 1 - (length old + 1 - 1000)).
  { unfold new. rewrite length_skipn, length_app. simpl. lia. }
  split; [lia|]. split; [lia|].
  exists (d ++ map f (firstn (length old + 1 - 1000) (old ++ [e])))%list.
  rewrite <- app_assoc, <- map_app. unfold new. rewrite firstn_skipn.
  rewrite map_app, Hd, <- app_assoc. simpl. now rewrite Hb.
Qed.

Lemma log_state_step (calls : list call) (m : SDK.monitor) (c : call) :
  log_state calls m -> log_state (calls ++ [c]) (do_call m c).
Proof.
  intros (Hs & Hc & Ds & Dc). unfold log_state, security_calls, compliance_calls.
  rewrite !flat_map_app. fold (security_calls calls) (compliance_calls calls).
  destruct c as [c|c]; cbn [do_call flat_map]; rewrite !app_nil_r.
  - rewrite security_events_logged.
    destruct (fifo_step security_call_of (SDK.security_events m)
                (SDK.SecurityEvent (length (SDK.security_events m) + 1)
                   (sc_event_type c) (sc_description c) (sc_severity c)
                   (default [] (Some (sc_metadata c))) (sc_now c))
                (security_calls calls) c) as (_ & H2 & H3);
      [now destruct c | lia | assumption |].
    cbn zeta in H2, H3. rewrite H2, length_app. cbn [length].
    repeat split; [lia | assumption | assumption | assumption].
  - rewrite compliance_logs_logged.
    destruct (fifo_step compliance_call_of (SDK.compliance_logs m)
                (SDK.ComplianceEvent (length (SDK.compliance_logs m) + 1)
                   (cc_compliance_type c) (cc_status c) (cc_details c)
                   (default [] (Some (cc_metadata c))) (cc_now c))
                (compliance_calls calls) c) as (_ & H2 & H3);
      [now destruct c | lia | assumption |].
    cbn zeta in H2, H3. rewrite H2, length_app. cbn [length].
    repeat split; [assumption | lia | assumption | assumption].
Qed.

Lemma run_snoc (calls : list call) (c : call) :
  run (calls ++ [c]) = do_call (run calls) c.
Proof. unfold run. now rewrite fold_left_app. Qed.

Lemma log_state_run (calls : list call) : log_state calls (run calls).
Proof.
  induction calls as [|c calls IH] using rev_ind.
  - unfold log_state; simpl. repeat split; exists []; reflexivity.
  - rewrite run_snoc. now apply log_state_step.
Qed.

Lemma kept_calls {A} (calls dropped kept : list A) (n : nat) :
  calls = (dropped ++ kept)%list -> length kept + n = length calls ->
  kept = skipn n calls.
Proof.
  intros -> H. rewrite length_app in H.
  rewrite skipn_app, skipn_all2 by lia.
  replace (n - length dropped) with 0 by lia. reflexivity.
Qed.

(** C3: after every append both logs hold at most 1000 entries; an append
    puts the new event at the end and, beyond the cap, drops entries from
    the front only, leaving exactly 1000; it always returns a monitor (there
    is no failure to surface).  After 1050 appends to a log it holds 1000
    entries, the 1000 most recently appended ones. *)
Theorem event_logs_capped_fifo :
  (forall calls,
      length (SDK.security_events (run calls)) <= 1000 /\
      length (SDK.compliance_logs (run calls)) <= 1000) /\
  (forall self ty descr sev md now,
      let self' := SDK.log_security_event self ty descr sev md now in
      exists dropped e,
        (SDK.security_events self ++ [e] =
         dropped ++ SDK.security_events self')%list /\
        security_call_of e = SecurityCall ty descr sev (default [] md) now /\
        length (SDK.security_events self') =
          Nat.min 1000 (length (SDK.security_events self) + 1) /\
        SDK.compliance_logs self' = SDK.compliance_logs self) /\
  (forall self ty status details md now,
      let self' := SDK.log_compliance_event self ty status details md now in
      exists dropped e,
        (SDK.compliance_logs self ++ [e] =
         dropped ++ SDK.compliance_logs self')%list /\
        compliance_call_of e =
          ComplianceCall ty status details (default [] md) now /\
        length (SDK.compliance_logs self') =
          Nat.min 1000 (length (SDK.compliance_logs self) + 1) /\
        SDK.security_events self' = SDK.security_events self) /\
  (forall calls,
      length (security_calls calls) = 1050 ->
      length (SDK.security_events (run calls)) = 1000 /\
      map security_call_of (SDK.security_events (run calls)) =
        skipn 50 (security_calls calls)) /\
  (forall calls,
      length (compliance_calls calls) = 1050 ->
      length (SDK.compliance_logs (run calls)) = 1000 /\
      map compliance_call_of (SDK.compliance_logs (run calls)) =
        skipn 50 (compliance_calls calls)).
Proof.
  split; [|split; [|split; [|split]]].
  - intros calls. destruct (log_state_run calls) as (Hs & Hc & _). lia.
  - intros self ty descr sev md now self'.
    pose proof (security_events_logged self ty descr sev md now) as E.
    fold self' in E.
    destruct (skipn_suffix (length (SDK.security_events self) + 1 - 1000)
                (SDK.security_events self ++
                 [SDK.SecurityEvent (length (SDK.security_events self) + 1) ty
                    descr sev (default [] md) now])) as [H1 H2].
    rewrite <- E in H1, H2. rewrite length_app in H2; cbn [length] in H2.
    eexists _, _. split; [exact H1|]. split; [reflexivity|].
    split; [lia | reflexivity].
  - intros self ty status details md now self'.
    pose proof (compliance_logs_logged self ty status details md now) as E.
    fold self' in E.
    destruct (skipn_suffix (length (SDK.compliance_logs self) + 1 - 1000)
                (SDK.compliance_logs self ++
                 [SDK.ComplianceEvent (length (SDK.compliance_logs self) + 1) ty
                    status details (default [] md) now])) as [H1 H2].
    rewrite <- E in H1, H2. rewrite length_app in H2; cbn [length] in H2.
    eexists _, _. split; [exact H1|]. split; [reflexivity|].
    split; [lia | reflexivity].
  - intros calls H. destruct (log_state_run calls) as (Hs & _ & [d Hd] & _).
    rewrite H in Hs. change (Nat.min 1000 1050) with 1000 in Hs.
    split; [assumption|].
    apply kept_calls with (dropped := d); [assumption|].
    rewrite length_map. lia.
  - intros calls H. destruct (log_state_run calls) as (_ & Hc & _ & [d Hd]).
    rewrite H in Hc. change (Nat.min 1000 1050) with 1000 in Hc.
    split; [assumption|].
    apply kept_calls with (dropped := d); [assumption|].
    rewrite length_map. lia.
Qed.

Lemma event_logs_capped_fifo_witness :
  length (security_calls (numbered_calls 1050)) = 1050 /\
  length (compliance_calls (numbered_calls 1050)) = 1050 /\
  length (SDK.security_events (run (numbered_calls 1050))) = 1000 /\
  length (SDK.compliance_logs (run (numbered_calls 1050))) = 1000.
Proof.
  destruct event_logs_capped_fifo as (_ & _ & _ & Hs & Hc).
  assert (H1 : length (security_calls (numbered_calls 1050)) = 1050)
    by (vm_compute; reflexivity).
  assert (H2 : length (compliance_calls (numbered_calls 1050)) = 1050)
    by (vm_compute; reflexivity).
  split; [exact H1|]. split; [exact H2|].
  split; [exact (proj1 (Hs _ H1)) | exact (proj1 (Hc _ H2))].
Defined.

(** C2, evaluated on the monitor: an event's id is the length of its log
    plus one, so once a log holds 1000 entries every new event gets id 1001.
    After 1002 appends to each log the last two entries of each carry the
    same id. *)
Theorem event_ids_repeat_after_eviction :
  let m := run (numbered_calls 1002) in
  map SDK.event_id (skipn 998 (SDK.security_events m)) = [1001; 1001] /\
  map SDK.log_id (skipn 998 (SDK.compliance_logs m)) = [1001; 1001].
Proof. vm_compute. split; reflexivity. Qed.

(** ** The threat scan *)

Lemma scan_app (content : string) (r1 r2 : list (string * Re.pattern))
      (acc : list SDK.threat_info * string) :
  scan content (r1 ++ r2) acc = scan content r2 (scan content r1 acc).
Proof.
  unfold scan; simpl. rewrite List.filter_app, map_app, fold_left_app, app_assoc.
  reflexivity.
Qed.

Lemma check_pattern_fold (content ty : string) (ps : list Re.pattern)
      (acc : list SDK.threat_info * string) :
  fold_left (SDK.check_pattern content ty) ps acc =
    scan content (map (pair ty) ps) acc.
Proof.
  revert acc; induction ps as [|p ps IH]; intros [ts sev].
  - unfold scan; simpl. now rewrite app_nil_r.
  - change (map (pair ty) (p :: ps)) with ([(ty, p)] ++ map (pair ty) ps)%list.
    rewrite scan_app, <- IH. simpl fold_left at 1. f_equal.
    unfold SDK.check_pattern, scan, rule_matches; simpl.
    destruct (Re.search p content); simpl; [reflexivity | now rewrite app_nil_r].
Qed.

Lemma check_category_fold (content : string)
      (cats : list (string * list Re.pattern))
      (acc : list SDK.threat_info * string) :
  fold_left (SDK.check_category content) cats acc =
    scan content
         (flat_map (fun entry => map (pair (fst entry)) (snd entry)) cats) acc.
Proof.
  revert acc; induction cats as [|[ty ps] cats IH]; intros [ts sev].
  - unfold scan; simpl. now rewrite app_nil_r.
  - simpl flat_map. rewrite scan_app, <- IH. simpl fold_left at 1. f_equal.
    unfold SDK.check_category. apply check_pattern_fold.
Qed.

Section Analysis.

Variable py_round : Q -> nat -> Q.
Variable value : Type.
Variable py_str : value -> string.

(** The result of an analysis, in terms of the scan of its content. *)
Lemma analysis_result (self : SDK.monitor) (operation : string)
      (request_data : gmap string value) (clk : SDK.clock) :
  let found := scan (content_of py_str request_data) all_rules ([], "low") in
  snd (SDK.analyze_request_security py_round value py_str self operation
                                    request_data clk) =
    SDK.ThreatResult (fst found) (length (fst found)) (snd found)
                     (length (fst found) =? 0)%nat
                     (py_round ((SDK.t_end clk - SDK.t_start clk) * 1000)%Q 2)
                     (SDK.t_result clk).
Proof.
  intros found. unfold SDK.analyze_request_security.
  fold (content_of py_str request_data).
  rewrite check_category_fold. fold all_rules. fold found.
  destruct found as [ts sev]. reflexivity.
Qed.

End Analysis.

(** Severities. *)

Lemma threat_severity_valid (ty : string) :
  is_severity (SDK._get_threat_severity ty).
Proof.
  unfold SDK._get_threat_severity, is_severity; simpl.
  repeat (destruct (String.eqb ty _); [tauto|]). tauto.
Qed.

Lemma update_severity_max (found sev : string) :
  is_severity found -> is_severity sev ->
  is_severity (SDK.update_severity found sev) /\
  severity_rank (SDK.update_severity found sev) =
    Nat.max (severity_rank sev) (severity_rank found) /\
  (SDK.update_severity found sev = found \/
   (SDK.update_severity found sev = sev /\ sev <> "low")).
Proof.
  unfold is_severity.
  intros [-> | [-> | [-> | ->]]] [-> | [-> | [-> | ->]]]; vm_compute;
    repeat split; try tauto; try (right; split; [reflexivity | discriminate]).
Qed.

Lemma scan_severity (hits : list (string * Re.pattern)) (seen : list string)
      (sev : string) :
  is_severity sev -> is_max_severity sev seen ->
  let sev' :=
    fold_left (fun sev rule =>
                 SDK.update_severity (SDK.threat_severity (rule_info rule)) sev)
              hits sev in
  is_severity sev' /\
  is_max_severity sev'
    (seen ++ map (fun rule => SDK.threat_severity (rule_info rule)) hits).
Proof.
  revert seen sev; induction hits as [|r hits IH]; intros seen sev Hv Hmax.
  - simpl. now rewrite app_nil_r.
  - cbn [fold_left map].
    set (found := SDK.threat_severity (rule_info r)).
    assert (Hf : is_severity found) by apply threat_severity_valid.
    destruct (update_severity_max found sev Hf Hv) as (Hv' & Hr & Hc).
    replace (seen ++ found :: map _ hits)%list
      with ((seen ++ [found]) ++
            map (fun rule => SDK.threat_severity (rule_info rule)) hits)%list
      by now rewrite <- app_assoc.
    apply IH; [assumption|].
    destruct Hmax as [Hub Hin]. split.
    + intros s Hs. apply in_app_or in Hs as [Hs | [<- | []]].
      * specialize (Hub s Hs). lia.
      * lia.
    + left. apply in_or_app. destruct Hc as [-> | [-> Hne]].
      * right; now left.
      * left. destruct Hin as [Hin | [_ ->]]; [assumption | congruence].
Qed.

Lemma rank_critical (s : string) : 3 <= severity_rank s -> s = "critical".
Proof.
  unfold severity_rank. destruct (String.eqb_spec s "critical"); [easy|].
  repeat (destruct (String.eqb s _)); lia.
Qed.

(** Case folding and the case-insensitive literal. *)
Lemma fold_lit_matches (a b : ascii) :
  ascii_fold a = ascii_fold b -> Re.lit_matches true b a = true.
Proof.
  intros H.
  assert (F : forallb (fun x => forallb (fun y =>
               implb (Ascii.eqb (ascii_fold x) (ascii_fold y))
                     (Re.lit_matches true y x)) all_ascii) all_ascii = true)
    by (vm_compute; reflexivity).
  pose proof (forall_ascii _ F a) as Fa. cbv beta in Fa.
  pose proof (forall_ascii _ Fa b) as E. cbv beta in E.
  rewrite H, Ascii.eqb_refl in E. exact E.
Qed.

Lemma fold_text_matches (pat : string) (l : list ascii) :
  map ascii_fold l = map ascii_fold (list_ascii_of_string pat) ->
  text_matches true pat l = true.
Proof.
  revert l; induction pat as [|b pat IH]; intros [|a l] H; simpl in *;
    try discriminate; [reflexivity|].
  injection H as Ha Hl. rewrite (fold_lit_matches a b Ha). now apply IH.
Qed.

Lemma fold_space (a : ascii) :
  ascii_fold a = " "%char -> Re.is_space a = true.
Proof.
  intros H.
  assert (F : forallb (fun x => implb (Ascii.eqb (ascii_fold x) " ")
                                      (Re.is_space x)) all_ascii = true)
    by (vm_compute; reflexivity).
  pose proof (forall_ascii _ F a) as Fa. cbv beta in Fa.
  rewrite H in Fa. exact Fa.
Qed.

(** The rule for [DROP TABLE] fires on every content that contains the
    phrase in some letter case. *)
Lemma drop_table_found (content : string) :
  contains_ignoring_case content "DROP TABLE" ->
  rule_matches content drop_table_rule = true.
Proof.
  intros (pre & mid & post & -> & Hmid).
  unfold rule_matches, Re.search. rewrite !list_ascii_of_string_app.
  apply search_from_app.
  unfold same_ignoring_case in Hmid.
  change (map ascii_fold (list_ascii_of_string "DROP TABLE"))
    with (list_ascii_of_string "drop table") in Hmid.
  destruct (list_ascii_of_string mid)
    as [|c1 [|c2 [|c3 [|c4 [|c5 [|c6 [|c7 [|c8 [|c9 [|c10 [|c11 l]]]]]]]]]]];
    try discriminate Hmid.
  injection Hmid as H1 H2 H3 H4 H5 H6 H7 H8 H9 H10.
  set (post' := list_ascii_of_string post).
  set (pv := char_before None (list_ascii_of_string pre)).
  apply matches_at_intro
    with (c' := Re.Cursor (char_before pv [c1; c2; c3; c4; c5; c6; c7; c8; c9; c10])
                          post').
  change (In (Re.Cursor (char_before pv [c1; c2; c3; c4; c5; c6; c7; c8; c9; c10]) post')
             (Re.ends true
                (Re.Seq (Re.text "drop")
                   (Re.Seq (Re.plus Re.space) (Re.Seq (Re.text "table") Re.Eps)))
                (Re.Cursor pv ([c1; c2; c3; c4] ++ c5 :: c6 :: c7 :: c8 :: c9 :: c10 :: post')))).
  eapply ends_seq.
  { apply ends_text. apply (fold_text_matches "drop").
    change (map ascii_fold (list_ascii_of_string "drop"))
      with (list_ascii_of_string "drop").
    simpl. congruence. }
  eapply ends_seq.
  { apply ends_rep.
    apply (rep_exact_run true Re.space (Re.set_matches true false [Re.CSpace])
                         [c5] (c6 :: c7 :: c8 :: c9 :: c10 :: post')).
    - reflexivity.
    - simpl. unfold Re.set_matches, Re.item_matches; simpl.
      now rewrite (fold_space c5 H5). }
  eapply ends_seq.
  { apply (ends_text true "table" [c6; c7; c8; c9; c10] post').
    apply (fold_text_matches "table").
    change (map ascii_fold (list_ascii_of_string "table"))
      with (list_ascii_of_string "table").
    simpl. congruence. }
  now left.
Qed.

Lemma drop_table_rule_listed : In drop_table_rule all_rules.
Proof. vm_compute. right; now left. Qed.

Section AnalysisClaims.

Variable py_round : Q -> nat -> Q.
Variable value : Type.
Variable py_str : value -> string.

Abbreviation analyze := (SDK.analyze_request_security py_round value py_str).

(** The facts about one analysis from which the claims follow. *)
Lemma analysis_facts (self : SDK.monitor) (operation : string)
      (request_data : gmap string value) (clk : SDK.clock) :
  let content := content_of py_str request_data in
  let r := snd (analyze self operation request_data clk) in
  SDK.threats_detected r =
    map rule_info (List.filter (rule_matches content) all_rules) /\
  is_max_severity (SDK.severity r)
                  (map SDK.threat_severity (SDK.threats_detected r)) /\
  SDK.threat_count r = length (SDK.threats_detected r) /\
  SDK.safe r = (SDK.threat_count r =? 0)%nat.
Proof.
  intros content r. subst r. rewrite analysis_result. fold content.
  cbn [SDK.threats_detected SDK.severity SDK.threat_count SDK.safe].
  unfold scan. cbn [fst snd]. rewrite app_nil_l.
  repeat split.
  - rewrite map_map.
    apply (scan_severity (List.filter (rule_matches content) all_rules) [] "low").
    + left; reflexivity.
    + split; [intros s [] | right; split; reflexivity].
  - rewrite map_map.
    apply (scan_severity (List.filter (rule_matches content) all_rules) [] "low").
    + left; reflexivity.
    + split; [intros s [] | right; split; reflexivity].
Qed.

(** C4: the threats reported are the rules that match the content, each
    with the severity of its category; the overall severity is the
    greatest of their severities under low < medium < high < critical,
    and ["low"] when no rule matches; [safe] is true exactly when
    [threat_count] is 0. *)
Theorem severity_is_maximum_of_matches (self : SDK.monitor) (operation : string)
        (request_data : gmap string value) (clk : SDK.clock) :
  let content := content_of py_str request_data in
  let r := snd (analyze self operation request_data clk) in
  SDK.threats_detected r =
    map rule_info (List.filter (rule_matches content) all_rules) /\
  is_max_severity (SDK.severity r)
                  (map SDK.threat_severity (SDK.threats_detected r)) /\
  SDK.threat_count r = length (SDK.threats_detected r) /\
  (SDK.safe r = true <-> SDK.threat_count r = 0).
Proof.
  intros content r.
  destruct (analysis_facts self operation request_data clk)
    as (H1 & H2 & H3 & H4).
  fold content r in H1, H2, H3, H4. clearbody r content.
  split; [exact H1|]. split; [exact H2|]. split; [exact H3|].
  rewrite H4. apply Nat.eqb_eq.
Qed.

(** C5: when the analysed content contains DROP TABLE in any letter
    case, the result is not safe, a threat of category [sql_injection] is
    among those detected, and the overall severity is ["critical"]. *)
Theorem drop_table_is_critical (self : SDK.monitor) (operation : string)
        (request_data : gmap string value) (clk : SDK.clock) :
  contains_ignoring_case (content_of py_str request_data) "DROP TABLE" ->
  let r := snd (analyze self operation request_data clk) in
  SDK.safe r = false /\
  (exists t, In t (SDK.threats_detected r) /\
             SDK.threat_type t = "sql_injection") /\
  SDK.severity r = "critical".
Proof.
  intros H r.
  destruct (analysis_facts self operation request_data clk)
    as (H1 & [Hub _] & H3 & H4).
  fold r in H1, Hub, H3, H4. clearbody r.
  assert (Hin : In (rule_info drop_table_rule) (SDK.threats_detected r)).
  { rewrite H1. apply in_map, filter_In.
    split; [apply drop_table_rule_listed | now apply drop_table_found]. }
  split; [|split].
  - rewrite H4, H3. destruct (SDK.threats_detected r); [destruct Hin | reflexivity].
  - exists (rule_info drop_table_rule). split; [assumption | reflexivity].
  - apply rank_critical.
    apply (Hub (SDK.threat_severity (rule_info drop_table_rule))).
    now apply in_map.
Qed.

(** C10: the verdict of an analysis (threats, count, severity, safe) is
    a function of the string made from the ['content'] entry alone, the
    empty string when there is none: two requests that agree on it get
    the same verdict, whatever the monitor, the operation and the clock,
    and adding or changing any other entry changes nothing. *)
Theorem analysis_depends_only_on_content :
  (forall self1 self2 operation1 operation2 clk1 clk2
          (request_data1 request_data2 : gmap string value),
      content_of py_str request_data1 = content_of py_str request_data2 ->
      verdict (snd (analyze self1 operation1 request_data1 clk1)) =
      verdict (snd (analyze self2 operation2 request_data2 clk2))) /\
  (forall self operation clk (request_data : gmap string value) key v,
      key <> "content" ->
      verdict (snd (analyze self operation (<[key := v]> request_data) clk)) =
      verdict (snd (analyze self operation request_data clk))).
Proof.
  assert (H : forall self1 self2 operation1 operation2 clk1 clk2
                     (request_data1 request_data2 : gmap string value),
             content_of py_str request_data1 = content_of py_str request_data2 ->
             verdict (snd (analyze self1 operation1 request_data1 clk1)) =
             verdict (snd (analyze self2 operation2 request_data2 clk2))).
  { intros self1 self2 op1 op2 clk1 clk2 rd1 rd2 E.
    rewrite !analysis_result. unfold verdict.
    cbn [SDK.threats_detected SDK.severity SDK.threat_count SDK.safe].
    now rewrite E. }
  split; [exact H|].
  intros self operation clk rd key v Hkey. apply H.
  unfold content_of. now rewrite lookup_insert_ne.
Qed.

End AnalysisClaims.

(** ** Privacy checks *)

Lemma capped_effect {A} (old : list A) (e : A) :
  appended old e (skipn (length old + 1 - 1000) (old ++ [e])).
Proof.
  destruct (skipn_suffix (length old + 1 - 1000) (old ++ [e])) as [H1 H2].
  rewrite length_app in H2; cbn [length] in H2.
  split; [eexists; exact H1|]. split; [lia|].
  intros H. replace (length old + 1 - 1000) with 0 by lia. reflexivity.
Qed.

Lemma digit_matches (a : ascii) :
  ascii_digit a = true ->
  Re.set_matches false false [Re.CDigit] a = true /\ Re.is_word a = true.
Proof.
  intros H.
  assert (F : forallb (fun x => implb (ascii_digit x)
                 (Re.set_matches false false [Re.CDigit] x && Re.is_word x))
                all_ascii = true) by (vm_compute; reflexivity).
  pose proof (forall_ascii _ F a) as Fa. cbv beta in Fa.
  rewrite H in Fa. now apply andb_prop in Fa.
Qed.

Lemma ends_boundary (ic : bool) (c : Re.cursor) :
  Re.at_word_boundary c = true -> In c (Re.ends ic Re.WordB c).
Proof. intros H. simpl. rewrite H. now left. Qed.

Lemma ends_digits (run t : list ascii) (pv : option ascii) :
  forallb ascii_digit run = true ->
  In (Re.Cursor (char_before pv run) t)
     (Re.ends false (Re.times (length run) Re.digit) (Re.Cursor pv (run ++ t))).
Proof.
  intros H. apply ends_rep.
  apply (rep_exact_run false Re.digit (Re.set_matches false false [Re.CDigit])).
  - reflexivity.
  - apply forallb_forall. intros a Ha.
    rewrite forallb_forall in H. now apply digit_matches, H.
Qed.

Lemma ends_hyphen (t : list ascii) (pv : option ascii) (h : ascii) :
  is_hyphen h = true ->
  In (Re.Cursor (Some h) t) (Re.ends false (Re.Lit "-") (Re.Cursor pv (h :: t))).
Proof.
  intros H. simpl. apply ends_one. unfold Re.lit_matches.
  unfold is_hyphen in H. now rewrite H.
Qed.

(** The SSN pattern matches a number that stands between word boundaries. *)
Lemma ssn_found (pre ssn post : string) :
  ssn_shaped ssn = true ->
  Re.opt_word (last_char pre) = false ->
  Re.opt_word (first_char post) = false ->
  Re.search SDK.ssn_pattern (pre +:+ ssn +:+ post) = true.
Proof.
  intros Hs Hpre Hpost. unfold ssn_shaped in Hs.
  unfold Re.search. rewrite !list_ascii_of_string_app.
  apply search_from_app. fold (last_char pre).
  rewrite first_char_head in Hpost.
  set (post' := list_ascii_of_string post) in *. clearbody post'.
  destruct (list_ascii_of_string ssn)
    as [|d1 [|d2 [|d3 [|h1 [|d4 [|d5 [|h2 [|d6 [|d7 [|d8 [|d9 [|x l]]]]]]]]]]]];
    try discriminate Hs.
  apply andb_prop in Hs as [Hs D3]. apply andb_prop in Hs as [Hs G2].
  apply andb_prop in Hs as [Hs D2]. apply andb_prop in Hs as [D1 G1].
  assert (W1 : Re.is_word d1 = true).
  { apply digit_matches. simpl in D1. now apply andb_prop in D1. }
  assert (W9 : Re.is_word d9 = true).
  { apply digit_matches. simpl in D3.
    apply andb_prop in D3 as [_ D3]. apply andb_prop in D3 as [_ D3].
    apply andb_prop in D3 as [_ D3]. now apply andb_prop in D3. }
  apply matches_at_intro with (c' := Re.Cursor (Some d9) post').
  change (In (Re.Cursor (Some d9) post')
             (Re.ends false
                (Re.Seq Re.WordB
                   (Re.Seq (Re.times (length [d1; d2; d3]) Re.digit)
                      (Re.Seq (Re.Lit "-")
                         (Re.Seq (Re.times (length [d4; d5]) Re.digit)
                            (Re.Seq (Re.Lit "-")
                               (Re.Seq (Re.times (length [d6; d7; d8; d9]) Re.digit)
                                  (Re.Seq Re.WordB Re.Eps)))))))
                (Re.Cursor (last_char pre)
                   ([d1; d2; d3] ++ h1 :: [d4; d5] ++ h2 :: [d6; d7; d8; d9] ++ post')))).
  eapply ends_seq.
  { apply ends_boundary. unfold Re.at_word_boundary. simpl.
    now rewrite Hpre, W1. }
  eapply ends_seq; [now apply ends_digits|].
  eapply ends_seq; [now apply ends_hyphen|].
  eapply ends_seq; [now apply ends_digits|].
  eapply ends_seq; [now apply ends_hyphen|].
  eapply ends_seq; [now apply ends_digits|].
  eapply ends_seq; [|now left].
  apply ends_boundary. unfold Re.at_word_boundary. simpl.
  now rewrite W9, Hpost.
Qed.

Lemma ssn_pattern_listed : In ("ssn", SDK.ssn_pattern) SDK.pii_patterns.
Proof. right; right; now left. Qed.

Section PrivacyClaims.

Variable py_round : Q -> nat -> Q.

Abbreviation check := (SDK.check_data_privacy py_round).

(** The monitor and the report after a check, in terms of the entries
    found. *)
Lemma privacy_facts (self : SDK.monitor) (text : string) (clk : SDK.clock) :
  let found := flat_map (report_entry sdk_pii_info text) SDK.pii_patterns in
  let r := snd (check self text clk) in
  let self' := fst (check self text clk) in
  SDK.pii_detected r = found /\
  SDK.pii_types_count r = length found /\
  SDK.privacy_safe r = (length found =? 0)%nat /\
  (SDK.compliance_status r, SDK.privacy_severity r) =
    (if existsb (fun pii => String.eqb (SDK.pii_severity pii) "high"
                            || String.eqb (SDK.pii_severity pii) "critical")
                found
     then ("non_compliant", "high")
     else match found with
          | _ :: _ => ("warning", "medium")
          | [] => ("compliant", "low")
          end) /\
  self' = SDK.log_compliance_event self "pii_detection"
            (SDK.compliance_status r)
            (SDK.log_details
               (privacy_event 0 r text (SDK.t_event clk)))
            (Some (SDK.log_metadata
                     (privacy_event 0 r text (SDK.t_event clk))))
            (SDK.t_event clk).
Proof.
  intros found r self'. subst r self'. unfold SDK.check_data_privacy.
  rewrite sdk_scan_fold, app_nil_l. fold found. clearbody found.
  destruct (existsb _ found); [repeat split|].
  destruct found; repeat split.
Qed.

(** C6 (amended): when the text contains a number of the shape
    ddd-dd-dddd that is not directly preceded or followed by a word
    character (a letter, a digit or an underscore), the report is not
    privacy-safe and has an entry of type ["ssn"] with severity
    ["critical"]. *)
Theorem ssn_detected_between_word_boundaries (self : SDK.monitor)
        (clk : SDK.clock) (pre ssn post : string) :
  ssn_shaped ssn = true ->
  Re.opt_word (last_char pre) = false ->
  Re.opt_word (first_char post) = false ->
  let r := snd (check self (pre +:+ ssn +:+ post) clk) in
  SDK.privacy_safe r = false /\
  exists info, In info (SDK.pii_detected r) /\
               SDK.pii_type info = "ssn" /\
               SDK.pii_severity info = "critical".
Proof.
  intros Hs Hpre Hpost r.
  destruct (privacy_facts self (pre +:+ ssn +:+ post) clk)
    as (H1 & _ & H3 & _).
  fold r in H1, H3. clearbody r.
  pose proof (ssn_found pre ssn post Hs Hpre Hpost) as Hfound.
  apply search_findall in Hfound.
  assert (Hin : In (sdk_pii_info "ssn"
                      (Re.findall SDK.ssn_pattern (pre +:+ ssn +:+ post)))
                   (SDK.pii_detected r)).
  { rewrite H1. apply in_report_entry.
    exists "ssn", SDK.ssn_pattern.
    split; [apply ssn_pattern_listed | split; [assumption | reflexivity]]. }
  split.
  - rewrite H3, <- H1. destruct (SDK.pii_detected r); [destruct Hin | reflexivity].
  - eexists. split; [exact Hin|]. split; reflexivity.
Qed.

(** C7: the compliance status of a report is [non_compliant] when some
    detected entry has severity high or critical, otherwise [warning]
    when some entry was detected, otherwise [compliant]; the overall
    severity is high, medium and low respectively. *)
Theorem compliance_status_derivation (self : SDK.monitor) (text : string)
        (clk : SDK.clock) :
  let r := snd (check self text clk) in
  ((exists info, In info (SDK.pii_detected r) /\ grave info) ->
   SDK.compliance_status r = "non_compliant") /\
  (~ (exists info, In info (SDK.pii_detected r) /\ grave info) ->
   SDK.pii_detected r <> [] ->
   SDK.compliance_status r = "warning") /\
  (SDK.pii_detected r = [] -> SDK.compliance_status r = "compliant") /\
  (SDK.compliance_status r = "non_compliant" /\ SDK.privacy_severity r = "high" \/
   SDK.compliance_status r = "warning" /\ SDK.privacy_severity r = "medium" \/
   SDK.compliance_status r = "compliant" /\ SDK.privacy_severity r = "low").
Proof.
  intros r.
  destruct (privacy_facts self text clk) as (H1 & _ & _ & H4 & _).
  fold r in H1, H4. clearbody r. rewrite H1.
  set (found := flat_map (report_entry sdk_pii_info text) SDK.pii_patterns) in *.
  clearbody found.
  assert (G : existsb (fun pii => String.eqb (SDK.pii_severity pii) "high"
                                  || String.eqb (SDK.pii_severity pii) "critical")
                      found = true <->
              exists info, In info found /\ grave info).
  { rewrite existsb_exists. unfold grave.
    split; intros (info & Hin & Hg); exists info; (split; [assumption|]).
    - apply orb_prop in Hg as [Hg | Hg]; apply String.eqb_eq in Hg; tauto.
    - apply orb_true_iff. rewrite !String.eqb_eq. exact Hg. }
  destruct (existsb _ found) eqn:E.
  - injection H4 as -> ->.
    split; [reflexivity|]. split; [|split].
    + intros Hn. exfalso. apply Hn, G. reflexivity.
    + intros ->. destruct (proj1 G eq_refl) as (? & [] & _).
    + left. split; reflexivity.
  - assert (Hno : ~ exists info, In info found /\ grave info)
      by (intros Hx; apply G in Hx; discriminate).
    destruct found as [|x found]; injection H4 as -> ->.
    + split; [intros Hx; contradiction|]. split; [|split].
      * intros _ Hx. contradiction.
      * reflexivity.
      * right; right. split; reflexivity.
    + split; [intros Hx; contradiction|]. split; [|split].
      * reflexivity.
      * discriminate.
      * right; left. split; reflexivity.
Qed.

End PrivacyClaims.

(** ** Effects on the logs *)

Section LogEffects.

Variable py_round : Q -> nat -> Q.
Variable value : Type.
Variable py_str : value -> string.

Abbreviation check := (SDK.check_data_privacy py_round).
Abbreviation analyze := (SDK.analyze_request_security py_round value py_str).

(** The monitor after an analysis. *)
Lemma analysis_monitor (self : SDK.monitor) (operation : string)
      (request_data : gmap string value) (clk : SDK.clock) :
  let r := snd (analyze self operation request_data clk) in
  let e := threat_event 0 r operation (content_of py_str request_data)
                        (SDK.t_event clk) in
  fst (analyze self operation request_data clk) =
    if (SDK.threat_count r =? 0)%nat then self
    else SDK.log_security_event self "threat_detection"
           (SDK.event_description e) (SDK.severity r)
           (Some (SDK.event_metadata e)) (SDK.t_event clk).
Proof.
  unfold SDK.analyze_request_security.
  fold (content_of py_str request_data).
  destruct (fold_left _ SDK.threat_patterns _) as [ts sev].
  destruct ts; reflexivity.
Qed.

(** C9: a privacy check leaves the security log as it was and appends
    one compliance event of type [pii_detection], which records the
    status, the detected types, the total count and the length of the
    text, whatever the outcome.  An analysis leaves the compliance log as
    it was; when it detects no threat it leaves the whole monitor as it
    was; when it detects some it appends one security event of type
    [threat_detection], with the overall severity and with the detected
    threats in its metadata.  Appending is under the cap of 1000. *)
Theorem log_effects_per_call :
  (forall self text clk,
      let self' := fst (check self text clk) in
      let r := snd (check self text clk) in
      SDK.security_events self' = SDK.security_events self /\
      appended (SDK.compliance_logs self)
               (privacy_event (length (SDK.compliance_logs self) + 1) r text
                              (SDK.t_event clk))
               (SDK.compliance_logs self')) /\
  (forall self operation request_data clk,
      let self' := fst (analyze self operation request_data clk) in
      let r := snd (analyze self operation request_data clk) in
      SDK.compliance_logs self' = SDK.compliance_logs self /\
      (SDK.threat_count r = 0 -> self' = self) /\
      (0 < SDK.threat_count r ->
       appended (SDK.security_events self)
                (threat_event (length (SDK.security_events self) + 1) r
                              operation (content_of py_str request_data)
                              (SDK.t_event clk))
                (SDK.security_events self'))).
Proof.
  split.
  - intros self text clk self' r.
    destruct (privacy_facts py_round self text clk) as (_ & _ & _ & _ & H).
    fold self' r in H. clearbody self' r. subst self'.
    split; [reflexivity|].
    rewrite compliance_logs_logged. apply capped_effect.
  - intros self operation request_data clk self' r.
    pose proof (analysis_monitor self operation request_data clk) as H.
    fold self' r in H. cbv zeta in H. clearbody self' r. subst self'.
    destruct (SDK.threat_count r) as [|n] eqn:E; cbn [Nat.eqb].
    + split; [reflexivity|]. split; [reflexivity | lia].
    + split; [reflexivity|]. split; [discriminate|]. intros _.
      rewrite security_events_logged. apply capped_effect.
Qed.

End LogEffects.

(** ** Scores *)

Lemma Qgt_bool_iff (x y : Q) : Qgt_bool x y = true <-> (y < x)%Q.
Proof.
  unfold Qgt_bool. rewrite negb_true_iff, <- not_true_iff_false, Qle_bool_iff.
  split; [apply Qnot_le_lt | apply Qlt_not_le].
Qed.

Lemma deduction_penalty (severity : string) :
  SDK.deduction severity = penalty severity.
Proof.
  unfold SDK.deduction, penalty; simpl.
  repeat (destruct (String.eqb severity _); [reflexivity|]). reflexivity.
Qed.

Lemma penalty_nonneg (severity : string) : (0 <= penalty severity)%Z.
Proof.
  unfold penalty; simpl.
  repeat (destruct (String.eqb severity _); [lia|]). lia.
Qed.

Lemma total_penalty_nonneg (now : Q) (events : list SDK.security_event) :
  (0 <= total_penalty now events)%Z.
Proof.
  induction events as [|e es IH]; simpl; [lia|].
  pose proof (penalty_nonneg (SDK.event_severity e)).
  destruct (Qlt_le_dec _ _); lia.
Qed.

Lemma deductions_total (now : Q) (events : list SDK.security_event) (acc : Z) :
  fold_left (fun d event => d + SDK.deduction (SDK.event_severity event))%Z
            (List.filter
               (fun event => Qgt_bool (SDK.event_timestamp event) (now - 86400)%Q)
               events) acc =
    (acc + total_penalty now events)%Z.
Proof.
  revert acc; induction events as [|e es IH]; intros acc; simpl; [lia|].
  destruct (Qgt_bool (SDK.event_timestamp e) (now - 86400)%Q) eqn:E;
    destruct (Qlt_le_dec (now - 86400) (SDK.event_timestamp e)) as [L|L].
  - simpl. rewrite IH, deduction_penalty. lia.
  - apply Qgt_bool_iff in E. exfalso. now apply (Qlt_not_le _ _ E).
  - apply Qgt_bool_iff in L. congruence.
  - rewrite IH. lia.
Qed.

Lemma security_score_formula (self : SDK.monitor) (now : Q) :
  SDK._calculate_security_score self now =
    clamp 0 100 (100 - total_penalty now (SDK.security_events self)).
Proof.
  unfold SDK._calculate_security_score, clamp.
  pose proof (total_penalty_nonneg now (SDK.security_events self)) as Hp.
  destruct (SDK.security_events self) as [|e es] eqn:E.
  - reflexivity.
  - rewrite deductions_total. lia.
Qed.

Lemma no_recent_penalty (now : Q) (events : list SDK.security_event) :
  (forall e, In e events -> ~ within_last_24h now (SDK.event_timestamp e)) ->
  total_penalty now events = 0%Z.
Proof.
  induction events as [|e es IH]; intros H; simpl; [reflexivity|].
  rewrite IH by (intros x Hx; apply H; now right).
  destruct (Qlt_le_dec _ _) as [L|L]; [|reflexivity].
  exfalso. apply (H e); [now left | exact L].
Qed.

Lemma no_recent_logs (now : Q) (logs : list SDK.compliance_event) :
  (forall e, In e logs -> ~ within_last_24h now (SDK.log_timestamp e)) ->
  List.filter (fun log => Qgt_bool (SDK.log_timestamp log) (now - 86400)%Q) logs = [].
Proof.
  induction logs as [|e es IH]; intros H; simpl; [reflexivity|].
  destruct (Qgt_bool _ _) eqn:E.
  - apply Qgt_bool_iff in E. exfalso. apply (H e); [now left | exact E].
  - apply IH. intros x Hx. apply H. now right.
Qed.

Section ScoreClaims.

Variable py_round : Q -> nat -> Q.

(** C8: when no security event has a time stamp within the last 24
    hours the security score is 100, and when no compliance event has one
    the compliance score is 100, however many older events the logs
    hold; the security score is always 100 minus the deductions
    (critical 20, high 10, medium 5, low 1) for the events of the last 24
    hours, clamped to the range 0..100. *)
Theorem scores_over_last_24_hours (self : SDK.monitor) (now : Q) :
  ((forall e, In e (SDK.security_events self) ->
              ~ within_last_24h now (SDK.event_timestamp e)) ->
   SDK._calculate_security_score self now = 100%Z) /\
  ((forall e, In e (SDK.compliance_logs self) ->
              ~ within_last_24h now (SDK.log_timestamp e)) ->
   SDK._calculate_compliance_score py_round self now = 100%Q) /\
  SDK._calculate_security_score self now =
    clamp 0 100 (100 - total_penalty now (SDK.security_events self)).
Proof.
  split; [|split].
  - intros H. rewrite security_score_formula, no_recent_penalty by assumption.
    reflexivity.
  - intros H. unfold SDK._calculate_compliance_score.
    destruct (SDK.compliance_logs self) as [|e es] eqn:E; [reflexivity|].
    rewrite no_recent_logs by assumption. reflexivity.
  - apply security_score_formula.
Qed.

End ScoreClaims.

(** ** Closed instances *)

Lemma severity_is_maximum_of_matches_witness :
  let r := snd (SDK.analyze_request_security no_round string id SDK.init
                  "test" attack_request clock0) in
  is_max_severity (SDK.severity r)
                  (map SDK.threat_severity (SDK.threats_detected r)) /\
  (SDK.safe r = true <-> SDK.threat_count r = 0).
Proof.
  pose proof (severity_is_maximum_of_matches no_round string id SDK.init
                "test" attack_request clock0) as (_ & H2 & _ & H4).
  split; [exact H2 | exact H4].
Defined.

Lemma drop_table_is_critical_witness :
  contains_ignoring_case (content_of id attack_request) "DROP TABLE" /\
  let r := snd (SDK.analyze_request_security no_round string id SDK.init
                  "test" attack_request clock0) in
  SDK.safe r = false /\
  (exists t, In t (SDK.threats_detected r) /\
             SDK.threat_type t = "sql_injection") /\
  SDK.severity r = "critical".
Proof.
  assert (H : contains_ignoring_case (content_of id attack_request) "DROP TABLE").
  { exists "SELECT * FROM users; ", "dRoP tAbLe", " users; <script>x</script>".
    split; vm_compute; reflexivity. }
  split; [exact H|].
  exact (drop_table_is_critical no_round string id SDK.init "test"
           attack_request clock0 H).
Defined.

Lemma analysis_depends_only_on_content_witness :
  content_of id (request_with "hello") = content_of id noted_request /\
  verdict (snd (SDK.analyze_request_security no_round string id SDK.init
                  "a" (request_with "hello") clock0)) =
  verdict (snd (SDK.analyze_request_security no_round string id SDK.init
                  "b" noted_request clock0)).
Proof.
  assert (H : content_of id (request_with "hello") = content_of id noted_request)
    by (vm_compute; reflexivity).
  split; [exact H|].
  exact (proj1 (analysis_depends_only_on_content no_round string id)
               SDK.init SDK.init "a" "b" clock0 clock0
               (request_with "hello") noted_request H).
Defined.

(** C6, as stated, fails: a number of the right shape that follows a
    letter without a gap is found by no pattern, and the report is
    privacy-safe and empty. *)
Lemma ssn_inside_word_not_detected :
  let r := snd (SDK.check_data_privacy no_round SDK.init "SSN123-45-6789"
                                       clock0) in
  contains_ssn "SSN123-45-6789" /\
  SDK.privacy_safe r = true /\
  SDK.pii_detected r = [].
Proof.
  split; [|split; vm_compute; reflexivity].
  exists "SSN", "123-45-6789", "". split; reflexivity.
Qed.

Lemma ssn_detected_between_word_boundaries_witness :
  ssn_shaped "123-45-6789" = true /\
  Re.opt_word (last_char "My SSN is ") = false /\
  Re.opt_word (first_char " and email is a@b.com") = false /\
  let r := snd (SDK.check_data_privacy no_round SDK.init ssn_text clock0) in
  SDK.privacy_safe r = false /\
  exists info, In info (SDK.pii_detected r) /\
               SDK.pii_type info = "ssn" /\
               SDK.pii_severity info = "critical".
Proof.
  assert (H1 : ssn_shaped "123-45-6789" = true) by reflexivity.
  assert (H2 : Re.opt_word (last_char "My SSN is ") = false) by reflexivity.
  assert (H3 : Re.opt_word (first_char " and email is a@b.com") = false)
    by reflexivity.
  split; [exact H1|]. split; [exact H2|]. split; [exact H3|].
  exact (ssn_detected_between_word_boundaries no_round SDK.init clock0
           "My SSN is " "123-45-6789" " and email is a@b.com" H1 H2 H3).
Defined.

Lemma compliance_status_derivation_witness :
  let r := snd (SDK.check_data_privacy no_round SDK.init ssn_text clock0) in
  (exists info, In info (SDK.pii_detected r) /\ grave info) /\
  SDK.compliance_status r = "non_compliant".
Proof.
  intros r.
  assert (H : exists info, In info (SDK.pii_detected r) /\ grave info).
  { exists (SDK.PiiInfo "ssn" 1 ["123-45-6789"] "critical").
    split; [vm_compute; right; now left | right; reflexivity]. }
  split; [exact H|].
  exact (proj1 (compliance_status_derivation no_round SDK.init ssn_text clock0) H).
Defined.

Lemma scores_over_last_24_hours_witness :
  (forall e, In e (SDK.security_events old_monitor) ->
             ~ within_last_24h 200000 (SDK.event_timestamp e)) /\
  (forall e, In e (SDK.compliance_logs old_monitor) ->
             ~ within_last_24h 200000 (SDK.log_timestamp e)) /\
  SDK._calculate_security_score old_monitor 200000 = 100%Z /\
  SDK._calculate_compliance_score no_round old_monitor 200000 = 100%Q.
Proof.
  assert (H1 : forall e, In e (SDK.security_events old_monitor) ->
                         ~ within_last_24h 200000 (SDK.event_timestamp e)).
  { intros e [<- | []] H. vm_compute in H. discriminate. }
  assert (H2 : forall e, In e (SDK.compliance_logs old_monitor) ->
                         ~ within_last_24h 200000 (SDK.log_timestamp e)).
  { intros e [<- | []] H. vm_compute in H. discriminate. }
  split; [exact H1|]. split; [exact H2|].
  pose proof (scores_over_last_24_hours no_round old_monitor 200000)
    as (Hs & Hc & _).
  split; [exact (Hs H1) | exact (Hc H2)].
Defined.

Lemma log_effects_per_call_witness :
  let checked := SDK.check_data_privacy no_round SDK.init ssn_text clock0 in
  let analysed := SDK.analyze_request_security no_round string id SDK.init
                    "test" attack_request clock0 in
  0 < SDK.threat_count (snd analysed) /\
  appended [] (privacy_event 1 (snd checked) ssn_text 0)
           (SDK.compliance_logs (fst checked)) /\
  appended [] (threat_event 1 (snd analysed) "test"
                            (content_of id attack_request) 0)
           (SDK.security_events (fst analysed)).
Proof.
  intros checked analysed.
  assert (H : 0 < SDK.threat_count (snd analysed)) by (vm_compute; lia).
  split; [exact H|].
  pose proof (log_effects_per_call no_round string id) as [Hc Ha].
  split.
  - exact (proj2 (Hc SDK.init ssn_text clock0)).
  - exact (proj2 (proj2 (Ha SDK.init "test" attack_request clock0)) H).
Defined.

(** ** The repository's tests, run on the model *)

Example test_sql_injection_detection :
  SDK.safe (analyse_text "What is the weather today?") = true /\
  SDK.threat_count (analyse_text "What is the weather today?") = 0 /\
  SDK.safe (analyse_text "SELECT * FROM users; DROP TABLE users;") = false /\
  has_threat "sql_injection"
             (analyse_text "SELECT * FROM users; DROP TABLE users;") = true.
Proof. vm_compute. repeat split. Qed.

Example test_xss_detection :
  let xss_input := "<script>alert(" +:+ dq +:+ "xss" +:+ dq +:+ ")</script>" in
  SDK.safe (analyse_text xss_input) = false /\
  has_threat "xss" (analyse_text xss_input) = true.
Proof. vm_compute. split; reflexivity. Qed.

Example test_pii_detection :
  SDK.privacy_safe (check_text "Hello, how are you today?") = true /\
  SDK.pii_types_count (check_text "Hello, how are you today?") = 0 /\
  SDK.privacy_safe (check_text "Contact me at john.doe@example.com") = false /\
  has_pii_type "email" (check_text "Contact me at john.doe@example.com") = true /\
  SDK.privacy_safe (check_text "Call me at 555-123-4567") = false /\
  has_pii_type "phone" (check_text "Call me at 555-123-4567") = true.
Proof. vm_compute. repeat split. Qed.

Example test_security_event_logging :
  let security :=
    SDK.log_security_event SDK.init "test_event" "Test security event"
                           "medium" None 0 in
  map SDK.event_type (SDK.security_events security) = ["test_event"] /\
  map SDK.event_severity (SDK.security_events security) = ["medium"] /\
  map SDK.event_id (SDK.security_events security) = [1].
Proof. vm_compute. repeat split. Qed.

(** The end-to-end scenario of the specification. *)
Example ssn_and_email_scenario :
  let checked := SDK.check_data_privacy no_round SDK.init ssn_text clock0 in
  SDK.pii_types_count (snd checked) = 2 /\
  SDK.compliance_status (snd checked) = "non_compliant" /\
  map SDK.log_status (SDK.compliance_logs (fst checked)) = ["non_compliant"].
Proof. vm_compute. repeat split. Qed.


(** * Further properties of the code *)

(** ** [SDK]: analysis without content *)

Lemma no_rule_matches_empty :
  scan "" all_rules ([], "low") = ([], "low").
Proof. vm_compute. reflexivity. Qed.

Lemma rules_high_or_critical (rule : string * Re.pattern) :
  In rule all_rules ->
  SDK.threat_severity (rule_info rule) = "high" \/
  SDK.threat_severity (rule_info rule) = "critical".
Proof.
  intros H.
  assert (F : forallb (fun rule =>
                 String.eqb (SDK.threat_severity (rule_info rule)) "high"
                 || String.eqb (SDK.threat_severity (rule_info rule)) "critical")
                all_rules = true) by (vm_compute; reflexivity).
  rewrite forallb_forall in F. specialize (F rule H).
  apply orb_prop in F as [F | F]; apply String.eqb_eq in F; tauto.
Qed.

Section AnalysisExtras.

Variable py_round : Q -> nat -> Q.
Variable value : Type.
Variable py_str : value -> string.

Abbreviation analyze := (SDK.analyze_request_security py_round value py_str).

(** X1: a request without a ['content'] entry, or whose content is the
    empty string, is found safe with no threat and severity ["low"], and
    the monitor is returned as it was: nothing is logged or counted. *)
Theorem analysis_without_content (self : SDK.monitor) (operation : string)
        (request_data : gmap string value) (clk : SDK.clock) :
  request_data !! "content" = None \/
  (exists v, request_data !! "content" = Some v /\ py_str v = "") ->
  fst (analyze self operation request_data clk) = self /\
  verdict (snd (analyze self operation request_data clk)) =
    ([], 0, "low", true).
Proof.
  intros H.
  assert (E : content_of py_str request_data = "").
  { unfold content_of. destruct H as [-> | (v & -> & Hv)]; [reflexivity | exact Hv]. }
  pose proof (analysis_result py_round value py_str self operation
                              request_data clk) as R.
  cbv zeta in R. rewrite E, no_rule_matches_empty in R.
  split.
  - rewrite (analysis_monitor py_round value py_str). cbv zeta. rewrite R.
    reflexivity.
  - rewrite R. reflexivity.
Qed.

(** X3: every detected threat has severity ["high"] or ["critical"], so
    the overall severity is ["low"], ["high"] or ["critical"], never
    ["medium"], and it is ["low"] exactly when the result is safe. *)
Theorem severity_low_iff_safe (self : SDK.monitor) (operation : string)
        (request_data : gmap string value) (clk : SDK.clock) :
  let r := snd (analyze self operation request_data clk) in
  Forall (fun t => SDK.threat_severity t = "high" \/
                   SDK.threat_severity t = "critical")
         (SDK.threats_detected r) /\
  (SDK.severity r = "low" \/ SDK.severity r = "high" \/
   SDK.severity r = "critical") /\
  (SDK.safe r = true <-> SDK.severity r = "low").
Proof.
  intros r.
  destruct (analysis_facts py_round value py_str self operation request_data clk)
    as (H1 & [_ H2] & H3 & H4).
  fold r in H1, H2, H3, H4. clearbody r.
  assert (G : Forall (fun t => SDK.threat_severity t = "high" \/
                               SDK.threat_severity t = "critical")
                     (SDK.threats_detected r)).
  { rewrite H1. apply List.Forall_forall. intros t Ht.
    apply in_map_iff in Ht as (rule & <- & Hr).
    apply filter_In in Hr as [Hr _]. now apply rules_high_or_critical. }
  split; [exact G|].
  rewrite H4, H3.
  destruct (SDK.threats_detected r) as [|t ts] eqn:E.
  - destruct H2 as [[] | [_ ->]]. split; [now left | now split].
  - destruct H2 as [Hin | [Hnil _]]; [|discriminate].
    apply in_map_iff in Hin as (t' & Ht' & Hin).
    rewrite List.Forall_forall in G. specialize (G t' Hin). rewrite Ht' in G.
    split; [destruct G as [-> | ->]; tauto|].
    cbn [length Nat.eqb].
    split; [discriminate | intros L; rewrite L in G; destruct G; discriminate].
Qed.

End AnalysisExtras.

Lemma analysis_without_content_witness :
  tracked_request "42" "1700000000.0" !! "content" = None /\
  fst (SDK.analyze_request_security no_round string id old_monitor
         "openai_completion" (tracked_request "42" "1700000000.0") clock0) =
    old_monitor.
Proof.
  assert (H : tracked_request "42" "1700000000.0" !! "content" = None)
    by (vm_compute; reflexivity).
  split; [exact H|].
  exact (proj1 (analysis_without_content no_round string id old_monitor
                  "openai_completion" _ clock0 (or_introl H))).
Defined.

Lemma severity_low_iff_safe_witness :
  let r := snd (SDK.analyze_request_security no_round string id SDK.init
                  "test" attack_request clock0) in
  SDK.safe r = true <-> SDK.severity r = "low".
Proof.
  exact (proj2 (proj2 (severity_low_iff_safe no_round string id SDK.init
                         "test" attack_request clock0))).
Defined.

(** ** [SDK]: the lifetime counters *)

Lemma incr_lookup (k ty : string) (d : gmap string nat) :
  default 0 (SDK.incr k d !! ty) =
    default 0 (d !! ty) + (if String.eqb ty k then 1 else 0).
Proof.
  unfold SDK.incr. destruct (String.eqb_spec ty k) as [-> | Hne].
  - rewrite lookup_insert_eq. reflexivity.
  - rewrite lookup_insert_ne by congruence. lia.
Qed.

Lemma occurrences_snoc (x y : string) (l : list string) :
  occurrences x (l ++ [y]) =
    occurrences x l + (if String.eqb x y then 1 else 0).
Proof.
  unfold occurrences. rewrite List.filter_app, length_app. simpl.
  destruct (String.eqb x y); reflexivity.
Qed.

(** X2: the two histograms of the monitor count every security event
    ever logged, by type and by severity, and eviction from the capped log
    does not lower them: after any run of logging calls on a fresh monitor
    each counter equals the number of calls with that type or severity,
    while the log itself holds at most 1000 of them. *)
Theorem counters_count_every_call (calls : list call) (key : string) :
  default 0 (SDK.event_counts (run calls) !! key) =
    occurrences key (map sc_event_type (security_calls calls)) /\
  default 0 (SDK.severity_counts (run calls) !! key) =
    occurrences key (map sc_severity (security_calls calls)) /\
  length (SDK.security_events (run calls)) =
    Nat.min 1000 (length (security_calls calls)).
Proof.
  split; [|split]; [| |apply log_state_run].
  - induction calls as [|c calls IH] using rev_ind; [reflexivity|].
    rewrite run_snoc. unfold security_calls. rewrite flat_map_app.
    fold (security_calls calls).
    destruct c as [c | c]; cbn [flat_map do_call]; rewrite !app_nil_r;
      [|exact IH].
    rewrite map_app. cbn [map]. rewrite occurrences_snoc.
    unfold SDK.log_security_event. cbn [SDK.event_counts].
    rewrite incr_lookup, IH. reflexivity.
  - induction calls as [|c calls IH] using rev_ind; [reflexivity|].
    rewrite run_snoc. unfold security_calls. rewrite flat_map_app.
    fold (security_calls calls).
    destruct c as [c | c]; cbn [flat_map do_call]; rewrite !app_nil_r;
      [|exact IH].
    rewrite map_app. cbn [map]. rewrite occurrences_snoc.
    unfold SDK.log_security_event. cbn [SDK.severity_counts].
    rewrite incr_lookup, IH. reflexivity.
Qed.

(** ** [SDK]: the privacy report *)

Lemma report_entry_cases {A} (build : string -> list string -> A)
      (text ty : string) (p : Re.pattern) :
  report_entry build text (ty, p) =
    if Re.search p text then [build ty (Re.findall p text)] else [].
Proof.
  unfold report_entry; simpl. destruct (Re.findall p text) eqn:E.
  - apply findall_nil in E. now rewrite E.
  - destruct (Re.search p text) eqn:S; [reflexivity|].
    apply findall_nil in S. congruence.
Qed.





Section PrivacyExtras.

Variable py_round : Q -> nat -> Q.

Abbreviation check := (SDK.check_data_privacy py_round).


(** X4: the compliance status is decided by which patterns are found in
    the text: [non_compliant] exactly when the SSN pattern or the credit
    card pattern is found, [compliant] exactly when no pattern is found,
    and [warning] exactly when some pattern is found but neither of those
    two (an email address, a phone number, an IP address or a URL alone
    never gives more than a warning). *)
Theorem compliance_status_by_pattern (self : SDK.monitor) (text : string)
        (clk : SDK.clock) :
  let r := snd (check self text clk) in
  let grave_found := Re.search SDK.ssn_pattern text
                     || Re.search SDK.credit_card_pattern text in
  (SDK.compliance_status r = "non_compliant" <-> grave_found = true) /\
  (SDK.compliance_status r = "compliant" <-> found_patterns text = []) /\
  (SDK.compliance_status r = "warning" <->
   grave_found = false /\ found_patterns text <> []).
Proof.
  intros r grave_found.
  destruct (privacy_facts py_round self text clk) as (_ & _ & _ & H4 & _).
  fold r in H4. clearbody r. subst grave_found.
  remember (SDK.compliance_status r) as st eqn:Est.
  remember (SDK.privacy_severity r) as sv eqn:Esv. clear Est Esv r.
  unfold found_patterns, SDK.pii_patterns, SDK._initialize_pii_patterns in *.
  cbn [flat_map List.filter snd] in *. rewrite !report_entry_cases in H4.
  destruct (Re.search SDK.email_pattern text),
           (Re.search SDK.phone_pattern text),
           (Re.search SDK.ssn_pattern text),
           (Re.search SDK.credit_card_pattern text),
           (Re.search SDK.ip_address_pattern text),
           (Re.search SDK.url_pattern text);
    vm_compute in H4; injection H4 as -> _; cbn [orb];
    (split; [|split]); split; try discriminate; try reflexivity;
    try (intros [? ?]; discriminate); try (intros [_ ?]; congruence);
    try (intros _; split; [reflexivity | discriminate]).
Qed.


End PrivacyExtras.

Lemma compliance_status_by_pattern_witness :
  SDK.compliance_status
    (snd (SDK.check_data_privacy no_round SDK.init
            "mail a@b.com from 10.0.0.1" clock0)) = "warning".
Proof.
  apply (proj2 (proj2 (compliance_status_by_pattern no_round SDK.init
                         "mail a@b.com from 10.0.0.1" clock0))).
  split; [vm_compute; reflexivity | vm_compute; discriminate].
Defined.


(** ** [SDK]: the security score *)

Lemma total_penalty_app (now : Q) (l1 l2 : list SDK.security_event) :
  total_penalty now (l1 ++ l2) = (total_penalty now l1 + total_penalty now l2)%Z.
Proof. induction l1 as [|e l1 IH]; simpl; [reflexivity | rewrite IH; lia]. Qed.

(** X6: the security score lies between 0 and 100, and logging one more
    event while the log has room never raises it (at the same clock
    reading). *)
Theorem security_score_bounded_and_antitone (self : SDK.monitor)
        (ty descr sev : string) (md : option SDK.metadata) (t now : Q) :
  (0 <= SDK._calculate_security_score self now <= 100)%Z /\
  (length (SDK.security_events self) < 1000 ->
   (SDK._calculate_security_score
      (SDK.log_security_event self ty descr sev md t) now
    <= SDK._calculate_security_score self now)%Z).
Proof.
  rewrite !security_score_formula. unfold clamp.
  pose proof (total_penalty_nonneg now (SDK.security_events self)) as Hp.
  split; [lia|]. intros Hlen.
  rewrite security_events_logged.
  replace (length (SDK.security_events self) + 1 - 1000) with 0 by lia.
  rewrite skipn_O, total_penalty_app.
  pose proof (total_penalty_nonneg now
                [SDK.SecurityEvent (length (SDK.security_events self) + 1) ty
                                   descr sev (default [] md) t]) as He.
  lia.
Qed.

Lemma security_score_bounded_and_antitone_witness :
  length (SDK.security_events old_monitor) < 1000 /\
  (SDK._calculate_security_score
     (SDK.log_security_event old_monitor "threat_detection" "new" "critical"
                             None 199000) 200000
   <= SDK._calculate_security_score old_monitor 200000)%Z.
Proof.
  assert (H : length (SDK.security_events old_monitor) < 1000)
    by (vm_compute; lia).
  split; [exact H|].
  exact (proj2 (security_score_bounded_and_antitone old_monitor
                  "threat_detection" "new" "critical" None 199000 200000) H).
Defined.

(** ** [SDK]: the summary *)

Lemma recent_length {A} (timestamp : A -> Q) (tick : nat -> Q) (k : nat)
      (l : list A) :
  length (SDKSummary.recent timestamp tick k l) <= length l.
Proof.
  revert k; induction l as [|e l IH]; intros k; simpl; [lia|].
  destruct (SDKSummary.Qlt_bool _ _); simpl; specialize (IH (S k)); lia.
Qed.

Lemma latest_of_suffix {A B} (f : A -> B) (calls dropped : list B) (log : list A) :
  calls = (dropped ++ map f log)%list ->
  length log = Nat.min 1000 (length calls) ->
  map f (SDKSummary.latest log) = skipn (length calls - 5) calls /\
  length (SDKSummary.latest log) = Nat.min 5 (length calls).
Proof.
  intros -> Hlen.
  assert (N : length (dropped ++ map f log) = length dropped + length log)
    by now rewrite length_app, length_map.
  rewrite N in *.
  assert (E : SDKSummary.latest log = skipn (length log - 5) log)
    by (destruct log; reflexivity).
  rewrite E, length_skipn. split; [|lia].
  rewrite <- skipn_map, skipn_app.
  destruct (Nat.le_gt_cases 5 (length log)) as [H | H].
  - rewrite (skipn_all2 dropped) by lia. simpl. f_equal. lia.
  - assert (D : dropped = [])
      by (destruct dropped; [reflexivity | cbn [length] in *; lia]).
    subst dropped. rewrite skipn_nil. cbn [length app].
    replace (0 + length log - 5 - 0) with (length log - 5) by lia. reflexivity.
Qed.

(** X7: on a monitor reached by any run of logging calls, the summary
    reports the number of events held (at most 1000), a count of recent
    events that does not exceed it, and as latest events the last five
    calls of the run in order (all of them when there were fewer), for
    both logs. *)
Theorem summary_of_run (py_round : Q -> nat -> Q) (calls : list call)
        (tick : nat -> Q) :
  let s := SDKSummary.get_security_summary py_round (run calls) tick in
  SDKSummary.total_security_events s =
    Nat.min 1000 (length (security_calls calls)) /\
  SDKSummary.total_compliance_logs s =
    Nat.min 1000 (length (compliance_calls calls)) /\
  SDKSummary.recent_events_count s <= SDKSummary.total_security_events s /\
  SDKSummary.recent_compliance_count s <= SDKSummary.total_compliance_logs s /\
  map security_call_of (SDKSummary.latest_security_events s) =
    skipn (length (security_calls calls) - 5) (security_calls calls) /\
  map compliance_call_of (SDKSummary.latest_compliance_logs s) =
    skipn (length (compliance_calls calls) - 5) (compliance_calls calls).
Proof.
  intros s. subst s. unfold SDKSummary.get_security_summary.
  cbn [SDKSummary.total_security_events SDKSummary.total_compliance_logs
       SDKSummary.recent_events_count SDKSummary.recent_compliance_count
       SDKSummary.latest_security_events SDKSummary.latest_compliance_logs].
  destruct (log_state_run calls) as (Hs & Hc & [ds Ds] & [dc Dc]).
  split; [exact Hs|]. split; [exact Hc|].
  split; [apply recent_length|]. split; [apply recent_length|].
  split.
  - exact (proj1 (latest_of_suffix security_call_of _ ds _ Ds Hs)).
  - exact (proj1 (latest_of_suffix compliance_call_of _ dc _ Dc Hc)).
Qed.

(** ** [HRMonitor]: the analysis *)

Lemma check_suspicious_fold (subject : string) (ps : list Re.pattern)
      (threats : list string) (level : nat) :
  exists found,
    fold_left (HRMonitor.check_suspicious subject) ps (threats, level) =
      ((threats ++ found)%list, level + 20 * found_count ps subject) /\
    length found = found_count ps subject.
Proof.
  revert threats level; induction ps as [|p ps IH]; intros threats level.
  - exists []. unfold found_count; simpl. rewrite app_nil_r.
    split; [f_equal; lia | reflexivity].
  - unfold found_count in *. cbn [fold_left List.filter].
    unfold HRMonitor.check_suspicious at 2.
    destruct (Re.search p subject).
    + destruct (IH (threats ++ ["Suspicious pattern detected: " +:+ Re.source p])%list
                   (level + 20)) as (found & E & L).
      eexists (_ :: found). rewrite E, <- app_assoc. cbn [length app].
      split; [f_equal; lia | now rewrite L].
    + apply IH.
Qed.

Lemma check_data_fold (subject : string) (ps : list Re.pattern)
      (threats : list string) (level : nat) :
  exists found,
    fold_left (HRMonitor.check_data subject) ps (threats, level) =
      ((threats ++ found)%list, level + 30 * found_count ps subject) /\
    length found = found_count ps subject.
Proof.
  revert threats level; induction ps as [|p ps IH]; intros threats level.
  - exists []. unfold found_count; simpl. rewrite app_nil_r.
    split; [f_equal; lia | reflexivity].
  - unfold found_count in *. cbn [fold_left List.filter].
    unfold HRMonitor.check_data at 2.
    destruct (Re.findall p subject) as [|m ms] eqn:F.
    + apply findall_nil in F. rewrite F. apply IH.
    + assert (S : Re.search p subject = true).
      { destruct (Re.search p subject) eqn:S; [reflexivity|].
        apply findall_nil in S. congruence. }
      rewrite S.
      destruct (IH (threats ++ ["Potential data exposure: "
                                +:+ str_of_nat (length (m :: ms))
                                +:+ " sensitive data patterns"])%list
                   (level + 30)) as (found & E & L).
      eexists (_ :: found). rewrite E, <- app_assoc. cbn [length app].
      split; [f_equal; lia | now rewrite L].
Qed.

Lemma grade_min (level : nat) : grade (Nat.min level 100) = grade level.
Proof.
  unfold grade.
  repeat match goal with
         | |- context [(?a <=? ?b)%nat] => destruct (Nat.leb_spec a b)
         end; try reflexivity; lia.
Qed.

(** The threats, the level and the severity of an analysis, by what was
    found. *)
Lemma hr_analysis_facts (request_data user_input : string) (now : Q) :
  let subject := request_data +:+ " " +:+ user_input in
  let raw := 20 * found_count HRMonitor.suspicious_patterns subject
             + 30 * found_count HRMonitor.data_patterns subject
             + 10 * size_points request_data in
  let r := HRMonitor.analyze_request_security request_data user_input now in
  HRMonitor.threat_level r = Nat.min raw 100 /\
  HRMonitor.severity r = grade raw /\
  length (HRMonitor.threats r) =
    found_count HRMonitor.suspicious_patterns subject
    + found_count HRMonitor.data_patterns subject
    + size_points request_data.
Proof.
  intros subject raw r. subst r raw. unfold HRMonitor.analyze_request_security.
  fold subject.
  destruct (check_suspicious_fold subject HRMonitor.suspicious_patterns [] 0)
    as (f1 & E1 & L1).
  rewrite E1.
  destruct (check_data_fold subject HRMonitor.data_patterns ([] ++ f1)
              (0 + 20 * found_count HRMonitor.suspicious_patterns subject))
    as (f2 & E2 & L2).
  rewrite E2. unfold size_points, PyStr.len. cbn [fst snd].
  destruct (100000 <? N.of_nat (String.length request_data))%N;
    cbn [HRMonitor.threat_level HRMonitor.severity HRMonitor.threats];
    rewrite ?length_app, L1, L2; cbn [length app];
    (split; [f_equal; lia|]); (split; [|lia]);
    unfold grade; repeat match goal with
                         | |- context [(?a <=? ?b)%nat] => destruct (Nat.leb_spec a b)
                         end; try reflexivity; lia.
Qed.

(** X8: the reported threat level is 20 points per suspicious pattern
    found, 30 per data pattern found and 10 for a request longer than
    100000 characters, cut off at 100; there is one threat message per
    such finding; the severity is the grade of the reported level (the
    cut-off never changes it); a result without threats has level 0 and
    severity ["low"], and a ["critical"] one has at least three threats. *)
Theorem hr_threat_level_and_severity (request_data user_input : string) (now : Q) :
  let subject := request_data +:+ " " +:+ user_input in
  let r := HRMonitor.analyze_request_security request_data user_input now in
  HRMonitor.threat_level r =
    Nat.min 100 (20 * found_count HRMonitor.suspicious_patterns subject
                 + 30 * found_count HRMonitor.data_patterns subject
                 + 10 * size_points request_data) /\
  length (HRMonitor.threats r) =
    found_count HRMonitor.suspicious_patterns subject
    + found_count HRMonitor.data_patterns subject
    + size_points request_data /\
  HRMonitor.severity r = grade (HRMonitor.threat_level r) /\
  (HRMonitor.threats r = [] ->
   HRMonitor.threat_level r = 0 /\ HRMonitor.severity r = "low") /\
  (HRMonitor.severity r = "critical" -> 3 <= length (HRMonitor.threats r)).
Proof.
  intros subject r.
  destruct (hr_analysis_facts request_data user_input now) as (H1 & H2 & H3).
  fold subject r in H1, H2, H3. clearbody r.
  set (a := found_count HRMonitor.suspicious_patterns subject) in *.
  set (b := found_count HRMonitor.data_patterns subject) in *.
  set (c := size_points request_data) in *.
  assert (Hc : c <= 1) by (subst c; unfold size_points; destruct (_ <? _)%N; lia).
  split; [rewrite H1; apply Nat.min_comm|]. split; [exact H3|].
  split; [now rewrite H1, grade_min|]. split.
  - intros E. rewrite E in H3. cbn [length] in H3.
    assert (a = 0 /\ b = 0 /\ c = 0) as (Ea & Eb & Ec) by lia.
    rewrite H1, H2, Ea, Eb, Ec. split; reflexivity.
  - rewrite H2, H3. unfold grade.
    destruct (Nat.leb_spec 70 (20 * a + 30 * b + 10 * c)) as [L | L]; [lia|].
    repeat (destruct (_ <=? _)%nat); discriminate.
Qed.

Lemma hr_threat_level_and_severity_witness :
  let r := HRMonitor.analyze_request_security
             "User input: What is my password? DROP TABLE users;" "" 0 in
  HRMonitor.severity r = grade (HRMonitor.threat_level r) /\
  (HRMonitor.severity r = "critical" -> 3 <= length (HRMonitor.threats r)).
Proof.
  pose proof (hr_threat_level_and_severity
                "User input: What is my password? DROP TABLE users;" "" 0)
    as (_ & _ & H3 & _ & H5).
  split; [exact H3 | exact H5].
Defined.

Lemma char_before_app (pv : option ascii) (l1 l2 : list ascii) :
  char_before pv (l1 ++ l2) = char_before (char_before pv l1) l2.
Proof. apply fold_left_app. Qed.

Lemma char_before_nonword (pv pv' : option ascii) (l : list ascii) :
  Re.opt_word pv' = false ->
  Re.opt_word (char_before pv l) = false ->
  pv = None \/ l <> [] ->
  Re.opt_word (char_before pv' l) = false.
Proof.
  intros Hpv' H Hl. destruct l as [|a l].
  - exact Hpv'.
  - exact H.
Qed.

Lemma last_char_after (before pre : string) :
  Re.opt_word (last_char pre) = false ->
  Re.opt_word (last_char (before +:+ " " +:+ pre)) = false.
Proof.
  intros H. unfold last_char in *.
  rewrite !list_ascii_of_string_app, !char_before_app.
  set (pv := char_before (char_before None (list_ascii_of_string before))
                         (list_ascii_of_string " ")).
  destruct (list_ascii_of_string pre) as [|a l]; [reflexivity | exact H].
Qed.

Lemma first_char_before (post after : string) :
  Re.opt_word (first_char post) = false ->
  Re.opt_word (first_char (post +:+ " " +:+ after)) = false.
Proof. intros H. destruct post; [reflexivity | exact H]. Qed.

Lemma append_assoc (s1 s2 s3 : string) :
  (s1 +:+ s2) +:+ s3 = s1 +:+ (s2 +:+ s3).
Proof.
  induction s1 as [|a s1 IH]; [reflexivity|].
  change (String a ((s1 +:+ s2) +:+ s3) = String a (s1 +:+ (s2 +:+ s3))).
  now rewrite IH.
Qed.

(** X9: a request that contains a number of the shape ddd-dd-dddd between
    word boundaries, in [request_data] or in [user_input], is rated at
    least ["medium"]: its threat level is 30 or more and its severity is
    not ["low"]. *)
Theorem hr_ssn_is_at_least_medium (pre ssn post other : string) (now : Q) :
  ssn_shaped ssn = true ->
  Re.opt_word (last_char pre) = false ->
  Re.opt_word (first_char post) = false ->
  forall r,
    r = HRMonitor.analyze_request_security (pre +:+ ssn +:+ post) other now \/
    r = HRMonitor.analyze_request_security other (pre +:+ ssn +:+ post) now ->
    30 <= HRMonitor.threat_level r /\ HRMonitor.severity r <> "low".
Proof.
  intros Hs Hpre Hpost r Hr.
  assert (G : forall request_data user_input,
             Re.search HR.ssn_pattern (request_data +:+ " " +:+ user_input) = true ->
             let r := HRMonitor.analyze_request_security request_data user_input now in
             30 <= HRMonitor.threat_level r /\ HRMonitor.severity r <> "low").
  { intros rd ui S r0.
    destruct (hr_analysis_facts rd ui now) as (H1 & H2 & _).
    fold r0 in H1, H2. clearbody r0.
    assert (B : 1 <= found_count HRMonitor.data_patterns (rd +:+ " " +:+ ui)).
    { unfold found_count, HRMonitor.data_patterns. cbn [List.filter].
      rewrite S. destruct (Re.search HR.credit_card_pattern _),
                          (Re.search HR.email_pattern _); simpl; lia. }
    rewrite H1, H2. split; [lia|]. unfold grade.
    repeat match goal with
           | |- context [(?a <=? ?b)%nat] => destruct (Nat.leb_spec a b)
           end; try discriminate; lia. }
  destruct Hr as [-> | ->]; apply G.
  - rewrite !append_assoc.
    apply (ssn_found pre ssn (post +:+ " " +:+ other) Hs Hpre).
    now apply first_char_before.
  - replace (other +:+ " " +:+ pre +:+ ssn +:+ post)
      with ((other +:+ " " +:+ pre) +:+ ssn +:+ post)
      by (rewrite !append_assoc; reflexivity).
    apply (ssn_found (other +:+ " " +:+ pre) ssn post Hs); [|exact Hpost].
    now apply last_char_after.
Qed.

Lemma hr_ssn_is_at_least_medium_witness :
  ssn_shaped "123-45-6789" = true /\
  HRMonitor.severity
    (HRMonitor.analyze_request_security "hello" "my SSN is 123-45-6789" 0)
    <> "low".
Proof.
  assert (H1 : ssn_shaped "123-45-6789" = true) by reflexivity.
  split; [exact H1|].
  exact (proj2 (hr_ssn_is_at_least_medium "my SSN is " "123-45-6789" "" "hello" 0
                  H1 eq_refl eq_refl _ (or_intror eq_refl))).
Defined.

(** ** [HRMonitor]: the logs and the reports *)

Lemma hr_run_snoc (calls : list hr_call) (c : hr_call) :
  hr_run (calls ++ [c]) = hr_do_call (hr_run calls) c.
Proof. unfold hr_run. now rewrite fold_left_app. Qed.

Lemma hr_logs_of_run (calls : list hr_call) :
  HRMonitor.security_events (hr_run calls) = hr_security_calls calls /\
  HRMonitor.compliance_logs (hr_run calls) = hr_compliance_calls calls.
Proof.
  induction calls as [|c calls [IHs IHc]] using rev_ind; [split; reflexivity|].
  rewrite hr_run_snoc. unfold hr_security_calls, hr_compliance_calls.
  rewrite !flat_map_app. fold (hr_security_calls calls) (hr_compliance_calls calls).
  destruct c as [e | e]; cbn [hr_do_call flat_map fst HRMonitor.log_security_event
                              HRMonitor.log_compliance_event
                              HRMonitor.security_events HRMonitor.compliance_logs];
    rewrite ?app_nil_r, IHs, IHc; destruct e; split; reflexivity.
Qed.

(** X10: the SDK-HR monitor never drops anything: after any run of
    logging calls its two logs hold the event of every call, in call order,
    however many there were; each call returns the event it stored, which
    is then the last entry of its log. *)
Theorem hr_logs_keep_every_event :
  (forall calls,
      HRMonitor.security_events (hr_run calls) = hr_security_calls calls /\
      HRMonitor.compliance_logs (hr_run calls) = hr_compliance_calls calls) /\
  (forall self ty descr sev ip ep blocked md now,
      let res := HRMonitor.log_security_event self ty descr sev ip ep blocked
                                              md now in
      HRMonitor.security_events (fst res) =
        (HRMonitor.security_events self ++ [snd res])%list /\
      HRMonitor.compliance_logs (fst res) = HRMonitor.compliance_logs self /\
      HRMonitor.timestamp (snd res) = now) /\
  (forall self ty descr data consent enc loc md now,
      let res := HRMonitor.log_compliance_event self ty descr data consent enc
                                                loc md now in
      HRMonitor.compliance_logs (fst res) =
        (HRMonitor.compliance_logs self ++ [snd res])%list /\
      HRMonitor.security_events (fst res) = HRMonitor.security_events self /\
      HRMonitor.log_timestamp (snd res) = now).
Proof.
  split; [exact hr_logs_of_run|]. split; intros; repeat split; reflexivity.
Qed.

(** X11: after any run of logging calls the summary counts the events
    of the whole run: all security events, those of severity
    ["critical"], those that were blocked, and all compliance events; its
    [last_event] is the time stamp of the last security call, and [None]
    only when there was none; the report lists the last ten security events
    and the last five compliance events of the run. *)
Theorem hr_report_of_run (calls : list hr_call) (now : Q) :
  let rep := HRMonitor.generate_security_report (hr_run calls) now in
  let s := HRMonitor.report_summary rep in
  let sec := hr_security_calls calls in
  let comp := hr_compliance_calls calls in
  HRMonitor.total_security_events s = length sec /\
  HRMonitor.critical_events s =
    occurrences "critical" (map HRMonitor.event_severity sec) /\
  HRMonitor.blocked_events s =
    length (List.filter HRMonitor.blocked sec) /\
  HRMonitor.critical_events s <= HRMonitor.total_security_events s /\
  HRMonitor.blocked_events s <= HRMonitor.total_security_events s /\
  HRMonitor.compliance_logs_count s = length comp /\
  HRMonitor.last_event s = option_map HRMonitor.timestamp (last sec) /\
  (HRMonitor.last_event s = None <-> sec = []) /\
  HRMonitor.recent_events rep = skipn (length sec - 10) sec /\
  HRMonitor.compliance_status rep = skipn (length comp - 5) comp.
Proof.
  intros rep s sec comp. subst rep s.
  unfold HRMonitor.generate_security_report, HRMonitor.get_security_summary.
  destruct (hr_logs_of_run calls) as [-> ->]. fold sec comp.
  cbn [HRMonitor.report_summary HRMonitor.total_security_events
       HRMonitor.critical_events HRMonitor.blocked_events
       HRMonitor.compliance_logs_count HRMonitor.last_event
       HRMonitor.recent_events HRMonitor.compliance_status].
  clearbody sec comp.
  assert (C : length (List.filter
                        (fun e => String.eqb (HRMonitor.event_severity e) "critical")
                        sec) =
              occurrences "critical" (map HRMonitor.event_severity sec)).
  { unfold occurrences. induction sec as [|e sec IH]; [reflexivity|].
    cbn [List.filter map]. rewrite (String.eqb_sym "critical").
    destruct (String.eqb (HRMonitor.event_severity e) "critical"); simpl;
      now rewrite IH. }
  repeat split; try reflexivity.
  - exact C.
  - apply List.filter_length_le.
  - apply List.filter_length_le.
  - destruct sec; reflexivity.
  - destruct sec as [|e sec]; [reflexivity|]. intros H. exfalso.
    destruct (last (e :: sec)) eqn:L; [discriminate|].
    apply last_None in L. discriminate.
  - intros ->. reflexivity.
Qed.

Lemma hr_report_of_run_witness :
  let calls := [HRSecurity (sample_hr_event "critical" true 5);
                HRSecurity (sample_hr_event "medium" false 7)] in
  HRMonitor.last_event
    (HRMonitor.report_summary (HRMonitor.generate_security_report (hr_run calls) 9))
    <> None.
Proof.
  intros calls H.
  pose proof (hr_report_of_run calls 9) as (_ & _ & _ & _ & _ & _ & _ & L & _).
  apply L in H. discriminate H.
Defined.

(** ** [HR]: the privacy check *)




(** ** [HRMetrics] *)

Lemma capped_snoc {A} (cap : nat) (all kept : list A) (x : A) :
  kept = skipn (length all - cap) all ->
  (if (cap <? length (kept ++ [x]))%nat
   then PyStr.list_slice_last cap (kept ++ [x])
   else (kept ++ [x])%list) =
    skipn (length (all ++ [x]) - cap) (all ++ [x]).
Proof.
  intros ->. unfold PyStr.list_slice_last.
  rewrite !length_app, length_skipn. cbn [length].
  destruct (Nat.ltb_spec cap (length all - (length all - cap) + 1)) as [H | H].
  - rewrite skipn_app, length_skipn, skipn_skipn.
    rewrite (skipn_app (length all + 1 - cap)).
    f_equal; [f_equal; lia|].
    replace (length all - (length all - cap) + 1 - cap - (length all - (length all - cap)))
      with (length all + 1 - cap - length all) by lia.
    reflexivity.
  - replace (length all - cap) with 0 by lia.
    replace (length all + 1 - cap) with 0 by lia. reflexivity.
Qed.

Section HRMetricsProperties.

Variables fadd fmul fdiv : Q -> Q -> Q.

(** X13: after any sequence of requests and errors reported through the
    SDK-HR tracker, the collector has counted every request and every
    error, and its latencies are those of the last 100 requests, in order
    (older ones are dropped from the front); and as long as no request has
    been reported the error rate is 0, however many errors were. *)
Theorem hr_metrics_of_run (calls : list hr_metric_call) (now : Q) :
  let m := fold_left (hr_metric_step fadd) calls (HRMetrics.init now) in
  HRMetrics.request_count m = length (request_latencies calls) /\
  HRMetrics.error_count m = error_calls calls /\
  HRMetrics.latencies m =
    skipn (length (request_latencies calls) - 100) (request_latencies calls) /\
  length (HRMetrics.latencies m) <= 100 /\
  (request_latencies calls = [] -> HRMetrics.get_error_rate fmul fdiv m = 0%Q).
Proof.
  intros m.
  assert (H : HRMetrics.request_count m = length (request_latencies calls) /\
              HRMetrics.error_count m = error_calls calls /\
              HRMetrics.latencies m =
                skipn (length (request_latencies calls) - 100)
                      (request_latencies calls)).
  { subst m. induction calls as [|c calls (IH1 & IH2 & IH3)] using rev_ind.
    - repeat split.
    - rewrite fold_left_app. cbn [fold_left].
      unfold request_latencies, error_calls in *.
      rewrite flat_map_app, List.filter_app, !length_app.
      destruct c as [p c cost latency|];
        cbn [hr_metric_step flat_map List.filter length app
             HRMetrics.tracker_log_request HRMetrics.tracker_log_error
             HRMetrics.update_latency HRMetrics.update_tokens
             HRMetrics.increment_errors HRMetrics.request_count
             HRMetrics.error_count HRMetrics.latencies].
      + rewrite Nat.add_0_r. split; [lia|]. split; [exact IH2|].
        rewrite (capped_snoc 100 _ _ latency IH3), length_app. reflexivity.
      + rewrite app_nil_r, Nat.add_0_r. split; [exact IH1|]. split; [lia|].
        exact IH3. }
  destruct H as (H1 & H2 & H3).
  split; [exact H1|]. split; [exact H2|]. split; [exact H3|].
  split.
  - rewrite H3, length_skipn. lia.
  - intros E. unfold HRMetrics.get_error_rate. rewrite H1, E. reflexivity.
Qed.

End HRMetricsProperties.

Lemma hr_metrics_of_run_witness :
  request_latencies [HRError; HRError; HRError] = [] /\
  HRMetrics.get_error_rate exact_mul exact_div
    (fold_left (hr_metric_step exact_add) [HRError; HRError; HRError]
               (HRMetrics.init 0)) = 0%Q.
Proof.
  assert (H : request_latencies [HRError; HRError; HRError] = []) by reflexivity.
  split; [exact H|].
  exact (proj2 (proj2 (proj2 (proj2
           (hr_metrics_of_run exact_add exact_mul exact_div
                              [HRError; HRError; HRError] 0)))) H).
Defined.

(** ** [HRHealth] *)

(** X14: on a monitor whose error count is 0 (fresh, or after
    [reset_errors]), logging [n] errors leaves the count at [n], the last
    message as [last_error], and the status untouched up to five errors,
    ["degraded"] from the sixth and ["unhealthy"] from the eleventh; once
    more than five errors are counted, a status set by hand is replaced at
    the next error, and only [reset_errors] brings back ["healthy"]. *)
Theorem hr_health_after_errors :
  (forall self messages,
      HRHealth.error_count self = 0 ->
      let self' := fold_left HRHealth.log_error messages self in
      HRHealth.error_count self' = length messages /\
      HRHealth.last_error self' =
        match last messages with
        | Some m => Some m
        | None => HRHealth.last_error self
        end /\
      HRHealth.status self' =
        if (10 <? length messages)%nat then "unhealthy"
        else if (5 <? length messages)%nat then "degraded"
        else HRHealth.status self) /\
  (forall self by_hand message,
      5 <= HRHealth.error_count self ->
      HRHealth.status
        (HRHealth.log_error (HRHealth.update_status self by_hand) message) =
        if (10 <=? HRHealth.error_count self)%nat then "unhealthy"
        else "degraded") /\
  (forall self,
      HRHealth.status (HRHealth.reset_errors self) = "healthy" /\
      HRHealth.error_count (HRHealth.reset_errors self) = 0).
Proof.
  split; [|split].
  - intros self messages H0 self'. subst self'.
    induction messages as [|m messages (IH1 & IH2 & IH3)] using rev_ind.
    + cbn. rewrite H0. repeat split.
    + rewrite fold_left_app, last_snoc, length_app. cbn [fold_left length].
      set (s := fold_left HRHealth.log_error messages self) in *.
      clearbody s. unfold HRHealth.log_error.
      cbn [HRHealth.error_count HRHealth.last_error HRHealth.status].
      rewrite IH1, IH3. split; [reflexivity|]. split; [reflexivity|].
      repeat match goal with
             | |- context [(?a <? ?b)%nat] => destruct (Nat.ltb_spec a b)
             end; try reflexivity; lia.
  - intros self by_hand message H. unfold HRHealth.log_error, HRHealth.update_status.
    cbn [HRHealth.error_count HRHealth.status].
    repeat match goal with
           | |- context [(?a <? ?b)%nat] => destruct (Nat.ltb_spec a b)
           | |- context [(?a <=? ?b)%nat] => destruct (Nat.leb_spec a b)
           end; try reflexivity; lia.
  - intros self. split; reflexivity.
Qed.

Lemma hr_health_after_errors_witness :
  HRHealth.error_count (HRHealth.init 0) = 0 /\
  HRHealth.status
    (fold_left HRHealth.log_error ["a"; "b"; "c"; "d"; "e"; "f"] (HRHealth.init 0))
    = "degraded" /\
  HRHealth.status
    (HRHealth.log_error
       (HRHealth.update_status
          (fold_left HRHealth.log_error ["a"; "b"; "c"; "d"; "e"; "f"]
                     (HRHealth.init 0)) "healthy") "g") = "degraded".
Proof.
  destruct hr_health_after_errors as (H1 & H2 & _).
  assert (H0 : HRHealth.error_count (HRHealth.init 0) = 0) by reflexivity.
  split; [exact H0|]. split.
  - exact (proj2 (proj2 (H1 (HRHealth.init 0) ["a"; "b"; "c"; "d"; "e"; "f"] H0))).
  - assert (H5 : 5 <= HRHealth.error_count
                        (fold_left HRHealth.log_error
                                   ["a"; "b"; "c"; "d"; "e"; "f"] (HRHealth.init 0)))
      by (vm_compute; lia).
    exact (H2 _ "healthy" "g" H5).
Defined.

(** ** [SDKHealth] *)

(** X15: [update_status] accepts exactly the statuses ["healthy"],
    ["warning"] and ["critical"]: for these it stores the status and the
    time of the call and leaves every other attribute alone; for any other
    string it raises [ValueError] and stores nothing. *)
Theorem sdk_update_status_validates (self : SDKHealth.health) (s : string)
        (now : Q) :
  (valid_status s ->
   SDKHealth.update_status self s now =
     SDKHealth.Return
       (SDKHealth.Health (SDKHealth.start_time self) now s
          (SDKHealth.error_count self) (SDKHealth.total_checks self)
          (SDKHealth.response_times self) (SDKHealth.max_response_time self))) /\
  (~ valid_status s ->
   SDKHealth.update_status self s now = SDKHealth.Raise "ValueError").
Proof.
  unfold SDKHealth.update_status, valid_status. cbn [existsb].
  split.
  - intros [-> | [-> | ->]]; reflexivity.
  - intros H.
    destruct (String.eqb_spec s "healthy"); [tauto|].
    destruct (String.eqb_spec s "warning"); [tauto|].
    destruct (String.eqb_spec s "critical"); [tauto|]. reflexivity.
Qed.

Lemma sdk_update_status_validates_witness :
  valid_status "warning" /\ ~ valid_status "degraded" /\
  SDKHealth.update_status (SDKHealth.init 0 0) "degraded" 5 =
    SDKHealth.Raise "ValueError" /\
  SDKHealth.update_status (SDKHealth.init 0 0) "warning" 5 =
    SDKHealth.Return (SDKHealth.Health 0 5 "warning" 0 0 [] 0).
Proof.
  assert (H1 : valid_status "warning") by (right; left; reflexivity).
  assert (H2 : ~ valid_status "degraded")
    by (intros [H | [H | H]]; discriminate H).
  split; [exact H1|]. split; [exact H2|]. split.
  - exact (proj2 (sdk_update_status_validates (SDKHealth.init 0 0) "degraded" 5) H2).
  - exact (proj1 (sdk_update_status_validates (SDKHealth.init 0 0) "warning" 5) H1).
Defined.

Lemma py_max_bounds (a b : Q) :
  (a <= SDKHealth.py_max a b)%Q /\ (b <= SDKHealth.py_max a b)%Q /\
  (SDKHealth.py_max a b = a \/ SDKHealth.py_max a b = b).
Proof.
  unfold SDKHealth.py_max. destruct (Qgt_bool b a) eqn:E.
  - apply Qgt_bool_iff in E. repeat split; [now apply Qlt_le_weak | apply Qle_refl | now right].
  - repeat split; [apply Qle_refl | | now left].
    destruct (Qlt_le_dec a b) as [L | L]; [|exact L].
    apply Qgt_bool_iff in L. congruence.
Qed.

(** X16: after any sequence of response times logged on a fresh monitor,
    [response_times] holds the last 100 of them in order, while
    [max_response_time] is at least every time ever logged, dropped ones
    included, and is either 0 or one of them; nothing else changes. *)
Theorem sdk_response_times_of_run (times : list Q) (now1 now2 : Q) :
  let h := fold_left SDKHealth.log_response_time times
                     (SDKHealth.init now1 now2) in
  SDKHealth.response_times h = skipn (length times - 100) times /\
  length (SDKHealth.response_times h) <= 100 /\
  (forall t, In t times -> (t <= SDKHealth.max_response_time h)%Q) /\
  (0 <= SDKHealth.max_response_time h)%Q /\
  (SDKHealth.max_response_time h = 0%Q \/
   In (SDKHealth.max_response_time h) times) /\
  SDKHealth.status h = "healthy" /\
  SDKHealth.error_count h = 0 /\ SDKHealth.total_checks h = 0.
Proof.
  intros h. subst h.
  induction times as [|t times (IH1 & IH2 & IH3 & IH4 & IH5 & IH6 & IH7 & IH8)]
    using rev_ind.
  - cbn. split; [reflexivity|]. split; [lia|]. split; [intros t []|].
    split; [apply Qle_refl|]. split; [now left|]. repeat split.
  - rewrite fold_left_app. cbn [fold_left].
    set (h := fold_left SDKHealth.log_response_time times
                        (SDKHealth.init now1 now2)) in *.
    clearbody h. unfold SDKHealth.log_response_time.
    cbn [SDKHealth.response_times SDKHealth.max_response_time SDKHealth.status
         SDKHealth.error_count SDKHealth.total_checks].
    destruct (py_max_bounds (SDKHealth.max_response_time h) t) as (Ma & Mb & Mc).
    assert (R : (if (100 <? length (SDKHealth.response_times h ++ [t]))%nat
                 then PyStr.list_slice_last 100 (SDKHealth.response_times h ++ [t])
                 else (SDKHealth.response_times h ++ [t])%list) =
                skipn (length (times ++ [t]) - 100) (times ++ [t]))
      by now apply capped_snoc.
    rewrite R. split; [reflexivity|].
    split; [rewrite length_skipn; lia|].
    split; [|split; [|split; [|tauto]]].
    + intros x Hx. apply in_app_or in Hx as [Hx | [<- | []]]; [|exact Mb].
      eapply Qle_trans; [apply IH3, Hx | exact Ma].
    + eapply Qle_trans; [exact IH4 | exact Ma].
    + destruct Mc as [-> | ->].
      * destruct IH5 as [-> | H]; [now left | right; apply in_or_app; now left].
      * right. apply in_or_app. right. now left.
Qed.

Lemma sdk_response_times_of_run_witness :
  In 150%Q [150%Q; 20%Q] /\
  (150 <= SDKHealth.max_response_time
            (fold_left SDKHealth.log_response_time [150%Q; 20%Q]
                       (SDKHealth.init 0 0)))%Q.
Proof.
  assert (H : In 150%Q [150%Q; 20%Q]) by now left.
  split; [exact H|].
  exact (proj1 (proj2 (proj2 (sdk_response_times_of_run [150%Q; 20%Q] 0 0)))
               150%Q H).
Defined.

Section SDKHealthProperties.

Variables fadd fsub fmul fdiv : Q -> Q -> Q.
Variable format_float : nat -> Q -> string.

Abbreviation perform := (SDKHealth.perform_health_check fadd fsub fmul fdiv
                                                        format_float).

(** X17: as long as no health check has been performed ([total_checks]
    is 0) the error rate is 0, so logging errors, however many, only
    raises [error_count]: the status and everything else stay as they
    were. *)
Theorem sdk_errors_before_first_check (self : SDKHealth.health)
        (error_types : list string) :
  SDKHealth.total_checks self = 0 ->
  fold_left (SDKHealth.log_error fmul fdiv) error_types self =
    SDKHealth.Health (SDKHealth.start_time self)
      (SDKHealth.last_health_check self) (SDKHealth.status self)
      (SDKHealth.error_count self + length error_types) 0
      (SDKHealth.response_times self) (SDKHealth.max_response_time self).
Proof.
  intros H0. revert self H0.
  induction error_types as [|e es IH]; intros self H0.
  - destruct self; cbn in *. subst. f_equal. lia.
  - cbn [fold_left]. rewrite IH.
    + unfold SDKHealth.log_error, SDKHealth.get_error_rate.
      cbn [SDKHealth.total_checks SDKHealth.start_time
           SDKHealth.last_health_check SDKHealth.status SDKHealth.error_count
           SDKHealth.response_times SDKHealth.max_response_time length].
      rewrite H0. cbn. f_equal. lia.
    + unfold SDKHealth.log_error. cbn [SDKHealth.total_checks]. exact H0.
Qed.

(** X18: a health check counts itself and stores the time of the check
    and the status it returns; that status is ["healthy"], ["warning"] or
    ["critical"], and it is ["healthy"] exactly when no issue is reported. *)
Theorem sdk_health_check_status (self : SDKHealth.health)
        (metrics : gmap string Q) (now1 now2 now3 : Q) :
  let self' := fst (perform self metrics now1 now2 now3) in
  let r := snd (perform self metrics now1 now2 now3) in
  SDKHealth.status self' = SDKHealth.check_status r /\
  SDKHealth.total_checks self' = SDKHealth.total_checks self + 1 /\
  SDKHealth.last_health_check self' = now1 /\
  SDKHealth.error_count self' = SDKHealth.error_count self /\
  valid_status (SDKHealth.check_status r) /\
  (SDKHealth.check_status r = "healthy" <-> SDKHealth.issues r = []) /\
  (SDKHealth.is_healthy self' = true <-> SDKHealth.issues r = []).
Proof.
  intros self' r. subst self' r. unfold SDKHealth.perform_health_check.
  cbv zeta. unfold valid_status, SDKHealth.is_healthy.
  repeat match goal with
         | |- context [Qgt_bool ?a ?b] => destruct (Qgt_bool a b)
         end;
    cbn [fst snd SDKHealth.status SDKHealth.check_status SDKHealth.issues
         SDKHealth.total_checks SDKHealth.last_health_check
         SDKHealth.error_count SDKHealth.warn_if_healthy app];
    (split; [reflexivity|]); (split; [reflexivity|]); (split; [reflexivity|]);
    (split; [reflexivity|]);
    (split; [cbn; tauto|]);
    (split; cbn; split; intros H; first [discriminate H | reflexivity]).
Qed.

(** X19: the memory check overrides what the CPU check decided: when the
    memory usage is above 85 but not above 95, the error rate not above 10
    and the average response time not above 5000, the status is
    ["warning"], also when the CPU usage is above 95. *)
Theorem sdk_memory_warning_overrides_cpu (self : SDKHealth.health)
        (metrics : gmap string Q) (now1 now2 now3 : Q) :
  let memory_usage := default 0%Q (metrics !! "memory_percent") in
  let r := snd (perform self metrics now1 now2 now3) in
  (85 < memory_usage)%Q -> ~ (95 < memory_usage)%Q ->
  ~ (10 < SDKHealth.error_rate r)%Q ->
  ~ (5000 < SDKHealth.average_response_time r)%Q ->
  SDKHealth.check_status r = "warning".
Proof.
  intros memory_usage r. subst memory_usage r.
  unfold SDKHealth.perform_health_check. cbv zeta.
  intros M1 M2. apply Qgt_bool_iff in M1.
  assert (M2' : Qgt_bool (default 0%Q (metrics !! "memory_percent")) 95 = false).
  { destruct (Qgt_bool _ 95) eqn:E; [|reflexivity].
    apply Qgt_bool_iff in E. contradiction. }
  unfold SDKHealth.memory_threshold. rewrite M1, M2'.
  repeat match goal with
         | |- context [Qgt_bool ?a ?b] => destruct (Qgt_bool a b) eqn:?
         end;
    cbn [snd SDKHealth.check_status SDKHealth.error_rate
         SDKHealth.average_response_time SDKHealth.warn_if_healthy];
    intros E1 E2; try reflexivity; exfalso;
    first [apply E1; now apply Qgt_bool_iff | apply E2; now apply Qgt_bool_iff].
Qed.

End SDKHealthProperties.

Lemma sdk_errors_before_first_check_witness :
  SDKHealth.total_checks (SDKHealth.init 0 0) = 0 /\
  SDKHealth.status
    (fold_left (SDKHealth.log_error exact_mul exact_div)
               ["Timeout"; "Timeout"; "ValueError"] (SDKHealth.init 0 0))
    = "healthy".
Proof.
  assert (H : SDKHealth.total_checks (SDKHealth.init 0 0) = 0) by reflexivity.
  split; [exact H|].
  rewrite (sdk_errors_before_first_check exact_mul exact_div
             (SDKHealth.init 0 0) ["Timeout"; "Timeout"; "ValueError"] H).
  reflexivity.
Defined.

Lemma sdk_health_check_status_witness :
  let r := snd (SDKHealth.perform_health_check exact_add Qminus exact_mul
                  exact_div no_format (SDKHealth.init 0 0) busy_metrics 1 2 3) in
  SDKHealth.check_status r = "healthy" <-> SDKHealth.issues r = [].
Proof.
  exact (proj1 (proj2 (proj2 (proj2 (proj2 (proj2
           (sdk_health_check_status exact_add Qminus exact_mul exact_div
              no_format (SDKHealth.init 0 0) busy_metrics 1 2 3))))))).
Defined.

Lemma sdk_memory_warning_overrides_cpu_witness :
  (95 < default 0%Q (busy_metrics !! "cpu_percent"))%Q /\
  SDKHealth.check_status
    (snd (SDKHealth.perform_health_check exact_add Qminus exact_mul exact_div
            no_format (SDKHealth.init 0 0) busy_metrics 1 2 3)) = "warning".
Proof.
  split; [vm_compute; reflexivity|].
  apply (sdk_memory_warning_overrides_cpu exact_add Qminus exact_mul exact_div
           no_format (SDKHealth.init 0 0) busy_metrics 1 2 3).
  - vm_compute. reflexivity.
  - intros H. vm_compute in H. discriminate H.
  - intros H. vm_compute in H. discriminate H.
  - intros H. vm_compute in H. discriminate H.
Defined.

(** ** [SDKMetrics] *)

Lemma total_of_empty {A} (f : A -> Z) : total_of f (∅ : gmap string A) = 0%Z.
Proof. unfold total_of. apply map_fold_empty. Qed.

Lemma total_of_insert_new {A} (f : A -> Z) (m : gmap string A) (k : string) (v : A) :
  m !! k = None -> total_of f (<[k := v]> m) = (f v + total_of f m)%Z.
Proof.
  intros H. unfold total_of.
  rewrite (map_fold_insert_L (fun _ v acc => (f v + acc)%Z)); [reflexivity | | exact H].
  intros. lia.
Qed.

Lemma total_of_insert {A} (f : A -> Z) (d : A) (m : gmap string A) (k : string)
      (v : A) :
  f d = 0%Z ->
  total_of f (<[k := v]> m) =
    (total_of f m - f (default d (m !! k)) + f v)%Z.
Proof.
  intros Hd. destruct (m !! k) as [x |] eqn:E; cbn [default from_option id].
  - rewrite <- (insert_delete_eq m k v).
    rewrite <- (insert_delete_id m k x E) at 2.
    rewrite !total_of_insert_new by apply lookup_delete_eq. lia.
  - rewrite total_of_insert_new by exact E. lia.
Qed.

Section SDKMetricsProperties.

Variables fadd fmul fdiv : Q -> Q -> Q.

Lemma metrics_step_consistent (m : SDKMetrics.collector) (c : metrics_call) :
  metrics_consistent m -> metrics_consistent (metrics_step fadd fmul fdiv m c).
Proof.
  intros (I1 & I2 & I3 & I4 & I5). unfold metrics_consistent.
  destruct c as [tokens cost tm | latency success tm | error_type tm | now];
    cbn [metrics_step].
  - unfold SDKMetrics.update_tokens.
    cbn [SDKMetrics.total_requests SDKMetrics.successful_requests
         SDKMetrics.failed_requests SDKMetrics.latencies SDKMetrics.errors
         SDKMetrics.hourly_metrics SDKMetrics.total_tokens].
    rewrite !(total_of_insert _ SDKMetrics.default_hourly) by reflexivity.
    fold (SDKMetrics.entry (SDKMetrics.hourly_metrics m)
                           (SDKMetrics._get_current_hour_key tm)).
    cbn [SDKMetrics.h_requests SDKMetrics.h_tokens SDKMetrics.h_errors].
    repeat split; try assumption; lia.
  - unfold SDKMetrics.update_request.
    cbn [SDKMetrics.total_requests SDKMetrics.successful_requests
         SDKMetrics.failed_requests SDKMetrics.latencies SDKMetrics.errors
         SDKMetrics.hourly_metrics SDKMetrics.total_tokens].
    rewrite !(total_of_insert _ SDKMetrics.default_hourly) by reflexivity.
    fold (SDKMetrics.entry (SDKMetrics.hourly_metrics m)
                           (SDKMetrics._get_current_hour_key tm)).
    cbn [SDKMetrics.h_requests SDKMetrics.h_tokens SDKMetrics.h_errors].
    rewrite length_app. cbn [length].
    repeat split; try (destruct success; lia); lia.
  - unfold SDKMetrics.update_error, SDK.incr.
    cbn [SDKMetrics.total_requests SDKMetrics.successful_requests
         SDKMetrics.failed_requests SDKMetrics.latencies SDKMetrics.errors
         SDKMetrics.hourly_metrics SDKMetrics.total_tokens].
    rewrite !(total_of_insert _ SDKMetrics.default_hourly) by reflexivity.
    rewrite (total_of_insert Z.of_nat 0) by reflexivity.
    fold (SDKMetrics.entry (SDKMetrics.hourly_metrics m)
                           (SDKMetrics._get_current_hour_key tm)).
    cbn [SDKMetrics.h_requests SDKMetrics.h_tokens SDKMetrics.h_errors].
    repeat split; try assumption; lia.
  - cbn. rewrite !total_of_empty. repeat split.
Qed.

(** X20: whatever sequence of updates and resets a collector has seen
    since it was made, its counters agree: every request is counted as
    successful or failed, there is one latency per request, and the hourly
    breakdown adds up to the totals of requests and tokens and to the sum
    of the error counts by type. *)
Theorem sdk_metrics_stay_consistent (calls : list metrics_call) (now : Q) :
  metrics_consistent
    (fold_left (metrics_step fadd fmul fdiv) calls (SDKMetrics.init now)).
Proof.
  induction calls as [|c calls IH] using rev_ind.
  - cbn. unfold metrics_consistent. cbn. rewrite !total_of_empty. repeat split.
  - rewrite fold_left_app. cbn [fold_left]. now apply metrics_step_consistent.
Qed.

(** X21: when the collector is driven by the tracker alone, an error is
    counted exactly when a tracked request fails, so the error counts by
    type add up to [failed_requests]. *)
Theorem sdk_tracker_errors_are_failures (calls : list tracker_call) (now : Q) :
  let m := fold_left (tracker_step fadd fmul fdiv) calls (SDKMetrics.init now) in
  total_of Z.of_nat (SDKMetrics.errors m) =
    Z.of_nat (SDKMetrics.failed_requests m) /\
  SDKMetrics.failed_requests m =
    length (List.filter (fun c => match c with
                                  | RequestFailed _ _ _ _ => true
                                  | _ => false
                                  end) calls).
Proof.
  intros m. subst m.
  induction calls as [|c calls [IH1 IH2]] using rev_ind.
  - cbn. rewrite total_of_empty. split; reflexivity.
  - rewrite fold_left_app, List.filter_app, length_app. cbn [fold_left].
    set (m := fold_left (tracker_step fadd fmul fdiv) calls
                        (SDKMetrics.init now)) in *.
    clearbody m.
    destruct c as [i o cost tm | latency tm | latency error_type tm1 tm2];
      cbn [tracker_step List.filter length];
      unfold SDKMetrics.tracker_log_tokens, SDKMetrics.tracker_request_succeeded,
             SDKMetrics.tracker_request_failed, SDKMetrics.update_tokens,
             SDKMetrics.update_request, SDKMetrics.update_error, SDK.incr;
      cbn [SDKMetrics.errors SDKMetrics.failed_requests].
    + split; [exact IH1 | lia].
    + split; [exact IH1 | lia].
    + rewrite (total_of_insert Z.of_nat 0) by reflexivity. split; lia.
Qed.

End SDKMetricsProperties.

(** The hour keys. *)

Lemma to_uint_nonnil (n : nat) : Nat.to_uint n <> Decimal.Nil.
Proof.
  rewrite <- (DecimalNat.Unsigned.of_to n) at 1.
  rewrite DecimalNat.Unsigned.to_of. apply DecimalFacts.unorm_nonnil.
Qed.

Lemma str_of_nat_inj (a b : nat) : str_of_nat a = str_of_nat b -> a = b.
Proof.
  unfold str_of_nat. intros H.
  apply (f_equal NilZero.uint_of_string) in H.
  rewrite !NilZero.usu in H by apply to_uint_nonnil.
  injection H as H. apply (f_equal Nat.of_uint) in H.
  now rewrite !DecimalNat.Unsigned.of_to in H.
Qed.

Lemma list_ascii_of_string_inj (s1 s2 : string) :
  list_ascii_of_string s1 = list_ascii_of_string s2 -> s1 = s2.
Proof.
  intros H. apply (f_equal string_of_list_ascii) in H.
  now rewrite !string_of_list_ascii_of_string in H.
Qed.

Lemma length_list_ascii (s : string) :
  length (list_ascii_of_string s) = String.length s.
Proof. induction s as [|a s IH]; simpl; [reflexivity | now rewrite IH]. Qed.

Lemma append_inj_suffix (s1 s2 t1 t2 : string) :
  String.length t1 = String.length t2 ->
  s1 +:+ t1 = s2 +:+ t2 -> s1 = s2 /\ t1 = t2.
Proof.
  intros L H. apply (f_equal list_ascii_of_string) in H.
  rewrite !list_ascii_of_string_app in H.
  apply app_inj_2 in H as [H1 H2]; [|now rewrite !length_list_ascii].
  split; now apply list_ascii_of_string_inj.
Qed.

Lemma pad2_two_chars (n : nat) :
  n < 100 -> String.length (SDKMetrics.pad2 n) = 2.
Proof.
  intros H.
  assert (F : forallb (fun k => (String.length (SDKMetrics.pad2 k) =? 2)%nat)
                      (seq 0 100) = true) by (vm_compute; reflexivity).
  rewrite forallb_forall in F. apply Nat.eqb_eq, F, in_seq. lia.
Qed.

Lemma pad2_inj (a b : nat) :
  a < 100 -> b < 100 -> SDKMetrics.pad2 a = SDKMetrics.pad2 b -> a = b.
Proof.
  intros Ha Hb.
  assert (D : forall k, k < 100 ->
                        String.eqb (String.substring 0 1 (str_of_nat k)) "0" = true ->
                        k < 10).
  { intros k Hk.
    assert (F : forallb (fun k =>
                   implb (String.eqb (String.substring 0 1 (str_of_nat k)) "0")
                         (k <? 10)%nat)
                  (seq 0 100) = true) by (vm_compute; reflexivity).
    rewrite forallb_forall in F. intros E.
    assert (Hin : In k (seq 0 100)) by (apply in_seq; lia).
    specialize (F k Hin). rewrite E in F. cbn [implb] in F.
    now apply Nat.ltb_lt in F. }
  unfold SDKMetrics.pad2.
  destruct (Nat.ltb_spec a 10) as [A | A]; destruct (Nat.ltb_spec b 10) as [B | B];
    intros H.
  - cbn in H. injection H as H. now apply str_of_nat_inj.
  - exfalso. assert (b < 10); [|lia]. apply D; [assumption|].
    rewrite <- H. cbn. destruct (str_of_nat a); reflexivity.
  - exfalso. assert (a < 10); [|lia]. apply D; [assumption|].
    rewrite H. cbn. destruct (str_of_nat b); reflexivity.
  - now apply str_of_nat_inj.
Qed.

(** X22: the hour key is an injective encoding of the local hour: two
    local times get the same key only when they agree on year, month, day
    and hour, so two different hours never share an entry of the hourly
    breakdown. *)
Theorem hour_key_injective (tm1 tm2 : SDKMetrics.struct_time) :
  valid_time tm1 -> valid_time tm2 ->
  SDKMetrics._get_current_hour_key tm1 = SDKMetrics._get_current_hour_key tm2 ->
  tm1 = tm2.
Proof.
  intros (M1 & D1 & H1) (M2 & D2 & H2) E.
  destruct tm1 as [y1 m1 d1 h1], tm2 as [y2 m2 d2 h2].
  unfold SDKMetrics._get_current_hour_key in E.
  cbn [SDKMetrics.tm_year SDKMetrics.tm_mon SDKMetrics.tm_mday
       SDKMetrics.tm_hour] in *.
  pose proof (pad2_two_chars m1 ltac:(lia)) as Lm1.
  pose proof (pad2_two_chars m2 ltac:(lia)) as Lm2.
  pose proof (pad2_two_chars d1 ltac:(lia)) as Ld1.
  pose proof (pad2_two_chars d2 ltac:(lia)) as Ld2.
  pose proof (pad2_two_chars h1 ltac:(lia)) as Lh1.
  pose proof (pad2_two_chars h2 ltac:(lia)) as Lh2.
  remember (SDKMetrics.pad2 m1) as pm1 eqn:Em1.
  remember (SDKMetrics.pad2 m2) as pm2 eqn:Em2.
  remember (SDKMetrics.pad2 d1) as pd1 eqn:Ed1.
  remember (SDKMetrics.pad2 d2) as pd2 eqn:Ed2.
  remember (SDKMetrics.pad2 h1) as ph1 eqn:Eh1.
  remember (SDKMetrics.pad2 h2) as ph2 eqn:Eh2.
  apply (append_inj_suffix (str_of_nat y1) (str_of_nat y2)) in E as [Ey E].
  2:{ rewrite !length_app_string. cbn [String.length]. lia. }
  apply str_of_nat_inj in Ey.
  cbn in E. injection E as E.
  apply (append_inj_suffix pm1 pm2) in E as [Em E].
  2:{ rewrite !length_app_string. cbn [String.length]. lia. }
  cbn in E. injection E as E.
  apply (append_inj_suffix pd1 pd2) in E as [Ed E].
  2:{ rewrite !length_app_string. cbn [String.length]. lia. }
  cbn in E. injection E as E.
  subst pm1 pd1 ph1.
  rewrite Em2 in Em. rewrite Ed2 in Ed. rewrite Eh2 in E.
  apply pad2_inj in Em; [|lia|lia].
  apply pad2_inj in Ed; [|lia|lia].
  apply pad2_inj in E; [|lia|lia].
  now subst.
Qed.

Lemma hour_key_injective_witness :
  valid_time (SDKMetrics.StructTime 2024 1 9 7) /\
  SDKMetrics._get_current_hour_key (SDKMetrics.StructTime 2024 1 9 7)
    = "2024-01-09-07" /\
  forall tm, valid_time tm ->
             SDKMetrics._get_current_hour_key tm = "2024-01-09-07" ->
             tm = SDKMetrics.StructTime 2024 1 9 7.
Proof.
  assert (V : valid_time (SDKMetrics.StructTime 2024 1 9 7))
    by (unfold valid_time; cbn; lia).
  split; [exact V|]. split; [vm_compute; reflexivity|].
  intros tm Vtm E.
  exact (hour_key_injective tm (SDKMetrics.StructTime 2024 1 9 7) Vtm V E).
Defined.
